(** * A shallow embedding of the neschan PPU ([lib/inc/nes_ppu.h])

    The C++ class [nes_ppu] is modelled as a record of its data members and
    each inline member function as a function on that record.  Unsigned
    8- and 16-bit members are integers in [Z] with the conversions
    [uint8_t] and [uint16_t] written where the C++ code narrows a value.
    The two heap arrays are lists; an access outside of the video memory
    array has no defined result in C++ and is modelled by [None]. *)

From stdpp Require Import base numbers list option.

Local Open Scope Z_scope.

(** ** Constants of the header *)

Definition PPU_VRAM_SIZE : Z := 0x4000.
Definition PPU_OAM_SIZE : Z := 0x100.

Definition PPUCTRL_BASE_NAME_TABLE_ADDR_MASK : Z := 0x3.
Definition PPUCTRL_VRAM_ADDR_MASK : Z := 0x4.
Definition PPUCTRL_SPRITE_PATTERN_TABLE_ADDR : Z := 0x8.
Definition PPUCTRL_BACKGROUND_PATTERN_TABLE_ADDRESS_MASK : Z := 0x10.
Definition PPUCTRL_SPRITE_SIZE_MASK : Z := 0x20.
Definition PPUCTRL_PPU_MASTER_SLAVE_SELECT : Z := 0x40.
Definition PPUCTRL_NMI_AT_VBLANK_MASK : Z := 0x80.

Definition PPUMASK_GRAYSCALE : Z := 0x1.
Definition PPUMASK_BACKGROUND_IN_LEFTMOST_8 : Z := 0x2.
Definition PPUMASK_SPRITE_IN_LEFTMOST_8 : Z := 0x4.
Definition PPUMASK_SHOW_BACKGROUND : Z := 0x8.
Definition PPUMASK_SHOW_SPRITES : Z := 0x10.
Definition PPUMASK_EMPHASIZE_RED : Z := 0x20.
Definition PPUMASK_EMPHASIZE_GREEN : Z := 0x40.
Definition PPUMASK_EMPHASIZE_BLUE : Z := 0x80.

Definition PPUSTATUS_LATCH_MASK : Z := 0x1f.
Definition PPUSTATUS_SPRITE_OVERFLOW : Z := 0x20.
Definition PPUSTATUS_SPRITE_0_HIT : Z := 0x40.
Definition PPUSTATUS_VBLANK_START : Z := 0x80.

Definition PPU_SCREEN_Y : Z := 240.
Definition PPU_SCANLINE_COUNT : Z := 262.

(** ** Machine integers *)

(** Conversion of an [int] value to [uint8_t] and to [uint16_t]. *)
Definition uint8_t (x : Z) : Z := x mod 2 ^ 8.
Definition uint16_t (x : Z) : Z := x mod 2 ^ 16.

(** Conversion of an integer to [bool]: every non-zero value is [true]. *)
Definition to_bool (x : Z) : bool := negb (x =? 0).

(** Modelled from the spec: the cycle types [nes_cycle_t] and
    [nes_ppu_cycle_t] are declared in [nes_cycle.h], outside of the header
    this development covers.  The spec counts the warm-up threshold in
    master cycles (readiness once the master cycle counter exceeds 29658),
    so a PPU cycle count denotes the same number of master cycles. *)
Definition nes_ppu_cycle_t (n : Z) : Z := n.

(** ** The state of the PPU

    The fields follow the private data members of [class nes_ppu].  The
    handle [_system] to the owning system is not part of the state; the CPU
    memory it gives access to is passed to [oam_dma] as a function. *)

Record nes_ppu : Type := mk_nes_ppu {
  _vram : list Z;
  _oam : list Z;
  (* PPUCTRL data *)
  _name_tbl_addr : Z;
  _pattern_tbl_addr : Z;
  _ppu_addr_inc : Z;
  _vblank_nmi : bool;
  _use_8x16_sprite : bool;
  (* PPUMASK *)
  _show_bg : bool;
  _show_sprites : bool;
  _gray_scale_mode : bool;
  (* PPUSTATUS *)
  _latch : Z;
  _sprite_overflow : bool;
  _vblank_started : bool;
  _sprite_0_hit : bool;
  (* OAMADDR, OAMDATA *)
  _oam_addr : Z;
  (* PPUSCROLL *)
  _addr_latch : Z;
  _scroll_x : Z;
  _scroll_y : Z;
  (* PPUADDR *)
  _ppu_addr : Z;
  (* timing counters *)
  _master_cycle : Z;
  _scanline_cycle : Z;
  _cur_scanline : Z;
  _frame_count : Z;
  (* protection and test hook *)
  _protect_register : bool;
  _stop_after_frame : Z;
  (* rendering states *)
  _tile_index : Z;
  _tile_palette_bit32 : Z;
  _tile_addr : Z;
  _bitplane0 : Z;
  _frame_buffer : list Z;
  _pixel_cycle : list Z
}.

Definition set_vram (x : list Z) (s : nes_ppu) : nes_ppu :=
  {| _vram := x; _oam := _oam s; _name_tbl_addr := _name_tbl_addr s;
    _pattern_tbl_addr := _pattern_tbl_addr s;
    _ppu_addr_inc := _ppu_addr_inc s; _vblank_nmi := _vblank_nmi s;
    _use_8x16_sprite := _use_8x16_sprite s; _show_bg := _show_bg s;
    _show_sprites := _show_sprites s; _gray_scale_mode := _gray_scale_mode s;
    _latch := _latch s; _sprite_overflow := _sprite_overflow s;
    _vblank_started := _vblank_started s; _sprite_0_hit := _sprite_0_hit s;
    _oam_addr := _oam_addr s; _addr_latch := _addr_latch s;
    _scroll_x := _scroll_x s; _scroll_y := _scroll_y s;
    _ppu_addr := _ppu_addr s; _master_cycle := _master_cycle s;
    _scanline_cycle := _scanline_cycle s; _cur_scanline := _cur_scanline s;
    _frame_count := _frame_count s; _protect_register := _protect_register s;
    _stop_after_frame := _stop_after_frame s; _tile_index := _tile_index s;
    _tile_palette_bit32 := _tile_palette_bit32 s; _tile_addr := _tile_addr s;
    _bitplane0 := _bitplane0 s; _frame_buffer := _frame_buffer s;
    _pixel_cycle := _pixel_cycle s |}.

Definition set_oam (x : list Z) (s : nes_ppu) : nes_ppu :=
  {| _vram := _vram s; _oam := x; _name_tbl_addr := _name_tbl_addr s;
    _pattern_tbl_addr := _pattern_tbl_addr s;
    _ppu_addr_inc := _ppu_addr_inc s; _vblank_nmi := _vblank_nmi s;
    _use_8x16_sprite := _use_8x16_sprite s; _show_bg := _show_bg s;
    _show_sprites := _show_sprites s; _gray_scale_mode := _gray_scale_mode s;
    _latch := _latch s; _sprite_overflow := _sprite_overflow s;
    _vblank_started := _vblank_started s; _sprite_0_hit := _sprite_0_hit s;
    _oam_addr := _oam_addr s; _addr_latch := _addr_latch s;
    _scroll_x := _scroll_x s; _scroll_y := _scroll_y s;
    _ppu_addr := _ppu_addr s; _master_cycle := _master_cycle s;
    _scanline_cycle := _scanline_cycle s; _cur_scanline := _cur_scanline s;
    _frame_count := _frame_count s; _protect_register := _protect_register s;
    _stop_after_frame := _stop_after_frame s; _tile_index := _tile_index s;
    _tile_palette_bit32 := _tile_palette_bit32 s; _tile_addr := _tile_addr s;
    _bitplane0 := _bitplane0 s; _frame_buffer := _frame_buffer s;
    _pixel_cycle := _pixel_cycle s |}.

Definition set_name_tbl_addr (x : Z) (s : nes_ppu) : nes_ppu :=
  {| _vram := _vram s; _oam := _oam s; _name_tbl_addr := x;
    _pattern_tbl_addr := _pattern_tbl_addr s;
    _ppu_addr_inc := _ppu_addr_inc s; _vblank_nmi := _vblank_nmi s;
    _use_8x16_sprite := _use_8x16_sprite s; _show_bg := _show_bg s;
    _show_sprites := _show_sprites s; _gray_scale_mode := _gray_scale_mode s;
    _latch := _latch s; _sprite_overflow := _sprite_overflow s;
    _vblank_started := _vblank_started s; _sprite_0_hit := _sprite_0_hit s;
    _oam_addr := _oam_addr s; _addr_latch := _addr_latch s;
    _scroll_x := _scroll_x s; _scroll_y := _scroll_y s;
    _ppu_addr := _ppu_addr s; _master_cycle := _master_cycle s;
    _scanline_cycle := _scanline_cycle s; _cur_scanline := _cur_scanline s;
    _frame_count := _frame_count s; _protect_register := _protect_register s;
    _stop_after_frame := _stop_after_frame s; _tile_index := _tile_index s;
    _tile_palette_bit32 := _tile_palette_bit32 s; _tile_addr := _tile_addr s;
    _bitplane0 := _bitplane0 s; _frame_buffer := _frame_buffer s;
    _pixel_cycle := _pixel_cycle s |}.

Definition set_pattern_tbl_addr (x : Z) (s : nes_ppu) : nes_ppu :=
  {| _vram := _vram s; _oam := _oam s; _name_tbl_addr := _name_tbl_addr s;
    _pattern_tbl_addr := x; _ppu_addr_inc := _ppu_addr_inc s;
    _vblank_nmi := _vblank_nmi s; _use_8x16_sprite := _use_8x16_sprite s;
    _show_bg := _show_bg s; _show_sprites := _show_sprites s;
    _gray_scale_mode := _gray_scale_mode s; _latch := _latch s;
    _sprite_overflow := _sprite_overflow s;
    _vblank_started := _vblank_started s; _sprite_0_hit := _sprite_0_hit s;
    _oam_addr := _oam_addr s; _addr_latch := _addr_latch s;
    _scroll_x := _scroll_x s; _scroll_y := _scroll_y s;
    _ppu_addr := _ppu_addr s; _master_cycle := _master_cycle s;
    _scanline_cycle := _scanline_cycle s; _cur_scanline := _cur_scanline s;
    _frame_count := _frame_count s; _protect_register := _protect_register s;
    _stop_after_frame := _stop_after_frame s; _tile_index := _tile_index s;
    _tile_palette_bit32 := _tile_palette_bit32 s; _tile_addr := _tile_addr s;
    _bitplane0 := _bitplane0 s; _frame_buffer := _frame_buffer s;
    _pixel_cycle := _pixel_cycle s |}.

Definition set_ppu_addr_inc (x : Z) (s : nes_ppu) : nes_ppu :=
  {| _vram := _vram s; _oam := _oam s; _name_tbl_addr := _name_tbl_addr s;
    _pattern_tbl_addr := _pattern_tbl_addr s; _ppu_addr_inc := x;
    _vblank_nmi := _vblank_nmi s; _use_8x16_sprite := _use_8x16_sprite s;
    _show_bg := _show_bg s; _show_sprites := _show_sprites s;
    _gray_scale_mode := _gray_scale_mode s; _latch := _latch s;
    _sprite_overflow := _sprite_overflow s;
    _vblank_started := _vblank_started s; _sprite_0_hit := _sprite_0_hit s;
    _oam_addr := _oam_addr s; _addr_latch := _addr_latch s;
    _scroll_x := _scroll_x s; _scroll_y := _scroll_y s;
    _ppu_addr := _ppu_addr s; _master_cycle := _master_cycle s;
    _scanline_cycle := _scanline_cycle s; _cur_scanline := _cur_scanline s;
    _frame_count := _frame_count s; _protect_register := _protect_register s;
    _stop_after_frame := _stop_after_frame s; _tile_index := _tile_index s;
    _tile_palette_bit32 := _tile_palette_bit32 s; _tile_addr := _tile_addr s;
    _bitplane0 := _bitplane0 s; _frame_buffer := _frame_buffer s;
    _pixel_cycle := _pixel_cycle s |}.

Definition set_vblank_nmi (x : bool) (s : nes_ppu) : nes_ppu :=
  {| _vram := _vram s; _oam := _oam s; _name_tbl_addr := _name_tbl_addr s;
    _pattern_tbl_addr := _pattern_tbl_addr s;
    _ppu_addr_inc := _ppu_addr_inc s; _vblank_nmi := x;
    _use_8x16_sprite := _use_8x16_sprite s; _show_bg := _show_bg s;
    _show_sprites := _show_sprites s; _gray_scale_mode := _gray_scale_mode s;
    _latch := _latch s; _sprite_overflow := _sprite_overflow s;
    _vblank_started := _vblank_started s; _sprite_0_hit := _sprite_0_hit s;
    _oam_addr := _oam_addr s; _addr_latch := _addr_latch s;
    _scroll_x := _scroll_x s; _scroll_y := _scroll_y s;
    _ppu_addr := _ppu_addr s; _master_cycle := _master_cycle s;
    _scanline_cycle := _scanline_cycle s; _cur_scanline := _cur_scanline s;
    _frame_count := _frame_count s; _protect_register := _protect_register s;
    _stop_after_frame := _stop_after_frame s; _tile_index := _tile_index s;
    _tile_palette_bit32 := _tile_palette_bit32 s; _tile_addr := _tile_addr s;
    _bitplane0 := _bitplane0 s; _frame_buffer := _frame_buffer s;
    _pixel_cycle := _pixel_cycle s |}.

Definition set_use_8x16_sprite (x : bool) (s : nes_ppu) : nes_ppu :=
  {| _vram := _vram s; _oam := _oam s; _name_tbl_addr := _name_tbl_addr s;
    _pattern_tbl_addr := _pattern_tbl_addr s;
    _ppu_addr_inc := _ppu_addr_inc s; _vblank_nmi := _vblank_nmi s;
    _use_8x16_sprite := x; _show_bg := _show_bg s;
    _show_sprites := _show_sprites s; _gray_scale_mode := _gray_scale_mode s;
    _latch := _latch s; _sprite_overflow := _sprite_overflow s;
    _vblank_started := _vblank_started s; _sprite_0_hit := _sprite_0_hit s;
    _oam_addr := _oam_addr s; _addr_latch := _addr_latch s;
    _scroll_x := _scroll_x s; _scroll_y := _scroll_y s;
    _ppu_addr := _ppu_addr s; _master_cycle := _master_cycle s;
    _scanline_cycle := _scanline_cycle s; _cur_scanline := _cur_scanline s;
    _frame_count := _frame_count s; _protect_register := _protect_register s;
    _stop_after_frame := _stop_after_frame s; _tile_index := _tile_index s;
    _tile_palette_bit32 := _tile_palette_bit32 s; _tile_addr := _tile_addr s;
    _bitplane0 := _bitplane0 s; _frame_buffer := _frame_buffer s;
    _pixel_cycle := _pixel_cycle s |}.

Definition set_show_bg (x : bool) (s : nes_ppu) : nes_ppu :=
  {| _vram := _vram s; _oam := _oam s; _name_tbl_addr := _name_tbl_addr s;
    _pattern_tbl_addr := _pattern_tbl_addr s;
    _ppu_addr_inc := _ppu_addr_inc s; _vblank_nmi := _vblank_nmi s;
    _use_8x16_sprite := _use_8x16_sprite s; _show_bg := x;
    _show_sprites := _show_sprites s; _gray_scale_mode := _gray_scale_mode s;
    _latch := _latch s; _sprite_overflow := _sprite_overflow s;
    _vblank_started := _vblank_started s; _sprite_0_hit := _sprite_0_hit s;
    _oam_addr := _oam_addr s; _addr_latch := _addr_latch s;
    _scroll_x := _scroll_x s; _scroll_y := _scroll_y s;
    _ppu_addr := _ppu_addr s; _master_cycle := _master_cycle s;
    _scanline_cycle := _scanline_cycle s; _cur_scanline := _cur_scanline s;
    _frame_count := _frame_count s; _protect_register := _protect_register s;
    _stop_after_frame := _stop_after_frame s; _tile_index := _tile_index s;
    _tile_palette_bit32 := _tile_palette_bit32 s; _tile_addr := _tile_addr s;
    _bitplane0 := _bitplane0 s; _frame_buffer := _frame_buffer s;
    _pixel_cycle := _pixel_cycle s |}.

Definition set_show_sprites (x : bool) (s : nes_ppu) : nes_ppu :=
  {| _vram := _vram s; _oam := _oam s; _name_tbl_addr := _name_tbl_addr s;
    _pattern_tbl_addr := _pattern_tbl_addr s;
    _ppu_addr_inc := _ppu_addr_inc s; _vblank_nmi := _vblank_nmi s;
    _use_8x16_sprite := _use_8x16_sprite s; _show_bg := _show_bg s;
    _show_sprites := x; _gray_scale_mode := _gray_scale_mode s;
    _latch := _latch s; _sprite_overflow := _sprite_overflow s;
    _vblank_started := _vblank_started s; _sprite_0_hit := _sprite_0_hit s;
    _oam_addr := _oam_addr s; _addr_latch := _addr_latch s;
    _scroll_x := _scroll_x s; _scroll_y := _scroll_y s;
    _ppu_addr := _ppu_addr s; _master_cycle := _master_cycle s;
    _scanline_cycle := _scanline_cycle s; _cur_scanline := _cur_scanline s;
    _frame_count := _frame_count s; _protect_register := _protect_register s;
    _stop_after_frame := _stop_after_frame s; _tile_index := _tile_index s;
    _tile_palette_bit32 := _tile_palette_bit32 s; _tile_addr := _tile_addr s;
    _bitplane0 := _bitplane0 s; _frame_buffer := _frame_buffer s;
    _pixel_cycle := _pixel_cycle s |}.

Definition set_gray_scale_mode (x : bool) (s : nes_ppu) : nes_ppu :=
  {| _vram := _vram s; _oam := _oam s; _name_tbl_addr := _name_tbl_addr s;
    _pattern_tbl_addr := _pattern_tbl_addr s;
    _ppu_addr_inc := _ppu_addr_inc s; _vblank_nmi := _vblank_nmi s;
    _use_8x16_sprite := _use_8x16_sprite s; _show_bg := _show_bg s;
    _show_sprites := _show_sprites s; _gray_scale_mode := x;
    _latch := _latch s; _sprite_overflow := _sprite_overflow s;
    _vblank_started := _vblank_started s; _sprite_0_hit := _sprite_0_hit s;
    _oam_addr := _oam_addr s; _addr_latch := _addr_latch s;
    _scroll_x := _scroll_x s; _scroll_y := _scroll_y s;
    _ppu_addr := _ppu_addr s; _master_cycle := _master_cycle s;
    _scanline_cycle := _scanline_cycle s; _cur_scanline := _cur_scanline s;
    _frame_count := _frame_count s; _protect_register := _protect_register s;
    _stop_after_frame := _stop_after_frame s; _tile_index := _tile_index s;
    _tile_palette_bit32 := _tile_palette_bit32 s; _tile_addr := _tile_addr s;
    _bitplane0 := _bitplane0 s; _frame_buffer := _frame_buffer s;
    _pixel_cycle := _pixel_cycle s |}.

Definition set_latch (x : Z) (s : nes_ppu) : nes_ppu :=
  {| _vram := _vram s; _oam := _oam s; _name_tbl_addr := _name_tbl_addr s;
    _pattern_tbl_addr := _pattern_tbl_addr s;
    _ppu_addr_inc := _ppu_addr_inc s; _vblank_nmi := _vblank_nmi s;
    _use_8x16_sprite := _use_8x16_sprite s; _show_bg := _show_bg s;
    _show_sprites := _show_sprites s; _gray_scale_mode := _gray_scale_mode s;
    _latch := x; _sprite_overflow := _sprite_overflow s;
    _vblank_started := _vblank_started s; _sprite_0_hit := _sprite_0_hit s;
    _oam_addr := _oam_addr s; _addr_latch := _addr_latch s;
    _scroll_x := _scroll_x s; _scroll_y := _scroll_y s;
    _ppu_addr := _ppu_addr s; _master_cycle := _master_cycle s;
    _scanline_cycle := _scanline_cycle s; _cur_scanline := _cur_scanline s;
    _frame_count := _frame_count s; _protect_register := _protect_register s;
    _stop_after_frame := _stop_after_frame s; _tile_index := _tile_index s;
    _tile_palette_bit32 := _tile_palette_bit32 s; _tile_addr := _tile_addr s;
    _bitplane0 := _bitplane0 s; _frame_buffer := _frame_buffer s;
    _pixel_cycle := _pixel_cycle s |}.

Definition set_sprite_overflow (x : bool) (s : nes_ppu) : nes_ppu :=
  {| _vram := _vram s; _oam := _oam s; _name_tbl_addr := _name_tbl_addr s;
    _pattern_tbl_addr := _pattern_tbl_addr s;
    _ppu_addr_inc := _ppu_addr_inc s; _vblank_nmi := _vblank_nmi s;
    _use_8x16_sprite := _use_8x16_sprite s; _show_bg := _show_bg s;
    _show_sprites := _show_sprites s; _gray_scale_mode := _gray_scale_mode s;
    _latch := _latch s; _sprite_overflow := x;
    _vblank_started := _vblank_started s; _sprite_0_hit := _sprite_0_hit s;
    _oam_addr := _oam_addr s; _addr_latch := _addr_latch s;
    _scroll_x := _scroll_x s; _scroll_y := _scroll_y s;
    _ppu_addr := _ppu_addr s; _master_cycle := _master_cycle s;
    _scanline_cycle := _scanline_cycle s; _cur_scanline := _cur_scanline s;
    _frame_count := _frame_count s; _protect_register := _protect_register s;
    _stop_after_frame := _stop_after_frame s; _tile_index := _tile_index s;
    _tile_palette_bit32 := _tile_palette_bit32 s; _tile_addr := _tile_addr s;
    _bitplane0 := _bitplane0 s; _frame_buffer := _frame_buffer s;
    _pixel_cycle := _pixel_cycle s |}.

Definition set_vblank_started (x : bool) (s : nes_ppu) : nes_ppu :=
  {| _vram := _vram s; _oam := _oam s; _name_tbl_addr := _name_tbl_addr s;
    _pattern_tbl_addr := _pattern_tbl_addr s;
    _ppu_addr_inc := _ppu_addr_inc s; _vblank_nmi := _vblank_nmi s;
    _use_8x16_sprite := _use_8x16_sprite s; _show_bg := _show_bg s;
    _show_sprites := _show_sprites s; _gray_scale_mode := _gray_scale_mode s;
    _latch := _latch s; _sprite_overflow := _sprite_overflow s;
    _vblank_started := x; _sprite_0_hit := _sprite_0_hit s;
    _oam_addr := _oam_addr s; _addr_latch := _addr_latch s;
    _scroll_x := _scroll_x s; _scroll_y := _scroll_y s;
    _ppu_addr := _ppu_addr s; _master_cycle := _master_cycle s;
    _scanline_cycle := _scanline_cycle s; _cur_scanline := _cur_scanline s;
    _frame_count := _frame_count s; _protect_register := _protect_register s;
    _stop_after_frame := _stop_after_frame s; _tile_index := _tile_index s;
    _tile_palette_bit32 := _tile_palette_bit32 s; _tile_addr := _tile_addr s;
    _bitplane0 := _bitplane0 s; _frame_buffer := _frame_buffer s;
    _pixel_cycle := _pixel_cycle s |}.

Definition set_sprite_0_hit (x : bool) (s : nes_ppu) : nes_ppu :=
  {| _vram := _vram s; _oam := _oam s; _name_tbl_addr := _name_tbl_addr s;
    _pattern_tbl_addr := _pattern_tbl_addr s;
    _ppu_addr_inc := _ppu_addr_inc s; _vblank_nmi := _vblank_nmi s;
    _use_8x16_sprite := _use_8x16_sprite s; _show_bg := _show_bg s;
    _show_sprites := _show_sprites s; _gray_scale_mode := _gray_scale_mode s;
    _latch := _latch s; _sprite_overflow := _sprite_overflow s;
    _vblank_started := _vblank_started s; _sprite_0_hit := x;
    _oam_addr := _oam_addr s; _addr_latch := _addr_latch s;
    _scroll_x := _scroll_x s; _scroll_y := _scroll_y s;
    _ppu_addr := _ppu_addr s; _master_cycle := _master_cycle s;
    _scanline_cycle := _scanline_cycle s; _cur_scanline := _cur_scanline s;
    _frame_count := _frame_count s; _protect_register := _protect_register s;
    _stop_after_frame := _stop_after_frame s; _tile_index := _tile_index s;
    _tile_palette_bit32 := _tile_palette_bit32 s; _tile_addr := _tile_addr s;
    _bitplane0 := _bitplane0 s; _frame_buffer := _frame_buffer s;
    _pixel_cycle := _pixel_cycle s |}.

Definition set_oam_addr (x : Z) (s : nes_ppu) : nes_ppu :=
  {| _vram := _vram s; _oam := _oam s; _name_tbl_addr := _name_tbl_addr s;
    _pattern_tbl_addr := _pattern_tbl_addr s;
    _ppu_addr_inc := _ppu_addr_inc s; _vblank_nmi := _vblank_nmi s;
    _use_8x16_sprite := _use_8x16_sprite s; _show_bg := _show_bg s;
    _show_sprites := _show_sprites s; _gray_scale_mode := _gray_scale_mode s;
    _latch := _latch s; _sprite_overflow := _sprite_overflow s;
    _vblank_started := _vblank_started s; _sprite_0_hit := _sprite_0_hit s;
    _oam_addr := x; _addr_latch := _addr_latch s; _scroll_x := _scroll_x s;
    _scroll_y := _scroll_y s; _ppu_addr := _ppu_addr s;
    _master_cycle := _master_cycle s; _scanline_cycle := _scanline_cycle s;
    _cur_scanline := _cur_scanline s; _frame_count := _frame_count s;
    _protect_register := _protect_register s;
    _stop_after_frame := _stop_after_frame s; _tile_index := _tile_index s;
    _tile_palette_bit32 := _tile_palette_bit32 s; _tile_addr := _tile_addr s;
    _bitplane0 := _bitplane0 s; _frame_buffer := _frame_buffer s;
    _pixel_cycle := _pixel_cycle s |}.

Definition set_addr_latch (x : Z) (s : nes_ppu) : nes_ppu :=
  {| _vram := _vram s; _oam := _oam s; _name_tbl_addr := _name_tbl_addr s;
    _pattern_tbl_addr := _pattern_tbl_addr s;
    _ppu_addr_inc := _ppu_addr_inc s; _vblank_nmi := _vblank_nmi s;
    _use_8x16_sprite := _use_8x16_sprite s; _show_bg := _show_bg s;
    _show_sprites := _show_sprites s; _gray_scale_mode := _gray_scale_mode s;
    _latch := _latch s; _sprite_overflow := _sprite_overflow s;
    _vblank_started := _vblank_started s; _sprite_0_hit := _sprite_0_hit s;
    _oam_addr := _oam_addr s; _addr_latch := x; _scroll_x := _scroll_x s;
    _scroll_y := _scroll_y s; _ppu_addr := _ppu_addr s;
    _master_cycle := _master_cycle s; _scanline_cycle := _scanline_cycle s;
    _cur_scanline := _cur_scanline s; _frame_count := _frame_count s;
    _protect_register := _protect_register s;
    _stop_after_frame := _stop_after_frame s; _tile_index := _tile_index s;
    _tile_palette_bit32 := _tile_palette_bit32 s; _tile_addr := _tile_addr s;
    _bitplane0 := _bitplane0 s; _frame_buffer := _frame_buffer s;
    _pixel_cycle := _pixel_cycle s |}.

Definition set_scroll_x (x : Z) (s : nes_ppu) : nes_ppu :=
  {| _vram := _vram s; _oam := _oam s; _name_tbl_addr := _name_tbl_addr s;
    _pattern_tbl_addr := _pattern_tbl_addr s;
    _ppu_addr_inc := _ppu_addr_inc s; _vblank_nmi := _vblank_nmi s;
    _use_8x16_sprite := _use_8x16_sprite s; _show_bg := _show_bg s;
    _show_sprites := _show_sprites s; _gray_scale_mode := _gray_scale_mode s;
    _latch := _latch s; _sprite_overflow := _sprite_overflow s;
    _vblank_started := _vblank_started s; _sprite_0_hit := _sprite_0_hit s;
    _oam_addr := _oam_addr s; _addr_latch := _addr_latch s; _scroll_x := x;
    _scroll_y := _scroll_y s; _ppu_addr := _ppu_addr s;
    _master_cycle := _master_cycle s; _scanline_cycle := _scanline_cycle s;
    _cur_scanline := _cur_scanline s; _frame_count := _frame_count s;
    _protect_register := _protect_register s;
    _stop_after_frame := _stop_after_frame s; _tile_index := _tile_index s;
    _tile_palette_bit32 := _tile_palette_bit32 s; _tile_addr := _tile_addr s;
    _bitplane0 := _bitplane0 s; _frame_buffer := _frame_buffer s;
    _pixel_cycle := _pixel_cycle s |}.

Definition set_scroll_y (x : Z) (s : nes_ppu) : nes_ppu :=
  {| _vram := _vram s; _oam := _oam s; _name_tbl_addr := _name_tbl_addr s;
    _pattern_tbl_addr := _pattern_tbl_addr s;
    _ppu_addr_inc := _ppu_addr_inc s; _vblank_nmi := _vblank_nmi s;
    _use_8x16_sprite := _use_8x16_sprite s; _show_bg := _show_bg s;
    _show_sprites := _show_sprites s; _gray_scale_mode := _gray_scale_mode s;
    _latch := _latch s; _sprite_overflow := _sprite_overflow s;
    _vblank_started := _vblank_started s; _sprite_0_hit := _sprite_0_hit s;
    _oam_addr := _oam_addr s; _addr_latch := _addr_latch s;
    _scroll_x := _scroll_x s; _scroll_y := x; _ppu_addr := _ppu_addr s;
    _master_cycle := _master_cycle s; _scanline_cycle := _scanline_cycle s;
    _cur_scanline := _cur_scanline s; _frame_count := _frame_count s;
    _protect_register := _protect_register s;
    _stop_after_frame := _stop_after_frame s; _tile_index := _tile_index s;
    _tile_palette_bit32 := _tile_palette_bit32 s; _tile_addr := _tile_addr s;
    _bitplane0 := _bitplane0 s; _frame_buffer := _frame_buffer s;
    _pixel_cycle := _pixel_cycle s |}.

Definition set_ppu_addr (x : Z) (s : nes_ppu) : nes_ppu :=
  {| _vram := _vram s; _oam := _oam s; _name_tbl_addr := _name_tbl_addr s;
    _pattern_tbl_addr := _pattern_tbl_addr s;
    _ppu_addr_inc := _ppu_addr_inc s; _vblank_nmi := _vblank_nmi s;
    _use_8x16_sprite := _use_8x16_sprite s; _show_bg := _show_bg s;
    _show_sprites := _show_sprites s; _gray_scale_mode := _gray_scale_mode s;
    _latch := _latch s; _sprite_overflow := _sprite_overflow s;
    _vblank_started := _vblank_started s; _sprite_0_hit := _sprite_0_hit s;
    _oam_addr := _oam_addr s; _addr_latch := _addr_latch s;
    _scroll_x := _scroll_x s; _scroll_y := _scroll_y s; _ppu_addr := x;
    _master_cycle := _master_cycle s; _scanline_cycle := _scanline_cycle s;
    _cur_scanline := _cur_scanline s; _frame_count := _frame_count s;
    _protect_register := _protect_register s;
    _stop_after_frame := _stop_after_frame s; _tile_index := _tile_index s;
    _tile_palette_bit32 := _tile_palette_bit32 s; _tile_addr := _tile_addr s;
    _bitplane0 := _bitplane0 s; _frame_buffer := _frame_buffer s;
    _pixel_cycle := _pixel_cycle s |}.

Definition set_master_cycle (x : Z) (s : nes_ppu) : nes_ppu :=
  {| _vram := _vram s; _oam := _oam s; _name_tbl_addr := _name_tbl_addr s;
    _pattern_tbl_addr := _pattern_tbl_addr s;
    _ppu_addr_inc := _ppu_addr_inc s; _vblank_nmi := _vblank_nmi s;
    _use_8x16_sprite := _use_8x16_sprite s; _show_bg := _show_bg s;
    _show_sprites := _show_sprites s; _gray_scale_mode := _gray_scale_mode s;
    _latch := _latch s; _sprite_overflow := _sprite_overflow s;
    _vblank_started := _vblank_started s; _sprite_0_hit := _sprite_0_hit s;
    _oam_addr := _oam_addr s; _addr_latch := _addr_latch s;
    _scroll_x := _scroll_x s; _scroll_y := _scroll_y s;
    _ppu_addr := _ppu_addr s; _master_cycle := x;
    _scanline_cycle := _scanline_cycle s; _cur_scanline := _cur_scanline s;
    _frame_count := _frame_count s; _protect_register := _protect_register s;
    _stop_after_frame := _stop_after_frame s; _tile_index := _tile_index s;
    _tile_palette_bit32 := _tile_palette_bit32 s; _tile_addr := _tile_addr s;
    _bitplane0 := _bitplane0 s; _frame_buffer := _frame_buffer s;
    _pixel_cycle := _pixel_cycle s |}.

Definition set_scanline_cycle (x : Z) (s : nes_ppu) : nes_ppu :=
  {| _vram := _vram s; _oam := _oam s; _name_tbl_addr := _name_tbl_addr s;
    _pattern_tbl_addr := _pattern_tbl_addr s;
    _ppu_addr_inc := _ppu_addr_inc s; _vblank_nmi := _vblank_nmi s;
    _use_8x16_sprite := _use_8x16_sprite s; _show_bg := _show_bg s;
    _show_sprites := _show_sprites s; _gray_scale_mode := _gray_scale_mode s;
    _latch := _latch s; _sprite_overflow := _sprite_overflow s;
    _vblank_started := _vblank_started s; _sprite_0_hit := _sprite_0_hit s;
    _oam_addr := _oam_addr s; _addr_latch := _addr_latch s;
    _scroll_x := _scroll_x s; _scroll_y := _scroll_y s;
    _ppu_addr := _ppu_addr s; _master_cycle := _master_cycle s;
    _scanline_cycle := x; _cur_scanline := _cur_scanline s;
    _frame_count := _frame_count s; _protect_register := _protect_register s;
    _stop_after_frame := _stop_after_frame s; _tile_index := _tile_index s;
    _tile_palette_bit32 := _tile_palette_bit32 s; _tile_addr := _tile_addr s;
    _bitplane0 := _bitplane0 s; _frame_buffer := _frame_buffer s;
    _pixel_cycle := _pixel_cycle s |}.

Definition set_cur_scanline (x : Z) (s : nes_ppu) : nes_ppu :=
  {| _vram := _vram s; _oam := _oam s; _name_tbl_addr := _name_tbl_addr s;
    _pattern_tbl_addr := _pattern_tbl_addr s;
    _ppu_addr_inc := _ppu_addr_inc s; _vblank_nmi := _vblank_nmi s;
    _use_8x16_sprite := _use_8x16_sprite s; _show_bg := _show_bg s;
    _show_sprites := _show_sprites s; _gray_scale_mode := _gray_scale_mode s;
    _latch := _latch s; _sprite_overflow := _sprite_overflow s;
    _vblank_started := _vblank_started s; _sprite_0_hit := _sprite_0_hit s;
    _oam_addr := _oam_addr s; _addr_latch := _addr_latch s;
    _scroll_x := _scroll_x s; _scroll_y := _scroll_y s;
    _ppu_addr := _ppu_addr s; _master_cycle := _master_cycle s;
    _scanline_cycle := _scanline_cycle s; _cur_scanline := x;
    _frame_count := _frame_count s; _protect_register := _protect_register s;
    _stop_after_frame := _stop_after_frame s; _tile_index := _tile_index s;
    _tile_palette_bit32 := _tile_palette_bit32 s; _tile_addr := _tile_addr s;
    _bitplane0 := _bitplane0 s; _frame_buffer := _frame_buffer s;
    _pixel_cycle := _pixel_cycle s |}.

Definition set_frame_count (x : Z) (s : nes_ppu) : nes_ppu :=
  {| _vram := _vram s; _oam := _oam s; _name_tbl_addr := _name_tbl_addr s;
    _pattern_tbl_addr := _pattern_tbl_addr s;
    _ppu_addr_inc := _ppu_addr_inc s; _vblank_nmi := _vblank_nmi s;
    _use_8x16_sprite := _use_8x16_sprite s; _show_bg := _show_bg s;
    _show_sprites := _show_sprites s; _gray_scale_mode := _gray_scale_mode s;
    _latch := _latch s; _sprite_overflow := _sprite_overflow s;
    _vblank_started := _vblank_started s; _sprite_0_hit := _sprite_0_hit s;
    _oam_addr := _oam_addr s; _addr_latch := _addr_latch s;
    _scroll_x := _scroll_x s; _scroll_y := _scroll_y s;
    _ppu_addr := _ppu_addr s; _master_cycle := _master_cycle s;
    _scanline_cycle := _scanline_cycle s; _cur_scanline := _cur_scanline s;
    _frame_count := x; _protect_register := _protect_register s;
    _stop_after_frame := _stop_after_frame s; _tile_index := _tile_index s;
    _tile_palette_bit32 := _tile_palette_bit32 s; _tile_addr := _tile_addr s;
    _bitplane0 := _bitplane0 s; _frame_buffer := _frame_buffer s;
    _pixel_cycle := _pixel_cycle s |}.

Definition set_protect_register (x : bool) (s : nes_ppu) : nes_ppu :=
  {| _vram := _vram s; _oam := _oam s; _name_tbl_addr := _name_tbl_addr s;
    _pattern_tbl_addr := _pattern_tbl_addr s;
    _ppu_addr_inc := _ppu_addr_inc s; _vblank_nmi := _vblank_nmi s;
    _use_8x16_sprite := _use_8x16_sprite s; _show_bg := _show_bg s;
    _show_sprites := _show_sprites s; _gray_scale_mode := _gray_scale_mode s;
    _latch := _latch s; _sprite_overflow := _sprite_overflow s;
    _vblank_started := _vblank_started s; _sprite_0_hit := _sprite_0_hit s;
    _oam_addr := _oam_addr s; _addr_latch := _addr_latch s;
    _scroll_x := _scroll_x s; _scroll_y := _scroll_y s;
    _ppu_addr := _ppu_addr s; _master_cycle := _master_cycle s;
    _scanline_cycle := _scanline_cycle s; _cur_scanline := _cur_scanline s;
    _frame_count := _frame_count s; _protect_register := x;
    _stop_after_frame := _stop_after_frame s; _tile_index := _tile_index s;
    _tile_palette_bit32 := _tile_palette_bit32 s; _tile_addr := _tile_addr s;
    _bitplane0 := _bitplane0 s; _frame_buffer := _frame_buffer s;
    _pixel_cycle := _pixel_cycle s |}.

Definition set_stop_after_frame (x : Z) (s : nes_ppu) : nes_ppu :=
  {| _vram := _vram s; _oam := _oam s; _name_tbl_addr := _name_tbl_addr s;
    _pattern_tbl_addr := _pattern_tbl_addr s;
    _ppu_addr_inc := _ppu_addr_inc s; _vblank_nmi := _vblank_nmi s;
    _use_8x16_sprite := _use_8x16_sprite s; _show_bg := _show_bg s;
    _show_sprites := _show_sprites s; _gray_scale_mode := _gray_scale_mode s;
    _latch := _latch s; _sprite_overflow := _sprite_overflow s;
    _vblank_started := _vblank_started s; _sprite_0_hit := _sprite_0_hit s;
    _oam_addr := _oam_addr s; _addr_latch := _addr_latch s;
    _scroll_x := _scroll_x s; _scroll_y := _scroll_y s;
    _ppu_addr := _ppu_addr s; _master_cycle := _master_cycle s;
    _scanline_cycle := _scanline_cycle s; _cur_scanline := _cur_scanline s;
    _frame_count := _frame_count s; _protect_register := _protect_register s;
    _stop_after_frame := x; _tile_index := _tile_index s;
    _tile_palette_bit32 := _tile_palette_bit32 s; _tile_addr := _tile_addr s;
    _bitplane0 := _bitplane0 s; _frame_buffer := _frame_buffer s;
    _pixel_cycle := _pixel_cycle s |}.

(** The constructor allocates the two arrays, value-initialised; it leaves
    every other member as it finds it, which [garbage] stands for. *)
Definition nes_ppu_new (garbage : nes_ppu) : nes_ppu :=
  set_oam (replicate (Z.to_nat PPU_OAM_SIZE) 0)
    (set_vram (replicate (Z.to_nat PPU_VRAM_SIZE) 0) garbage).

(** What the C++ types guarantee about a state: the sizes of the arrays and
    the ranges of the unsigned members the register interface works on. *)
Definition wf_ppu (s : nes_ppu) : Prop :=
  length (_vram s) = Z.to_nat PPU_VRAM_SIZE ∧
  length (_oam s) = Z.to_nat PPU_OAM_SIZE ∧
  0 <= _oam_addr s < 2 ^ 8 ∧
  0 <= _addr_latch s < 2 ^ 8 ∧
  0 <= _ppu_addr s < 2 ^ 16 ∧
  0 <= _ppu_addr_inc s < 2 ^ 16 ∧
  0 <= _latch s < 2 ^ 8.

Definition is_ready (s : nes_ppu) : bool :=
  nes_ppu_cycle_t 29658 <? _master_cycle s.

Definition stop_after_frame (frame : Z) (s : nes_ppu) : nes_ppu :=
  set_stop_after_frame frame s.

Definition is_render_off (s : nes_ppu) : bool :=
  negb (_show_bg s) && negb (_show_sprites s).

(** ** PPU internal ram *)

Definition redirect_addr (addr : Z) : Z :=
  if (0x3000 <=? addr) && (addr <? 0x3f00) then
    uint16_t (addr - 0x1000)
  else if Z.land addr 0x3f00 =? 0x3f00 then
    (* mirror of palette table every 0x20 bytes *)
    let addr := Z.land addr 0xff1f in
    (* mirror special case 0x3f10 = 0x3f00, 0x3f14 = 0x3f04, ... *)
    if Z.land addr 0x10 =? 0x10 then Z.land addr 0xff0f else addr
  else addr.

(** [_vram[addr]] after translation; [None] when the index is outside of the
    array. *)
Definition read_byte (addr : Z) (s : nes_ppu) : option Z :=
  _vram s !! Z.to_nat (redirect_addr addr).

Definition write_byte (addr val : Z) (s : nes_ppu) : option nes_ppu :=
  let i := Z.to_nat (redirect_addr addr) in
  if (i <? length (_vram s))%nat
  then Some (set_vram (<[i := val]> (_vram s)) s)
  else None.

Definition set_protect (set : bool) (s : nes_ppu) : nes_ppu :=
  set_protect_register set s.

(** ** All registers *)

Definition write_latch (val : Z) (s : nes_ppu) : nes_ppu :=
  (* Don't update latch in "protected reads" *)
  if _protect_register s then s else set_latch val s.

Definition read_latch (s : nes_ppu) : Z := _latch s.

Definition write_PPUCTRL (val : Z) (s : nes_ppu) : nes_ppu :=
  (* Ignore write before PPU is ready *)
  if negb (is_ready s) then s else
  let s := write_latch val s in
  let name_table_addr_bit :=
    uint8_t (Z.land val PPUCTRL_BASE_NAME_TABLE_ADDR_MASK) in
  let s := set_name_tbl_addr
             (uint16_t (0x2000 + uint16_t name_table_addr_bit * 0x400)) s in
  let s := set_pattern_tbl_addr
             (uint16_t (Z.shiftl
                (Z.land val PPUCTRL_BACKGROUND_PATTERN_TABLE_ADDRESS_MASK)
                0x8)) s in
  let s := set_use_8x16_sprite
             (to_bool (Z.land val PPUCTRL_SPRITE_SIZE_MASK)) s in
  let s := set_ppu_addr_inc
             (if to_bool (Z.land val PPUCTRL_VRAM_ADDR_MASK)
              then 0x20 else 1) s in
  set_vblank_nmi (to_bool (Z.land val PPUCTRL_NMI_AT_VBLANK_MASK)) s.

Definition write_PPUMASK (val : Z) (s : nes_ppu) : nes_ppu :=
  (* Ignore write before PPU is ready *)
  if negb (is_ready s) then s else
  let s := write_latch val s in
  let s := set_show_bg (to_bool (Z.land val PPUMASK_SHOW_BACKGROUND)) s in
  let s := set_show_sprites (to_bool (Z.land val PPUMASK_SHOW_SPRITES)) s in
  set_gray_scale_mode (to_bool (Z.land val PPUMASK_GRAYSCALE)) s.

Definition read_PPUSTATUS (s : nes_ppu) : Z * nes_ppu :=
  let status := Z.land (_latch s) PPUSTATUS_LATCH_MASK in
  let status :=
    if _sprite_0_hit s then Z.lor status PPUSTATUS_SPRITE_0_HIT
    else status in
  let status :=
    if _sprite_overflow s then Z.lor status PPUSTATUS_SPRITE_OVERFLOW
    else status in
  let status :=
    if _vblank_started s then Z.lor status PPUSTATUS_VBLANK_START
    else status in
  (* Don't clear flags *)
  let s :=
    if negb (_protect_register s)
    then set_addr_latch 0 (set_vblank_started false s)
    else s in
  let s := write_latch status s in
  (status, s).

Definition write_OAMADDR (val : Z) (s : nes_ppu) : nes_ppu :=
  let s := write_latch val s in
  set_oam_addr val s.

Definition write_OAMDATA (val : Z) (s : nes_ppu) : nes_ppu :=
  let s := write_latch val s in
  let s := set_oam (<[Z.to_nat (_oam_addr s) := val]> (_oam s)) s in
  set_oam_addr (uint8_t (_oam_addr s + 1)) s.

Definition read_OAMDATA (s : nes_ppu) : Z * nes_ppu :=
  let val := default 0 (_oam s !! Z.to_nat (_oam_addr s)) in
  let s := write_latch val s in
  (val, s).

(** [_addr_latch = (_addr_latch + 1) % 2]: the sum is computed on [int], the
    remainder is that of C++ (truncated), and the result is stored back into
    a [uint8_t]. *)
Definition flip_addr_latch (s : nes_ppu) : nes_ppu :=
  set_addr_latch (uint8_t (Z.rem (_addr_latch s + 1) 2)) s.

Definition write_PPUSCROLL (val : Z) (s : nes_ppu) : nes_ppu :=
  (* Ignore write before PPU is ready *)
  if negb (is_ready s) then s else
  let s := write_latch val s in
  let s := flip_addr_latch s in
  if _addr_latch s =? 1 then set_scroll_x val s else set_scroll_y val s.

Definition write_PPUADDR (val : Z) (s : nes_ppu) : nes_ppu :=
  let s := write_latch val s in
  let s := flip_addr_latch s in
  if _addr_latch s =? 1 then
    set_ppu_addr
      (uint16_t (Z.lor (Z.land (_ppu_addr s) 0x00ff)
                       (Z.shiftl (uint16_t val) 8))) s
  else
    set_ppu_addr (uint16_t (Z.lor (Z.land (_ppu_addr s) 0xff00) val)) s.

Definition write_PPUDATA (val : Z) (s : nes_ppu) : option nes_ppu :=
  let s := write_latch val s in
  s ← write_byte (_ppu_addr s) val s;
  Some (set_ppu_addr (uint16_t (_ppu_addr s + _ppu_addr_inc s)) s).

Definition read_PPUDATA (s : nes_ppu) : option (Z * nes_ppu) :=
  val ← read_byte (_ppu_addr s) s;
  let s :=
    if negb (_protect_register s)
    then set_ppu_addr (uint16_t (_ppu_addr s + _ppu_addr_inc s)) s
    else s in
  let s := write_latch val s in
  Some (val, s).

(** Modelled from the spec: [oam_dma] is only declared in the header, its
    body is outside of the header this development covers.  The spec has it
    copy the 256 bytes of the external memory page at [addr] into OAM
    entries 0 to 255 and leave the OAM address at its value before the
    transfer; [ram] reads a byte of the CPU's memory. *)
Definition oam_dma (ram : Z → Z) (addr : Z) (s : nes_ppu) : nes_ppu :=
  set_oam
    ((λ i, ram (uint16_t (addr + Z.of_nat i)))
       <$> seq 0 (Z.to_nat PPU_OAM_SIZE)) s.

Definition write_OAMDMA (ram : Z → Z) (val : Z) (s : nes_ppu) : nes_ppu :=
  oam_dma ram (uint16_t (Z.shiftl (uint16_t val) 8)) s.

Definition get_palette_color
    (is_background : bool) (palette_index_4_bit : Z) (s : nes_ppu)
    : option Z :=
  (* There is only one universal backdrop color *)
  if palette_index_4_bit =? 0 then read_byte 0x3f00 s else
  let palette_addr :=
    Z.lor (if is_background then 0x3f00 else 0x3f10) palette_index_4_bit in
  read_byte 0x3f00 s.

(** The palette lookup as the specification words it: index 0 is the
    universal backdrop entry, every other index is looked up in the selected
    sub-palette. *)
Definition get_palette_color_spec
    (is_background : bool) (palette_index_4_bit : Z) (s : nes_ppu)
    : option Z :=
  if palette_index_4_bit =? 0 then read_byte 0x3f00 s else
  read_byte
    (Z.lor (if is_background then 0x3f00 else 0x3f10) palette_index_4_bit) s.

(** ** The register interface as a whole *)

Inductive reg_op : Type :=
  | Write_PPUCTRL (val : Z)
  | Write_PPUMASK (val : Z)
  | Read_PPUSTATUS
  | Write_OAMADDR (val : Z)
  | Write_OAMDATA (val : Z)
  | Read_OAMDATA
  | Write_PPUSCROLL (val : Z)
  | Write_PPUADDR (val : Z)
  | Write_PPUDATA (val : Z)
  | Read_PPUDATA
  | Write_OAMDMA (val : Z)
  | Set_protect (set : bool).

(** The state after one register operation (the value a read returns is
    dropped); [None] when the operation indexes outside of video memory. *)
Definition exec_op (ram : Z → Z) (op : reg_op) (s : nes_ppu)
    : option nes_ppu :=
  match op with
  | Write_PPUCTRL val => Some (write_PPUCTRL val s)
  | Write_PPUMASK val => Some (write_PPUMASK val s)
  | Read_PPUSTATUS => Some (snd (read_PPUSTATUS s))
  | Write_OAMADDR val => Some (write_OAMADDR val s)
  | Write_OAMDATA val => Some (write_OAMDATA val s)
  | Read_OAMDATA => Some (snd (read_OAMDATA s))
  | Write_PPUSCROLL val => Some (write_PPUSCROLL val s)
  | Write_PPUADDR val => Some (write_PPUADDR val s)
  | Write_PPUDATA val => write_PPUDATA val s
  | Read_PPUDATA => snd <$> read_PPUDATA s
  | Write_OAMDMA val => Some (write_OAMDMA ram val s)
  | Set_protect set => Some (set_protect set s)
  end.

Fixpoint exec_ops (ram : Z → Z) (ops : list reg_op) (s : nes_ppu)
    : option nes_ppu :=
  match ops with
  | [] => Some s
  | op :: ops => s ← exec_op ram op s; exec_ops ram ops s
  end.

Definition is_Write_PPUCTRL (op : reg_op) : bool :=
  match op with
  | Write_PPUCTRL _ => true
  | _ => false
  end.

(** ** Checking a property of every integer of a range *)

(** [p] holds of the [n] integers from [a] on. *)
Fixpoint forall_from (n : nat) (a : Z) (p : Z → bool) : bool :=
  match n with
  | O => true
  | S k => p a && forall_from k (a + 1) p
  end.

(** ** The timing state machine *)

(** Modelled from the spec: the number of dots of a scanline is a constant
    of [nes_cycle.h], outside of the header this development covers; the
    spec gives 341 dots to a scanline. *)
Definition PPU_SCANLINE_CYCLE : Z := 341.

(** Modelled from the spec: the scanlines of the two flag events.  The
    spec sets the vblank flag on scanline 241, the line after the
    post-render line (so does the header's note on
    [PPUSTATUS_VBLANK_START]); with 240 visible lines, 0 to 239, the
    post-render line 240 and the 20 vertical-blank lines 241 to 260, the
    pre-render line is the last of the [PPU_SCANLINE_COUNT] lines. *)
Definition VBLANK_SCANLINE : Z := 241.
Definition PRE_RENDER_SCANLINE : Z := PPU_SCANLINE_COUNT - 1.

(** Modelled from the spec: the beam is at dot 1 of scanline 241. *)
Definition at_vblank_start (s : nes_ppu) : bool :=
  (_cur_scanline s =? VBLANK_SCANLINE) && (_scanline_cycle s =? 1).

(** Modelled from the spec: the beam is at dot 1 of the pre-render line. *)
Definition at_pre_render_clear (s : nes_ppu) : bool :=
  (_cur_scanline s =? PRE_RENDER_SCANLINE) && (_scanline_cycle s =? 1).

(** Modelled from the spec: the frame-count ceiling of [stop_after_frame],
    read by the stepping entry point, which is only declared in the
    header.  The spec calls the ceiling optional and has it halt further
    stepping once it is exceeded.  The member is an [int] and frame counts
    are not negative: a negative value stands for no ceiling. *)
Definition frame_ceiling (s : nes_ppu) : option Z :=
  if _stop_after_frame s <? 0 then None else Some (_stop_after_frame s).

(** Modelled from the spec: the frame count exceeds the ceiling, the
    machine steps no further. *)
Definition halted (s : nes_ppu) : bool :=
  match frame_ceiling s with
  | Some ceiling => ceiling <? _frame_count s
  | None => false
  end.

(** Modelled from the spec: what the rendering work of one dot of a
    visible scanline produces.  The spec has the background fetches fill
    the rendering scratch (tile index, attribute bits, pattern address,
    bitplane byte, pixel staging) and the frame buffer, and has sprite
    evaluation determine sprite-0-hit and sprite-overflow; it says no more
    about the values, which the pattern data of the cartridge decide. *)
Record rendering := mk_rendering {
  r_tile_index : Z;
  r_tile_palette_bit32 : Z;
  r_tile_addr : Z;
  r_bitplane0 : Z;
  r_frame_buffer : list Z;
  r_pixel_cycle : list Z;
  r_sprite_0_hit : bool;
  r_sprite_overflow : bool
}.

(** Modelled from the spec: the rendering work of a dot stores what it
    produced.  It owns the rendering scratch and the frame buffer; the
    two sprite flags it can set and never clears, since the status flags
    are cleared by a status read (vblank only) or at the start of the
    pre-render line and nowhere else; every other member belongs to the
    register interface or to the counters and is left alone. *)
Definition commit_rendering (r : rendering) (s : nes_ppu) : nes_ppu :=
  {| _vram := _vram s; _oam := _oam s; _name_tbl_addr := _name_tbl_addr s;
    _pattern_tbl_addr := _pattern_tbl_addr s;
    _ppu_addr_inc := _ppu_addr_inc s; _vblank_nmi := _vblank_nmi s;
    _use_8x16_sprite := _use_8x16_sprite s; _show_bg := _show_bg s;
    _show_sprites := _show_sprites s; _gray_scale_mode := _gray_scale_mode s;
    _latch := _latch s;
    _sprite_overflow := _sprite_overflow s || r_sprite_overflow r;
    _vblank_started := _vblank_started s;
    _sprite_0_hit := _sprite_0_hit s || r_sprite_0_hit r;
    _oam_addr := _oam_addr s; _addr_latch := _addr_latch s;
    _scroll_x := _scroll_x s; _scroll_y := _scroll_y s;
    _ppu_addr := _ppu_addr s; _master_cycle := _master_cycle s;
    _scanline_cycle := _scanline_cycle s; _cur_scanline := _cur_scanline s;
    _frame_count := _frame_count s; _protect_register := _protect_register s;
    _stop_after_frame := _stop_after_frame s;
    _tile_index := r_tile_index r;
    _tile_palette_bit32 := r_tile_palette_bit32 r;
    _tile_addr := r_tile_addr r; _bitplane0 := r_bitplane0 r;
    _frame_buffer := r_frame_buffer r; _pixel_cycle := r_pixel_cycle r |}.

(** Modelled from the spec: the work of one dot, the first half of a PPU
    cycle of [step_ppu], which is only declared in the header; its body is
    outside of the header this development covers.  Section 4.3 of the
    spec words the work so:
    - on a visible scanline the rendering work is done (tile fetch, pixel
      output, sprite evaluation), unless rendering is off; [render_dot]
      gives what that work produces in a state, whatever it is;
    - at dot 1 of scanline 241 the vblank flag is set, and an interrupt is
      requested from the CPU if vblank-NMI is enabled: the second component
      of the result says whether this dot requests one;
    - at dot 1 of the pre-render line the vblank, sprite-0-hit and
      sprite-overflow flags are cleared. *)
Definition dot_work (render_dot : nes_ppu → rendering) (s : nes_ppu)
    : nes_ppu * bool :=
  if _cur_scanline s <? PPU_SCREEN_Y then
    (if is_render_off s then s else commit_rendering (render_dot s) s, false)
  else if at_vblank_start s then
    (set_vblank_started true s, _vblank_nmi s)
  else if at_pre_render_clear s then
    (set_sprite_overflow false
       (set_sprite_0_hit false (set_vblank_started false s)), false)
  else (s, false).

(** Modelled from the spec: the second half of a PPU cycle, the counters
    advance by one dot; 341 dots make a scanline, [PPU_SCANLINE_COUNT]
    scanlines make a frame, and the frame counter counts the frames. *)
Definition advance_beam (s : nes_ppu) : nes_ppu :=
  let s := set_master_cycle (_master_cycle s + 1) s in
  let s := set_scanline_cycle (_scanline_cycle s + 1) s in
  if PPU_SCANLINE_CYCLE <=? _scanline_cycle s then
    let s := set_scanline_cycle 0 s in
    let s := set_cur_scanline (_cur_scanline s + 1) s in
    if PPU_SCANLINE_COUNT <=? _cur_scanline s
    then set_frame_count (_frame_count s + 1) (set_cur_scanline 0 s)
    else s
  else s.

(** Modelled from the spec: one PPU cycle of the stepping entry point.
    Once the frame count exceeds the ceiling nothing is stepped any more:
    the state stays as it is and no interrupt is requested.  Otherwise
    the work of the dot is done and the counters advance. *)
Definition step_dot (render_dot : nes_ppu → rendering) (s : nes_ppu)
    : nes_ppu * bool :=
  if halted s then (s, false) else
  let '(s, nmi) := dot_work render_dot s in
  (advance_beam s, nmi).

(** The state after [n] PPU cycles. *)
Fixpoint step_dots (render_dot : nes_ppu → rendering) (n : nat)
    (s : nes_ppu) : nes_ppu :=
  match n with
  | O => s
  | S n => step_dots render_dot n (fst (step_dot render_dot s))
  end.

(** The cycles of one frame, as the count that the entry point consumes
    and as a number of steps. *)
Definition FRAME_CYCLES : Z := PPU_SCANLINE_COUNT * PPU_SCANLINE_CYCLE.
Definition FRAME_DOTS : nat := Z.to_nat FRAME_CYCLES.

(** The beam is inside of the frame. *)
Definition beam_in_frame (s : nes_ppu) : Prop :=
  0 <= _cur_scanline s < PPU_SCANLINE_COUNT ∧
  0 <= _scanline_cycle s < PPU_SCANLINE_CYCLE.

(** The number of the current dot within the frame, and the numbers of the
    two dots at which the status flags are driven. *)
Definition dot_index (s : nes_ppu) : Z :=
  _cur_scanline s * PPU_SCANLINE_CYCLE + _scanline_cycle s.
Definition VBLANK_DOT : Z := VBLANK_SCANLINE * PPU_SCANLINE_CYCLE + 1.
Definition PRE_RENDER_DOT : Z := PRE_RENDER_SCANLINE * PPU_SCANLINE_CYCLE + 1.

(** The position of the beam: scanline and dot. *)
Definition beam (s : nes_ppu) : Z * Z := (_cur_scanline s, _scanline_cycle s).

(** The vblank flag as the timing machine drives it: the cycle at dot 1
    of scanline 241 sets it and the one at dot 1 of the pre-render line
    clears it, so it is set at the dots after the first of the two, up to
    the second. *)
Definition in_vblank (s : nes_ppu) : bool :=
  (VBLANK_DOT <? dot_index s) && (dot_index s <=? PRE_RENDER_DOT).

(** The frame count during the last cycle of a frame advance from [s]:
    the advance crosses into the next frame, unless it starts at the first
    dot of a frame. *)
Definition last_frame_count (s : nes_ppu) : Z :=
  if dot_index s =? 0 then _frame_count s else _frame_count s + 1.

(** The frame count stays within the ceiling up to the last cycle of a
    frame advance from [s]: the ceiling does not stop the advance. *)
Definition frame_runs (s : nes_ppu) : bool :=
  negb (halted (set_frame_count (last_frame_count s) s)).

Definition rising (flag : nes_ppu → bool) (s s' : nes_ppu) : bool :=
  negb (flag s) && flag s'.

Definition falling (flag : nes_ppu → bool) (s s' : nes_ppu) : bool :=
  flag s && negb (flag s').

(** One of the three status flags falls from [s] to [s']. *)
Definition status_falling (s s' : nes_ppu) : bool :=
  falling _vblank_started s s' || falling _sprite_0_hit s s'
  || falling _sprite_overflow s s'.

(** The beam positions, among the next [n] PPU cycles, of the cycles over
    which [edge] holds between the state before and the state after. *)
Fixpoint edges (edge : nes_ppu → nes_ppu → bool)
    (render_dot : nes_ppu → rendering) (n : nat) (s : nes_ppu)
    : list (Z * Z) :=
  match n with
  | O => []
  | S n =>
      let s' := fst (step_dot render_dot s) in
      (if edge s s' then [beam s] else [])
      ++ edges edge render_dot n s'
  end.

(** The beam positions, among the next [n] PPU cycles, of the cycles that
    request an interrupt from the CPU. *)
Fixpoint nmi_requests (render_dot : nes_ppu → rendering) (n : nat)
    (s : nes_ppu) : list (Z * Z) :=
  match n with
  | O => []
  | S n =>
      let '(s', nmi) := step_dot render_dot s in
      (if nmi then [beam s] else []) ++ nmi_requests render_dot n s'
  end.

(** Modelled from the spec: [step_ppu], only declared in the header, is
    the stepping entry point; it consumes a count of PPU cycles and
    advances the machine by that many, one after the other.  The result
    is the state it leaves and the interrupts it requested from the CPU on
    the way, each named by the beam position of its cycle. *)
Definition step_ppu (render_dot : nes_ppu → rendering) (cycle : Z)
    (s : nes_ppu) : nes_ppu * list (Z * Z) :=
  (step_dots render_dot (Z.to_nat cycle) s,
   nmi_requests render_dot (Z.to_nat cycle) s).

(** Modelled from the spec: [step_to], only declared in the header,
    advances the state to a target absolute cycle count, making up the
    difference to the master cycle count reached so far; a target that is
    not ahead of it asks for no cycle. *)
Definition step_to (render_dot : nes_ppu → rendering) (count : Z)
    (s : nes_ppu) : nes_ppu * list (Z * Z) :=
  step_ppu render_dot (count - _master_cycle s) s.

(** A state to evaluate the operations on: freshly constructed, with every
    scalar member zero and protection off. *)
Definition blank_ppu : nes_ppu :=
  nes_ppu_new
    {| _vram := []; _oam := []; _name_tbl_addr := 0; _pattern_tbl_addr := 0;
       _ppu_addr_inc := 0; _vblank_nmi := false; _use_8x16_sprite := false;
       _show_bg := false; _show_sprites := false; _gray_scale_mode := false;
       _latch := 0; _sprite_overflow := false; _vblank_started := false;
       _sprite_0_hit := false; _oam_addr := 0; _addr_latch := 0;
       _scroll_x := 0; _scroll_y := 0; _ppu_addr := 0; _master_cycle := 0;
       _scanline_cycle := 0; _cur_scanline := 0; _frame_count := 0;
       _protect_register := false; _stop_after_frame := 0; _tile_index := 0;
       _tile_palette_bit32 := 0; _tile_addr := 0; _bitplane0 := 0;
       _frame_buffer := []; _pixel_cycle := [] |}.

(** The blank state with two palette entries filled in: the universal
    backdrop entry 0x3f00 and the first colour of background palette 0. *)
Definition palette_ppu : nes_ppu :=
  set_vram
    (<[Z.to_nat 0x3f01 := 0x30]>
       (<[Z.to_nat 0x3f00 := 0x0f]> (_vram blank_ppu)))
    blank_ppu.

(** A rendering to run the timing machine with: the scratch and the frame
    buffer stay as they are, and sprite evaluation reports a hit of
    sprite 0 at every dot it is asked about. *)
Definition render_sprite_0_hit (s : nes_ppu) : rendering :=
  {| r_tile_index := _tile_index s;
     r_tile_palette_bit32 := _tile_palette_bit32 s;
     r_tile_addr := _tile_addr s; r_bitplane0 := _bitplane0 s;
     r_frame_buffer := _frame_buffer s; r_pixel_cycle := _pixel_cycle s;
     r_sprite_0_hit := true; r_sprite_overflow := false |}.

(** ** Notions for properties of the register interface *)

Definition is_Write_OAMDMA (op : reg_op) : bool :=
  match op with
  | Write_OAMDMA _ => true
  | _ => false
  end.

(** The byte that a write to a register puts on the bus; [write_OAMDMA]
    does not pass its byte to [write_latch]. *)
Definition reg_op_written (op : reg_op) : option Z :=
  match op with
  | Write_PPUCTRL val | Write_PPUMASK val | Write_OAMADDR val
  | Write_OAMDATA val | Write_PPUSCROLL val | Write_PPUADDR val
  | Write_PPUDATA val => Some val
  | _ => None
  end.

(** The writes that are ignored before the PPU is ready. *)
Definition reg_op_gated (op : reg_op) : bool :=
  match op with
  | Write_PPUCTRL _ | Write_PPUMASK _ | Write_PPUSCROLL _ => true
  | _ => false
  end.

(** A value of type [uint8_t]. *)
Definition is_uint8 (b : Z) : Prop := 0 <= b < 2 ^ 8.





(** The part of the video memory array that no translated address
    reaches: the storage behind the name-table mirror and behind the
    mirrors of the palette. *)
Definition unreached_index (i : Z) : bool :=
  ((0x3000 <=? i) && (i <? 0x3f00)) || ((0x3f10 <=? i) && (i <? 0x4000)).

(** * Properties *)

(** ** Ranges *)

Lemma forall_from_spec (n : nat) (p : Z → bool) :
  ∀ a, forall_from n a p = true → ∀ x, a <= x < a + Z.of_nat n → p x = true.
Proof.
  induction n as [|k IH]; simpl; intros a Hall x Hx; [lia|].
  apply andb_true_iff in Hall as [Ha Hall].
  destruct (decide (x = a)) as [->|Hne]; [done|].
  apply (IH (a + 1)); [done|lia].
Qed.

Lemma forall_range (lo hi : Z) (p : Z → bool) :
  forall_from (Z.to_nat (hi - lo)) lo p = true →
  ∀ x, lo <= x < hi → p x = true.
Proof. intros Hall x Hx. apply (forall_from_spec _ _ _ Hall). lia. Qed.

Lemma land_land_const (a m n : Z) :
  Z.land (Z.land a m) n = Z.land a (Z.land m n).
Proof. by rewrite Z.land_assoc. Qed.

(** ** The address translator *)

(** No address of the name-table mirror [0x3000, 0x3f00), and none of the
    name tables it mirrors, has the six bits of a palette address set. *)
Lemma name_table_not_palette (a : Z) :
  0x2000 <= a < 0x3f00 → Z.land a 0x3f00 ≠ 0x3f00.
Proof.
  intros Ha Hpal.
  assert (negb (Z.land a 0x3f00 =? 0x3f00) = true) as Hneg.
  { apply (forall_range 0x2000 0x3f00
             (λ a, negb (Z.land a 0x3f00 =? 0x3f00)));
      [vm_compute; reflexivity | lia]. }
  by rewrite Hpal in Hneg.
Qed.

Lemma palette_not_name_table (a : Z) :
  Z.land a 0x3f00 = 0x3f00 → (0x3000 <=? a) && (a <? 0x3f00) = false.
Proof.
  intros Hpal. apply andb_false_iff.
  destruct (decide (0x3000 <= a < 0x3f00)) as [Hr|Hr]; [|lia].
  destruct (name_table_not_palette a); [lia|done].
Qed.

Lemma redirect_addr_name_table (a : Z) :
  0x3000 <= a < 0x3f00 → redirect_addr a = a - 0x1000.
Proof.
  intros Ha. unfold redirect_addr.
  replace ((0x3000 <=? a) && (a <? 0x3f00)) with true by lia.
  unfold uint16_t. apply Z.mod_small. lia.
Qed.

Lemma redirect_addr_palette (a : Z) :
  Z.land a 0x3f00 = 0x3f00 →
  redirect_addr a =
    if Z.land a 0x10 =? 0x10 then Z.land a 0xff0f else Z.land a 0xff1f.
Proof.
  intros Hpal. unfold redirect_addr.
  rewrite palette_not_name_table by done.
  rewrite Hpal, Z.eqb_refl. cbv zeta.
  rewrite !land_land_const.
  change (Z.land 0xff1f 0x10) with 0x10.
  by change (Z.land 0xff1f 0xff0f) with 0xff0f.
Qed.

Lemma redirect_addr_other (a : Z) :
  (0x3000 <=? a) && (a <? 0x3f00) = false → Z.land a 0x3f00 ≠ 0x3f00 →
  redirect_addr a = a.
Proof.
  intros Hnt Hpal. unfold redirect_addr. rewrite Hnt.
  by apply Z.eqb_neq in Hpal as ->.
Qed.

(** The name tables themselves are not redirected. *)
Lemma redirect_addr_name_table_source (a : Z) :
  0x2000 <= a < 0x2f00 → redirect_addr a = a.
Proof.
  intros Ha. apply redirect_addr_other; [lia|].
  apply name_table_not_palette. lia.
Qed.

(** A palette address whose bit 4 is clear after the 0x20 mirror is where
    the translation ends. *)
Lemma redirect_addr_palette_low (a : Z) :
  Z.land a 0x3f00 = 0x3f00 → Z.land a 0x10 ≠ 0x10 →
  redirect_addr (Z.land a 0xff1f) = Z.land a 0xff1f.
Proof.
  intros Hpal Hbit. rewrite redirect_addr_palette.
  - rewrite !land_land_const.
    change (Z.land 0xff1f 0x10) with 0x10.
    change (Z.land 0xff1f 0xff1f) with 0xff1f.
    by apply Z.eqb_neq in Hbit as ->.
  - by rewrite land_land_const.
Qed.

Lemma redirect_addr_palette_collapsed (a : Z) :
  Z.land a 0x3f00 = 0x3f00 →
  redirect_addr (Z.land a 0xff0f) = Z.land a 0xff0f.
Proof.
  intros Hpal. rewrite redirect_addr_palette.
  - rewrite !land_land_const.
    change (Z.land 0xff0f 0x10) with 0.
    change (Z.land 0xff0f 0xff1f) with 0xff0f.
    by rewrite Z.land_0_r.
  - by rewrite land_land_const.
Qed.

(** C1: the two mirroring equations of the address translator.  An address
    of [0x3000, 0x3f00) is translated like the address 0x1000 below it; an
    address with the bits 0x3f00 set is translated like its mirror modulo
    0x20, and, when its bit 4 is set, like the address with bits 4 to 7
    cleared. *)
Theorem redirect_addr_mirroring (a : Z) :
  (0x3000 <= a < 0x3f00 → redirect_addr a = redirect_addr (a - 0x1000)) ∧
  (Z.land a 0x3f00 = 0x3f00 →
     redirect_addr a = redirect_addr (Z.land a 0xff1f) ∧
     (Z.land a 0x10 = 0x10 →
        redirect_addr a = redirect_addr (Z.land a 0xff0f))).
Proof.
  split; [|split].
  - intros Ha. rewrite redirect_addr_name_table by done.
    rewrite redirect_addr_name_table_source; [done|lia].
  - rewrite (redirect_addr_palette a) by done.
    destruct (Z.land a 0x10 =? 0x10) eqn:Hbit.
    + rewrite redirect_addr_palette by (by rewrite land_land_const).
      rewrite !land_land_const.
      change (Z.land 0xff1f 0x10) with 0x10.
      change (Z.land 0xff1f 0xff0f) with 0xff0f.
      by rewrite Hbit.
    + apply Z.eqb_neq in Hbit. by rewrite redirect_addr_palette_low.
  - intros Hbit. rewrite (redirect_addr_palette a) by done.
    rewrite Hbit, Z.eqb_refl. by rewrite redirect_addr_palette_collapsed.
Qed.

Lemma redirect_addr_mirroring_witness :
  redirect_addr 0x3456 = redirect_addr (0x3456 - 0x1000) ∧
  redirect_addr 0x3f34 = redirect_addr (Z.land 0x3f34 0xff1f) ∧
  redirect_addr 0x3f34 = redirect_addr (Z.land 0x3f34 0xff0f).
Proof.
  destruct (redirect_addr_mirroring 0x3456) as [Hnt _].
  destruct (redirect_addr_mirroring 0x3f34) as [_ Hpal].
  split; [apply Hnt; lia|].
  destruct Hpal as [H20 H10]; [reflexivity|].
  split; [exact H20 | apply H10; reflexivity].
Defined.

(** C10: the translation is idempotent, for every address; reading or
    writing at a translated address goes to the location of the address
    itself. *)
Theorem redirect_addr_idempotent (a : Z) :
  redirect_addr (redirect_addr a) = redirect_addr a ∧
  (∀ s, read_byte (redirect_addr a) s = read_byte a s) ∧
  (∀ v s, write_byte (redirect_addr a) v s = write_byte a v s).
Proof.
  assert (redirect_addr (redirect_addr a) = redirect_addr a) as Hidem.
  { destruct ((0x3000 <=? a) && (a <? 0x3f00)) eqn:Hnt.
    - rewrite (redirect_addr_name_table a) by lia.
      apply redirect_addr_name_table_source. lia.
    - destruct (decide (Z.land a 0x3f00 = 0x3f00)) as [Hpal|Hpal].
      + rewrite (redirect_addr_palette a) by done.
        destruct (Z.land a 0x10 =? 0x10) eqn:Hbit.
        * by apply redirect_addr_palette_collapsed.
        * apply Z.eqb_neq in Hbit. by apply redirect_addr_palette_low.
      + by rewrite !(redirect_addr_other a). }
  split; [done|]. unfold read_byte, write_byte.
  split; intros; by rewrite Hidem.
Qed.

(** The translation of a 16-bit address is a 16-bit address, on the same
    side of the end of video memory. *)
Lemma redirect_addr_uint16 (a : Z) :
  0 <= a < 2 ^ 16 →
  0 <= redirect_addr a < 2 ^ 16 ∧
  (redirect_addr a < PPU_VRAM_SIZE ↔ a < PPU_VRAM_SIZE).
Proof.
  intros Ha.
  pose (p := λ a, (0 <=? redirect_addr a) && (redirect_addr a <? 2 ^ 16)
                  && bool_decide ((redirect_addr a <? PPU_VRAM_SIZE)
                                  = (a <? PPU_VRAM_SIZE))).
  assert (p a = true) as Hp.
  { apply (forall_range 0 (2 ^ 16) p); [vm_compute; reflexivity | lia]. }
  unfold p in Hp. apply andb_true_iff in Hp as [Hr Hside].
  apply bool_decide_eq_true in Hside.
  split; [lia|].
  destruct (a <? PPU_VRAM_SIZE) eqn:Hlt; lia.
Qed.

Lemma read_byte_is_Some (a : Z) (s : nes_ppu) :
  is_Some (read_byte a s)
  ↔ (Z.to_nat (redirect_addr a) < length (_vram s))%nat.
Proof. apply lookup_lt_is_Some. Qed.

Lemma write_byte_is_Some (a v : Z) (s : nes_ppu) :
  is_Some (write_byte a v s)
  ↔ (Z.to_nat (redirect_addr a) < length (_vram s))%nat.
Proof.
  unfold write_byte.
  destruct (Z.to_nat (redirect_addr a) <? length (_vram s))%nat eqn:Hlt.
  - apply Nat.ltb_lt in Hlt. split; [done|]. by eexists.
  - apply Nat.ltb_ge in Hlt. split; [intros [? ?]; done | lia].
Qed.

(** C2, amended: the translation is a total function, and it is in range
    for the addresses of the 16KB address space.  The index of a 16-bit
    address is below 0x4000 exactly when the address is, so [read_byte] and
    [write_byte] stay inside of the video memory array for every address
    below 0x4000, and only for those. *)
Theorem redirect_addr_in_range (a : Z) :
  0 <= a < 2 ^ 16 →
  (0 <= redirect_addr a < PPU_VRAM_SIZE ↔ a < PPU_VRAM_SIZE) ∧
  ∀ s, length (_vram s) = Z.to_nat PPU_VRAM_SIZE →
    (is_Some (read_byte a s) ↔ a < PPU_VRAM_SIZE) ∧
    (∀ v, is_Some (write_byte a v s) ↔ a < PPU_VRAM_SIZE).
Proof.
  intros Ha. destruct (redirect_addr_uint16 a Ha) as [Hr Hside].
  split; [lia|]. intros s Hlen. split; [|intros v].
  - rewrite read_byte_is_Some, Hlen, <- Hside. lia.
  - rewrite write_byte_is_Some, Hlen, <- Hside. lia.
Qed.

Lemma redirect_addr_in_range_witness :
  0 <= redirect_addr 0x3f14 < PPU_VRAM_SIZE ∧
  is_Some (read_byte 0x3f14 blank_ppu) ∧
  is_Some (write_byte 0x3f14 0x30 blank_ppu).
Proof.
  destruct (redirect_addr_in_range 0x3f14) as [Hr Hs]; [lia|].
  destruct (Hs blank_ppu) as [Hread Hwrite]; [vm_compute; reflexivity|].
  split; [apply Hr; reflexivity|].
  split; [apply Hread | apply Hwrite]; reflexivity.
Defined.

(** C2 as it was stated fails at the first address past the video memory:
    0x4000 is translated to itself, and both accesses leave the array.  The
    register interface reaches that address: two writes to PPUADDR set it,
    and the write to PPUDATA that follows has no defined result. *)
Lemma redirect_addr_past_vram :
  0 <= 0x4000 < 2 ^ 16 ∧
  ¬ redirect_addr 0x4000 < PPU_VRAM_SIZE ∧
  length (_vram blank_ppu) = Z.to_nat PPU_VRAM_SIZE ∧
  read_byte 0x4000 blank_ppu = None ∧
  write_byte 0x4000 0 blank_ppu = None ∧
  _ppu_addr (write_PPUADDR 0x00 (write_PPUADDR 0x40 blank_ppu)) = 0x4000 ∧
  write_PPUDATA 0 (write_PPUADDR 0x00 (write_PPUADDR 0x40 blank_ppu)) = None.
Proof.
  split; [lia|]. split; [vm_compute; by intros ?|].
  repeat split; vm_compute; reflexivity.
Qed.

(** ** The register file *)

Lemma is_ready_false (s : nes_ppu) :
  is_ready s = false ↔ _master_cycle s <= 29658.
Proof. unfold is_ready, nes_ppu_cycle_t. lia. Qed.

Lemma uint8_t_small (x : Z) : 0 <= x < 2 ^ 8 → uint8_t x = x.
Proof. intros Hx. by apply Z.mod_small. Qed.

Lemma uint16_t_small (x : Z) : 0 <= x < 2 ^ 16 → uint16_t x = x.
Proof. intros Hx. by apply Z.mod_small. Qed.

(** The communication latch is the only member [write_latch] touches. *)
Lemma write_latch_cases (val : Z) (s : nes_ppu) :
  write_latch val s = (if _protect_register s then s else set_latch val s).
Proof. done. Qed.

Ltac case_protect s :=
  rewrite ?write_latch_cases; simpl;
  let H := fresh "Hprot" in
  destruct (_protect_register s) eqn:H; simpl; rewrite ?H; simpl.

Lemma write_PPUDATA_in_bounds (val : Z) (s : nes_ppu) :
  let i := Z.to_nat (redirect_addr (_ppu_addr s)) in
  (i < length (_vram s))%nat →
  write_PPUDATA val s =
    Some (set_ppu_addr (uint16_t (_ppu_addr s + _ppu_addr_inc s))
            (set_vram (<[i := val]> (_vram s)) (write_latch val s))).
Proof.
  intros i Hi. apply Nat.ltb_lt in Hi.
  unfold write_PPUDATA, write_byte.
  case_protect s; fold i; by rewrite Hi.
Qed.

Lemma write_PPUDATA_out_of_bounds (val : Z) (s : nes_ppu) :
  (length (_vram s) <= Z.to_nat (redirect_addr (_ppu_addr s)))%nat →
  write_PPUDATA val s = None.
Proof.
  intros Hi. apply Nat.ltb_ge in Hi.
  unfold write_PPUDATA, write_byte.
  case_protect s; by rewrite Hi.
Qed.

Lemma write_PPUADDR_addr_latch (val : Z) (s : nes_ppu) :
  _addr_latch (write_PPUADDR val s) = uint8_t (Z.rem (_addr_latch s + 1) 2).
Proof.
  unfold write_PPUADDR, flip_addr_latch.
  case_protect s; by destruct (_ =? 1).
Qed.

Lemma write_PPUADDR_ppu_addr (val : Z) (s : nes_ppu) :
  _ppu_addr (write_PPUADDR val s) =
    if _addr_latch (write_PPUADDR val s) =? 1
    then uint16_t (Z.lor (Z.land (_ppu_addr s) 0x00ff)
                         (Z.shiftl (uint16_t val) 8))
    else uint16_t (Z.lor (Z.land (_ppu_addr s) 0xff00) val).
Proof.
  rewrite write_PPUADDR_addr_latch.
  unfold write_PPUADDR, flip_addr_latch.
  case_protect s; by destruct (_ =? 1).
Qed.

Lemma write_OAMDATA_oam (val : Z) (s : nes_ppu) :
  _oam (write_OAMDATA val s) = <[Z.to_nat (_oam_addr s) := val]> (_oam s).
Proof. unfold write_OAMDATA. by case_protect s. Qed.

Lemma write_OAMDATA_oam_addr (val : Z) (s : nes_ppu) :
  _oam_addr (write_OAMDATA val s) = uint8_t (_oam_addr s + 1).
Proof. unfold write_OAMDATA. by case_protect s. Qed.

Lemma write_OAMDMA_oam (ram : Z → Z) (val i : Z) (s : nes_ppu) :
  0 <= val < 2 ^ 8 → 0 <= i < PPU_OAM_SIZE →
  _oam (write_OAMDMA ram val s) !! Z.to_nat i = Some (ram (val * 0x100 + i)).
Proof.
  intros Hval Hi. unfold write_OAMDMA, oam_dma, set_oam. cbn [_oam].
  rewrite list_lookup_fmap, lookup_seq_lt by (unfold PPU_OAM_SIZE in *; lia).
  cbn [fmap option_fmap option_map]. f_equal. f_equal.
  rewrite (uint16_t_small val) by lia.
  rewrite Z.shiftl_mul_pow2 by lia.
  rewrite (uint16_t_small (val * 2 ^ 8)) by lia.
  unfold PPU_OAM_SIZE in Hi. rewrite uint16_t_small; lia.
Qed.

Lemma flip_addr_latch_mod (x : Z) :
  0 <= x → uint8_t (Z.rem (x + 1) 2) = (x + 1) mod 2.
Proof.
  intros Hx. rewrite Z.rem_mod_nonneg by lia.
  apply uint8_t_small.
  pose proof (Z.mod_pos_bound (x + 1) 2). lia.
Qed.

Lemma read_byte_set_ppu_addr (a x : Z) (s : nes_ppu) :
  read_byte a (set_ppu_addr x s) = read_byte a s.
Proof. done. Qed.

Lemma read_byte_written (a v : Z) (l : list Z) (s : nes_ppu) :
  (Z.to_nat (redirect_addr a) < length l)%nat →
  read_byte a (set_vram (<[Z.to_nat (redirect_addr a) := v]> l) s) = Some v.
Proof. intros Hlt. unfold read_byte. simpl. by apply list_lookup_insert_eq. Qed.

(** What the byte of a write leaves in the communication latch. *)
Lemma write_OAMADDR_latch (val : Z) (s : nes_ppu) :
  _latch (write_OAMADDR val s) = if _protect_register s then _latch s else val.
Proof. unfold write_OAMADDR. by case_protect s. Qed.

Lemma write_PPUADDR_latch (val : Z) (s : nes_ppu) :
  _latch (write_PPUADDR val s) = if _protect_register s then _latch s else val.
Proof.
  unfold write_PPUADDR, flip_addr_latch.
  case_protect s; by destruct (_ =? 1).
Qed.

Lemma write_OAMDATA_latch (val : Z) (s : nes_ppu) :
  _latch (write_OAMDATA val s) = if _protect_register s then _latch s else val.
Proof. unfold write_OAMDATA. by case_protect s. Qed.

Ltac destruct_ifs :=
  repeat (match goal with
          | |- context [if ?b then _ else _] => destruct b
          end; simpl).

(** The members that a write does not name keep their values: putting
    the old values back into the ones it names gives the state before the
    write. *)
Lemma write_OAMADDR_others (val : Z) (s : nes_ppu) :
  set_oam_addr (_oam_addr s) (set_latch (_latch s) (write_OAMADDR val s)) = s.
Proof.
  destruct s. unfold write_OAMADDR, write_latch. simpl.
  by destruct_ifs.
Qed.

Lemma write_PPUADDR_others (val : Z) (s : nes_ppu) :
  set_ppu_addr (_ppu_addr s)
    (set_addr_latch (_addr_latch s)
       (set_latch (_latch s) (write_PPUADDR val s))) = s.
Proof.
  destruct s. unfold write_PPUADDR, flip_addr_latch, write_latch. simpl.
  by destruct_ifs.
Qed.

Lemma write_PPUDATA_others (val : Z) (s s' : nes_ppu) :
  write_PPUDATA val s = Some s' →
  set_ppu_addr (_ppu_addr s)
    (set_vram (_vram s) (set_latch (_latch s) s')) = s.
Proof.
  destruct s. unfold write_PPUDATA, write_byte, write_latch. simpl.
  destruct_ifs; by intros [= <-].
Qed.

Lemma write_OAMDATA_others (val : Z) (s : nes_ppu) :
  set_oam_addr (_oam_addr s)
    (set_oam (_oam s) (set_latch (_latch s) (write_OAMDATA val s))) = s.
Proof.
  destruct s. unfold write_OAMDATA, write_latch. simpl.
  by destruct_ifs.
Qed.

Lemma write_OAMDMA_others (ram : Z → Z) (val : Z) (s : nes_ppu) :
  set_oam (_oam s) (write_OAMDMA ram val s) = s.
Proof. by destruct s. Qed.

(** C3: a state whose master cycle count is at most 29658 is not ready; a
    write to PPUCTRL, PPUMASK or PPUSCROLL then returns the state it was
    given, every member of it, the communication latch included.  The
    writes to OAMADDR, PPUADDR, PPUDATA, OAMDATA and OAMDMA take their
    full effect all the same, and each one is pinned member by member:
    - OAMADDR, PPUADDR, PPUDATA and OAMDATA leave their byte in the
      communication latch (unless the registers are protected, when
      [write_latch] keeps the latch);
    - OAMADDR sets the OAM address;
    - PPUADDR flips the toggle and replaces the selected byte of the video
      address;
    - PPUDATA stores the byte at the translated video address, leaves the
      rest of video memory as it is, and advances the video address;
    - OAMDATA stores the byte at the OAM address, leaves the rest of OAM as
      it is, and advances the OAM address;
    - OAMDMA hands the page address to [oam_dma], which fills the 256
      entries of OAM from the page; it does not write the latch;
    - no write changes a member other than the ones named for it: with
      their old values put back, the state is the one before the write;
    - what the five writes do is the same at any other master cycle
      count [c]. *)
Theorem writes_before_ready (ram : Z → Z) (val : Z) (s : nes_ppu) :
  _master_cycle s <= 29658 → wf_ppu s → 0 <= val < 2 ^ 8 →
  is_ready s = false ∧
  (write_PPUCTRL val s = s ∧ write_PPUMASK val s = s
   ∧ write_PPUSCROLL val s = s) ∧
  (_oam_addr (write_OAMADDR val s) = val ∧
   _latch (write_OAMADDR val s)
   = (if _protect_register s then _latch s else val) ∧
   set_oam_addr (_oam_addr s) (set_latch (_latch s) (write_OAMADDR val s))
   = s) ∧
  (_addr_latch (write_PPUADDR val s) = (_addr_latch s + 1) mod 2 ∧
   _ppu_addr (write_PPUADDR val s) =
     (if _addr_latch (write_PPUADDR val s) =? 1
      then uint16_t (Z.lor (Z.land (_ppu_addr s) 0x00ff)
                           (Z.shiftl (uint16_t val) 8))
      else uint16_t (Z.lor (Z.land (_ppu_addr s) 0xff00) val)) ∧
   _latch (write_PPUADDR val s)
   = (if _protect_register s then _latch s else val) ∧
   set_ppu_addr (_ppu_addr s)
     (set_addr_latch (_addr_latch s)
        (set_latch (_latch s) (write_PPUADDR val s))) = s) ∧
  (_ppu_addr s < PPU_VRAM_SIZE →
   ∃ s', write_PPUDATA val s = Some s'
         ∧ read_byte (_ppu_addr s) s' = Some val
         ∧ _ppu_addr s' = uint16_t (_ppu_addr s + _ppu_addr_inc s)
         ∧ _vram s'
           = <[Z.to_nat (redirect_addr (_ppu_addr s)) := val]> (_vram s)
         ∧ _latch s' = (if _protect_register s then _latch s else val)
         ∧ set_ppu_addr (_ppu_addr s)
             (set_vram (_vram s) (set_latch (_latch s) s')) = s) ∧
  (_oam (write_OAMDATA val s) !! Z.to_nat (_oam_addr s) = Some val ∧
   _oam_addr (write_OAMDATA val s) = (_oam_addr s + 1) mod 2 ^ 8 ∧
   _oam (write_OAMDATA val s)
   = <[Z.to_nat (_oam_addr s) := val]> (_oam s) ∧
   _latch (write_OAMDATA val s)
   = (if _protect_register s then _latch s else val) ∧
   set_oam_addr (_oam_addr s)
     (set_oam (_oam s) (set_latch (_latch s) (write_OAMDATA val s))) = s) ∧
  (write_OAMDMA ram val s = oam_dma ram (val * 0x100) s ∧
   (∀ i, 0 <= i < PPU_OAM_SIZE →
      _oam (write_OAMDMA ram val s) !! Z.to_nat i
      = Some (ram (val * 0x100 + i))) ∧
   length (_oam (write_OAMDMA ram val s)) = Z.to_nat PPU_OAM_SIZE ∧
   set_oam (_oam s) (write_OAMDMA ram val s) = s) ∧
  (∀ c,
     write_OAMADDR val (set_master_cycle c s)
     = set_master_cycle c (write_OAMADDR val s) ∧
     write_PPUADDR val (set_master_cycle c s)
     = set_master_cycle c (write_PPUADDR val s) ∧
     write_PPUDATA val (set_master_cycle c s)
     = set_master_cycle c <$> write_PPUDATA val s ∧
     write_OAMDATA val (set_master_cycle c s)
     = set_master_cycle c (write_OAMDATA val s) ∧
     write_OAMDMA ram val (set_master_cycle c s)
     = set_master_cycle c (write_OAMDMA ram val s)).
Proof.
  intros Hcycle (Hvram & Hoam & Hoam_addr & Htoggle & Haddr & _) Hval.
  apply is_ready_false in Hcycle as Hready.
  split; [done|]. split.
  { unfold write_PPUCTRL, write_PPUMASK, write_PPUSCROLL.
    by rewrite Hready. }
  split.
  { split; [unfold write_OAMADDR; by case_protect s|].
    split; [apply write_OAMADDR_latch | apply write_OAMADDR_others]. }
  split.
  { split.
    { rewrite write_PPUADDR_addr_latch. apply flip_addr_latch_mod. lia. }
    split; [apply write_PPUADDR_ppu_addr|].
    split; [apply write_PPUADDR_latch | apply write_PPUADDR_others]. }
  split.
  { intros Hin.
    destruct (redirect_addr_uint16 (_ppu_addr s) Haddr) as [Hr Hside].
    assert (Z.to_nat (redirect_addr (_ppu_addr s)) < length (_vram s))%nat
      as Hlt by (rewrite Hvram; lia).
    pose proof (write_PPUDATA_in_bounds val s Hlt) as Hwrite.
    eexists. split; [exact Hwrite|].
    split. { rewrite read_byte_set_ppu_addr. by apply read_byte_written. }
    split; [done|]. split; [done|].
    split; [|by apply (write_PPUDATA_others val)].
    unfold write_latch. simpl. by destruct (_protect_register s). }
  split.
  { rewrite write_OAMDATA_oam, write_OAMDATA_oam_addr.
    split.
    { apply list_lookup_insert_eq. rewrite Hoam. unfold PPU_OAM_SIZE. lia. }
    split; [done|]. split; [done|].
    split; [apply write_OAMDATA_latch | apply write_OAMDATA_others]. }
  split.
  { split.
    { unfold write_OAMDMA. f_equal.
      rewrite (uint16_t_small val), Z.shiftl_mul_pow2 by lia.
      apply uint16_t_small. lia. }
    split; [intros i Hi; by apply write_OAMDMA_oam|].
    split; [|apply write_OAMDMA_others].
    unfold write_OAMDMA, oam_dma, set_oam. cbn [_oam].
    by rewrite length_fmap, length_seq. }
  intros c. repeat split.
  - unfold write_OAMADDR. by case_protect s.
  - unfold write_PPUADDR, flip_addr_latch.
    case_protect s; by destruct (_ =? 1).
  - unfold write_PPUDATA, write_byte.
    case_protect s; by destruct (_ <? _)%nat.
  - unfold write_OAMDATA. by case_protect s.
Qed.

Lemma writes_before_ready_witness :
  write_PPUCTRL 0x84 blank_ppu = blank_ppu ∧
  _oam_addr (write_OAMADDR 0x84 blank_ppu) = 0x84 ∧
  _latch (write_OAMADDR 0x84 blank_ppu) = 0x84 ∧
  _addr_latch (write_PPUADDR 0x84 blank_ppu) = 1.
Proof.
  destruct (writes_before_ready (λ a, a `mod` 0x100) 0x84 blank_ppu)
    as (_ & (Hctrl & _) & (Hoamaddr & Hlatch & _) & (Htoggle & _) & _).
  - vm_compute. discriminate.
  - unfold wf_ppu. repeat split; try reflexivity; vm_compute; discriminate.
  - lia.
  - split; [exact Hctrl|]. split; [exact Hoamaddr|].
    split; [exact Hlatch | exact Htoggle].
Defined.

(** The value a status read returns: the low five bits of the latch and
    one bit for each of the three status flags. *)
Lemma read_PPUSTATUS_value (s : nes_ppu) :
  fst (read_PPUSTATUS s) =
    Z.lor (Z.lor (Z.lor (Z.land (_latch s) 0x1f)
                        (if _sprite_0_hit s then 0x40 else 0))
                 (if _sprite_overflow s then 0x20 else 0))
          (if _vblank_started s then 0x80 else 0).
Proof.
  unfold read_PPUSTATUS. cbn [fst].
  unfold PPUSTATUS_LATCH_MASK, PPUSTATUS_SPRITE_0_HIT,
    PPUSTATUS_SPRITE_OVERFLOW, PPUSTATUS_VBLANK_START.
  by destruct (_sprite_0_hit s), (_sprite_overflow s), (_vblank_started s);
    rewrite ?Z.lor_0_r.
Qed.

Lemma read_PPUSTATUS_protected (s : nes_ppu) :
  _protect_register s = true → snd (read_PPUSTATUS s) = s.
Proof.
  intros Hprot. unfold read_PPUSTATUS, write_latch. cbn [snd].
  rewrite Hprot. simpl. by rewrite Hprot.
Qed.

Lemma read_PPUSTATUS_addr_latch (s : nes_ppu) :
  _addr_latch (snd (read_PPUSTATUS s)) =
    if _protect_register s then _addr_latch s else 0.
Proof. unfold read_PPUSTATUS. cbn [snd]. by case_protect s. Qed.

(** C4, amended: a status read returns the low five bits of the latch,
    with bit 6 for sprite-0-hit, bit 5 for sprite-overflow and bit 7 for
    vblank.  With protection off the value is written back into the latch,
    the vblank flag is cleared and the write toggle is reset to 0; with
    protection on the read changes nothing at all, the latch included,
    however often it is repeated.  The two sprite flags are never changed
    by a status read. *)
Theorem read_PPUSTATUS_effect (s : nes_ppu) :
  fst (read_PPUSTATUS s) =
    Z.lor (Z.lor (Z.lor (Z.land (_latch s) 0x1f)
                        (if _sprite_0_hit s then 0x40 else 0))
                 (if _sprite_overflow s then 0x20 else 0))
          (if _vblank_started s then 0x80 else 0) ∧
  (_protect_register s = false →
     _latch (snd (read_PPUSTATUS s)) = fst (read_PPUSTATUS s) ∧
     _vblank_started (snd (read_PPUSTATUS s)) = false ∧
     _addr_latch (snd (read_PPUSTATUS s)) = 0) ∧
  (_protect_register s = true →
     ∀ n, Nat.iter n (λ s, snd (read_PPUSTATUS s)) s = s) ∧
  _sprite_0_hit (snd (read_PPUSTATUS s)) = _sprite_0_hit s ∧
  _sprite_overflow (snd (read_PPUSTATUS s)) = _sprite_overflow s.
Proof.
  split; [apply read_PPUSTATUS_value|].
  split; [|split].
  - intros Hprot. unfold read_PPUSTATUS, write_latch. cbn [fst snd].
    by rewrite Hprot; simpl; rewrite Hprot.
  - intros Hprot n. induction n as [|n IH]; [done|].
    change (snd (read_PPUSTATUS
                   (Nat.iter n (λ s, snd (read_PPUSTATUS s)) s)) = s).
    rewrite IH. by apply read_PPUSTATUS_protected.
  - unfold read_PPUSTATUS. cbn [snd]. by case_protect s.
Qed.

Lemma read_PPUSTATUS_effect_witness :
  _latch (snd (read_PPUSTATUS (set_vblank_started true blank_ppu))) = 0x80 ∧
  Nat.iter 3 (λ s, snd (read_PPUSTATUS s))
    (set_protect true (set_vblank_started true blank_ppu))
  = set_protect true (set_vblank_started true blank_ppu).
Proof.
  destruct (read_PPUSTATUS_effect (set_vblank_started true blank_ppu))
    as (Hval & Hoff & _).
  destruct (read_PPUSTATUS_effect
              (set_protect true (set_vblank_started true blank_ppu)))
    as (_ & _ & Hon & _).
  split.
  - destruct Hoff as (-> & _); [reflexivity|]. rewrite Hval. reflexivity.
  - apply Hon. reflexivity.
Defined.

(** C4 as it was stated fails under protection: the read returns 0x80 for
    a set vblank flag, and the latch keeps its old value 0. *)
Lemma read_PPUSTATUS_protected_latch :
  let s := set_protect true (set_vblank_started true blank_ppu) in
  fst (read_PPUSTATUS s) = 0x80 ∧
  _latch (snd (read_PPUSTATUS s)) = 0 ∧
  _latch (snd (read_PPUSTATUS s)) ≠ fst (read_PPUSTATUS s).
Proof. by vm_compute. Qed.

(** ** The video address *)

Lemma uint16_t_land (x : Z) : uint16_t x = Z.land x 0xffff.
Proof. unfold uint16_t. by rewrite <- Z.land_ones by lia. Qed.

(** The first write of a pair replaces the high byte of the address. *)
Lemma ppu_addr_set_high (p hi : Z) :
  0 <= hi < 2 ^ 8 →
  let p' := uint16_t (Z.lor (Z.land p 0x00ff) (Z.shiftl (uint16_t hi) 8)) in
  Z.shiftr p' 8 = hi ∧ Z.land p' 0xff = Z.land p 0xff.
Proof.
  intros Hhi p'. unfold p'.
  rewrite (uint16_t_small hi) by lia. rewrite uint16_t_land. split.
  - rewrite Z.shiftr_land, Z.shiftr_lor, Z.shiftr_land.
    change (Z.shiftr 0xff 8) with 0. rewrite Z.land_0_r, Z.lor_0_l.
    rewrite Z.shiftr_shiftl_l, Z.sub_diag, Z.shiftl_0_r by lia.
    change (Z.shiftr 0xffff 8) with (Z.ones 8).
    rewrite Z.land_ones by lia. by apply Z.mod_small.
  - rewrite land_land_const. change (Z.land 0xffff 0xff) with 0xff.
    rewrite Z.land_lor_distr_l, land_land_const.
    change (Z.land 0xff 0xff) with 0xff.
    change 0xff with (Z.ones 8) at 2. rewrite (Z.land_ones (Z.shiftl hi 8)) by lia.
    rewrite Z.shiftl_mul_pow2 by lia.
    by rewrite Z.mod_mul, Z.lor_0_r by lia.
Qed.

(** The second write replaces the low byte. *)
Lemma ppu_addr_set_low (p lo : Z) :
  0 <= lo < 2 ^ 8 →
  let p' := uint16_t (Z.lor (Z.land p 0xff00) lo) in
  Z.shiftr p' 8 = Z.shiftr (uint16_t p) 8 ∧ Z.land p' 0xff = lo.
Proof.
  intros Hlo p'. unfold p'. rewrite !uint16_t_land. split.
  - rewrite !Z.shiftr_land, Z.shiftr_lor, Z.shiftr_land.
    rewrite (Z.shiftr_div_pow2 lo), (Z.div_small lo), Z.lor_0_r by lia.
    change (Z.shiftr 0xff00 8) with 0xff. change (Z.shiftr 0xffff 8) with 0xff.
    rewrite land_land_const. by change (Z.land 0xff 0xff) with 0xff.
  - rewrite land_land_const. change (Z.land 0xffff 0xff) with 0xff.
    rewrite Z.land_lor_distr_l, land_land_const.
    change (Z.land 0xff00 0xff) with 0. rewrite Z.land_0_r, Z.lor_0_l.
    change 0xff with (Z.ones 8). rewrite Z.land_ones by lia.
    by apply Z.mod_small.
Qed.

(** A 16-bit value is its high byte and its low byte. *)
Lemma uint16_bytes (p : Z) :
  0 <= p < 2 ^ 16 → p = Z.shiftr p 8 * 0x100 + Z.land p 0xff.
Proof.
  intros Hp. rewrite Z.shiftr_div_pow2 by lia.
  change 0xff with (Z.ones 8). rewrite Z.land_ones by lia.
  change (2 ^ 8) with 0x100. pose proof (Z.div_mod p 0x100). lia.
Qed.

Lemma uint16_t_range (x : Z) : 0 <= uint16_t x < 2 ^ 16.
Proof. apply Z.mod_pos_bound. lia. Qed.

Lemma write_PPUADDR_frame (val : Z) (s : nes_ppu) :
  _vram (write_PPUADDR val s) = _vram s ∧
  _ppu_addr_inc (write_PPUADDR val s) = _ppu_addr_inc s.
Proof.
  unfold write_PPUADDR, flip_addr_latch.
  case_protect s; by destruct (_ =? 1).
Qed.

(** Two writes to PPUADDR from a cleared toggle: the first byte becomes the
    high byte of the video address, the second its low byte. *)
Lemma write_PPUADDR_pair (hi lo : Z) (s : nes_ppu) :
  _addr_latch s = 0 → 0 <= hi < 2 ^ 8 → 0 <= lo < 2 ^ 8 →
  let s1 := write_PPUADDR hi s in
  let s2 := write_PPUADDR lo s1 in
  (_addr_latch s1 = 1 ∧ Z.shiftr (_ppu_addr s1) 8 = hi
   ∧ Z.land (_ppu_addr s1) 0xff = Z.land (_ppu_addr s) 0xff) ∧
  (_addr_latch s2 = 0 ∧ Z.shiftr (_ppu_addr s2) 8 = Z.shiftr (_ppu_addr s1) 8
   ∧ Z.land (_ppu_addr s2) 0xff = lo) ∧
  _ppu_addr s2 = hi * 0x100 + lo.
Proof.
  intros Htoggle Hhi Hlo s1 s2.
  assert (_addr_latch s1 = 1) as Ht1.
  { unfold s1. by rewrite write_PPUADDR_addr_latch, Htoggle. }
  assert (_addr_latch s2 = 0) as Ht2.
  { unfold s2. by rewrite write_PPUADDR_addr_latch, Ht1. }
  assert (_ppu_addr s1 =
          uint16_t (Z.lor (Z.land (_ppu_addr s) 0x00ff)
                          (Z.shiftl (uint16_t hi) 8))) as Hp1.
  { unfold s1. rewrite write_PPUADDR_ppu_addr. fold s1. by rewrite Ht1. }
  assert (_ppu_addr s2 = uint16_t (Z.lor (Z.land (_ppu_addr s1) 0xff00) lo))
    as Hp2.
  { unfold s2. rewrite write_PPUADDR_ppu_addr. fold s2. by rewrite Ht2. }
  destruct (ppu_addr_set_high (_ppu_addr s) hi Hhi) as [Hhigh1 Hlow1].
  destruct (ppu_addr_set_low (_ppu_addr s1) lo Hlo) as [Hhigh2 Hlow2].
  rewrite <- Hp1 in Hhigh1, Hlow1. rewrite <- Hp2 in Hhigh2, Hlow2.
  assert (uint16_t (_ppu_addr s1) = _ppu_addr s1) as Hu1.
  { apply uint16_t_small. rewrite Hp1. apply uint16_t_range. }
  rewrite Hu1 in Hhigh2.
  split; [done|]. split; [done|].
  rewrite (uint16_bytes (_ppu_addr s2))
    by (rewrite Hp2; apply uint16_t_range).
  by rewrite Hhigh2, Hhigh1, Hlow2.
Qed.

(** Only a write to PPUCTRL changes the increment of the video address. *)
Lemma exec_op_ppu_addr_inc (ram : Z → Z) (op : reg_op) (s s' : nes_ppu) :
  is_Write_PPUCTRL op = false → exec_op ram op s = Some s' →
  _ppu_addr_inc s' = _ppu_addr_inc s.
Proof.
  intros Hop Hexec. destruct op; simpl in Hexec; try done;
    try (injection Hexec as <-).
  - unfold write_PPUMASK. destruct (negb (is_ready s)); [done|].
    by case_protect s.
  - unfold read_PPUSTATUS. cbn [snd]. by case_protect s.
  - unfold write_OAMADDR. by case_protect s.
  - unfold write_OAMDATA. by case_protect s.
  - unfold read_OAMDATA. cbn [snd]. by case_protect s.
  - unfold write_PPUSCROLL, flip_addr_latch.
    destruct (negb (is_ready s)); [done|].
    case_protect s; by destruct (_ =? 1).
  - apply write_PPUADDR_frame.
  - unfold write_PPUDATA, write_byte in Hexec. revert Hexec.
    case_protect s; destruct (_ <? _)%nat; simpl; intros [= <-]; done.
  - unfold read_PPUDATA, read_byte in Hexec. revert Hexec.
    destruct (_vram s !! _); simpl; [|done].
    intros [= <-]. by case_protect s.
  - done.
  - done.
Qed.

Lemma exec_ops_ppu_addr_inc (ram : Z → Z) (ops : list reg_op) :
  ∀ s s',
    forallb (λ op, negb (is_Write_PPUCTRL op)) ops = true →
    exec_ops ram ops s = Some s' →
    _ppu_addr_inc s' = _ppu_addr_inc s.
Proof.
  induction ops as [|op ops IH]; simpl; intros s s' Hops Hexec.
  - by injection Hexec as <-.
  - apply andb_true_iff in Hops as [Hop Hops].
    apply negb_true_iff in Hop.
    destruct (exec_op ram op s) as [s1|] eqn:Hs1; [|done].
    simpl in Hexec. rewrite (IH s1 s' Hops Hexec).
    by apply (exec_op_ppu_addr_inc ram op).
Qed.

(** An effective write to PPUCTRL selects the increment by its bit 2. *)
Lemma write_PPUCTRL_ppu_addr_inc (c : Z) (s : nes_ppu) :
  0 <= c < 2 ^ 8 → is_ready s = true →
  _ppu_addr_inc (write_PPUCTRL c s) = if Z.testbit c 2 then 32 else 1.
Proof.
  intros Hc Hready. unfold write_PPUCTRL. rewrite Hready. simpl.
  pose (p := λ c, Bool.eqb (to_bool (Z.land c PPUCTRL_VRAM_ADDR_MASK))
                           (Z.testbit c 2)).
  assert (p c = true) as Hbit.
  { apply (forall_range 0 (2 ^ 8) p); [vm_compute; reflexivity | lia]. }
  apply Bool.eqb_prop in Hbit. by rewrite Hbit.
Qed.

(** C5: after an effective write of [c] to PPUCTRL and any register
    operations other than a write to PPUCTRL, in a state whose write toggle
    is 0, the writes of 0x21 and 0x08 to PPUADDR set the video address to
    0x2108: the first replaces the high byte and keeps the low byte, the
    second replaces the low byte and keeps the high byte.  A write of [v] to
    PPUDATA then stores [v] at the translated location of 0x2108 and
    advances the video address by 1 if bit 2 of [c] is clear and by 32 if it
    is set. *)
Theorem write_PPUADDR_then_PPUDATA
    (ram : Z → Z) (c v : Z) (ops : list reg_op) (s0 s : nes_ppu) :
  0 <= c < 2 ^ 8 → is_ready s0 = true →
  forallb (λ op, negb (is_Write_PPUCTRL op)) ops = true →
  exec_ops ram ops (write_PPUCTRL c s0) = Some s →
  _addr_latch s = 0 →
  length (_vram s) = Z.to_nat PPU_VRAM_SIZE →
  let s1 := write_PPUADDR 0x21 s in
  let s2 := write_PPUADDR 0x08 s1 in
  (Z.shiftr (_ppu_addr s1) 8 = 0x21
   ∧ Z.land (_ppu_addr s1) 0xff = Z.land (_ppu_addr s) 0xff) ∧
  (Z.shiftr (_ppu_addr s2) 8 = Z.shiftr (_ppu_addr s1) 8
   ∧ Z.land (_ppu_addr s2) 0xff = 0x08) ∧
  _ppu_addr s2 = 0x2108 ∧
  ∃ s3, write_PPUDATA v s2 = Some s3
        ∧ _vram s3 = <[Z.to_nat (redirect_addr 0x2108) := v]> (_vram s)
        ∧ read_byte 0x2108 s3 = Some v
        ∧ _ppu_addr s3 = 0x2108 + (if Z.testbit c 2 then 32 else 1).
Proof.
  intros Hc Hready Hops Hexec Htoggle Hlen s1 s2.
  destruct (write_PPUADDR_pair 0x21 0x08 s Htoggle)
    as ((_ & Hhigh1 & Hlow1) & (_ & Hhigh2 & Hlow2) & Haddr); [lia..|].
  fold s1 in Hhigh1, Hlow1, Hhigh2, Hlow2, Haddr.
  fold s2 in Hhigh2, Hlow2, Haddr.
  change (0x21 * 0x100 + 0x08) with 0x2108 in Haddr.
  split; [done|]. split; [done|]. split; [done|].
  assert (_vram s2 = _vram s) as Hvram.
  { unfold s2. rewrite (proj1 (write_PPUADDR_frame _ _)).
    apply write_PPUADDR_frame. }
  assert (_ppu_addr_inc s2 = if Z.testbit c 2 then 32 else 1) as Hinc.
  { unfold s2, s1. rewrite !(proj2 (write_PPUADDR_frame _ _)).
    rewrite (exec_ops_ppu_addr_inc ram ops _ s Hops Hexec).
    by apply write_PPUCTRL_ppu_addr_inc. }
  assert (Z.to_nat (redirect_addr 0x2108) < length (_vram s))%nat as Hlt.
  { rewrite Hlen. change (redirect_addr 0x2108) with 0x2108.
    unfold PPU_VRAM_SIZE. lia. }
  eexists. split.
  { apply write_PPUDATA_in_bounds. rewrite Haddr, Hvram. exact Hlt. }
  rewrite Haddr, Hvram, Hinc. split; [done|]. split.
  - rewrite read_byte_set_ppu_addr. by apply read_byte_written.
  - simpl _ppu_addr. apply uint16_t_small. destruct (Z.testbit c 2); lia.
Qed.

Lemma write_PPUADDR_then_PPUDATA_witness :
  let s :=
    snd (read_PPUSTATUS
           (write_OAMADDR 0x10
              (write_PPUCTRL 0x04 (set_master_cycle 30000 blank_ppu)))) in
  _ppu_addr (write_PPUADDR 0x08 (write_PPUADDR 0x21 s)) = 0x2108 ∧
  ∃ s3, write_PPUDATA 0x7e (write_PPUADDR 0x08 (write_PPUADDR 0x21 s))
        = Some s3
        ∧ read_byte 0x2108 s3 = Some 0x7e
        ∧ _ppu_addr s3 = 0x2108 + 32.
Proof.
  intros s.
  destruct (write_PPUADDR_then_PPUDATA (λ _, 0) 0x04 0x7e
              [Write_OAMADDR 0x10; Read_PPUSTATUS]
              (set_master_cycle 30000 blank_ppu) s)
    as (_ & _ & Haddr & s3 & Hdata & _ & Hread & Hnext).
  - lia.
  - reflexivity.
  - reflexivity.
  - reflexivity.
  - reflexivity.
  - vm_compute. reflexivity.
  - split; [exact Haddr|]. exists s3. split; [exact Hdata|].
    split; [exact Hread | exact Hnext].
Defined.

(** ** The write toggle *)

Lemma write_PPUSCROLL_addr_latch (val : Z) (s : nes_ppu) :
  _addr_latch (write_PPUSCROLL val s) =
    if is_ready s then uint8_t (Z.rem (_addr_latch s + 1) 2)
    else _addr_latch s.
Proof.
  unfold write_PPUSCROLL, flip_addr_latch.
  destruct (is_ready s); [|done].
  case_protect s; by destruct (_ =? 1).
Qed.

(** The toggle after a register operation. *)
Lemma exec_op_addr_latch (ram : Z → Z) (op : reg_op) (s s' : nes_ppu) :
  exec_op ram op s = Some s' →
  _addr_latch s' =
    match op with
    | Write_PPUADDR _ => uint8_t (Z.rem (_addr_latch s + 1) 2)
    | Write_PPUSCROLL _ =>
        if is_ready s then uint8_t (Z.rem (_addr_latch s + 1) 2)
        else _addr_latch s
    | Read_PPUSTATUS => if _protect_register s then _addr_latch s else 0
    | _ => _addr_latch s
    end.
Proof.
  intros Hexec. destruct op; simpl in Hexec; try (injection Hexec as <-).
  - unfold write_PPUCTRL. destruct (negb (is_ready s)); [done|].
    by case_protect s.
  - unfold write_PPUMASK. destruct (negb (is_ready s)); [done|].
    by case_protect s.
  - apply read_PPUSTATUS_addr_latch.
  - unfold write_OAMADDR. by case_protect s.
  - unfold write_OAMDATA. by case_protect s.
  - unfold read_OAMDATA. cbn [snd]. by case_protect s.
  - apply write_PPUSCROLL_addr_latch.
  - apply write_PPUADDR_addr_latch.
  - unfold write_PPUDATA, write_byte in Hexec. revert Hexec.
    case_protect s; destruct (_ <? _)%nat; simpl; intros [= <-]; done.
  - unfold read_PPUDATA, read_byte in Hexec. revert Hexec.
    destruct (_vram s !! _); simpl; [|done].
    intros [= <-]. by case_protect s.
  - done.
  - done.
Qed.

Lemma flip_0_or_1 (t : Z) :
  t = 0 ∨ t = 1 → uint8_t (Z.rem (t + 1) 2) = 1 - t.
Proof. by intros [-> | ->]. Qed.

(** C6, amended: the write toggle shared by PPUSCROLL and PPUADDR is 0 or
    1, and every register operation keeps it so.  A write to PPUADDR flips
    it; a write to PPUSCROLL flips it once the PPU is ready and leaves it
    as it is before; a status read resets it to 0 unless protection is on.
    The two ports work on the one toggle: after a first write that went to
    PPUSCROLL, a write to PPUADDR is the second write of the pair, it sets
    the low byte of the video address and returns the toggle to 0. *)
Theorem addr_latch_toggle
    (ram : Z → Z) (op : reg_op) (val : Z) (s : nes_ppu) :
  _addr_latch s = 0 ∨ _addr_latch s = 1 → 0 <= val < 2 ^ 8 →
  (∀ s', exec_op ram op s = Some s' →
         _addr_latch s' = 0 ∨ _addr_latch s' = 1) ∧
  _addr_latch (write_PPUADDR val s) = 1 - _addr_latch s ∧
  _addr_latch (write_PPUSCROLL val s) =
    (if is_ready s then 1 - _addr_latch s else _addr_latch s) ∧
  _addr_latch (snd (read_PPUSTATUS s)) =
    (if _protect_register s then _addr_latch s else 0) ∧
  (is_ready s = true → _addr_latch s = 0 →
   ∀ u, _scroll_x (write_PPUSCROLL u s) = u
        ∧ _addr_latch (write_PPUSCROLL u s) = 1
        ∧ _addr_latch (write_PPUADDR val (write_PPUSCROLL u s)) = 0
        ∧ Z.land (_ppu_addr (write_PPUADDR val (write_PPUSCROLL u s))) 0xff
          = val).
Proof.
  intros Htoggle Hval.
  pose proof (flip_0_or_1 _ Htoggle) as Hflip.
  split; [|split; [|split; [|split]]].
  - intros s' Hexec. rewrite (exec_op_addr_latch ram op s s' Hexec).
    destruct op; try done; rewrite ?Hflip.
    + destruct (_protect_register s); [done|by left].
    + destruct (is_ready s); [lia|done].
    + lia.
  - by rewrite write_PPUADDR_addr_latch.
  - rewrite write_PPUSCROLL_addr_latch. by rewrite Hflip.
  - apply read_PPUSTATUS_addr_latch.
  - intros Hready Hzero u.
    assert (_addr_latch (write_PPUSCROLL u s) = 1) as Hone.
    { by rewrite write_PPUSCROLL_addr_latch, Hready, Hzero. }
    assert (_addr_latch (write_PPUADDR val (write_PPUSCROLL u s)) = 0)
      as Hback.
    { by rewrite write_PPUADDR_addr_latch, Hone. }
    split; [|split; [done|split; [done|]]].
    + unfold write_PPUSCROLL, flip_addr_latch. rewrite Hready. simpl.
      case_protect s; by rewrite Hzero.
    + rewrite write_PPUADDR_ppu_addr, Hback. simpl (0 =? 1).
      by apply ppu_addr_set_low.
Qed.

Lemma addr_latch_toggle_witness :
  _addr_latch (write_PPUADDR 0x21 blank_ppu) = 1 - _addr_latch blank_ppu ∧
  _addr_latch (write_PPUSCROLL 0x21 blank_ppu) = _addr_latch blank_ppu.
Proof.
  destruct (addr_latch_toggle (λ _, 0) (Write_PPUADDR 0x21) 0x21 blank_ppu)
    as (_ & Haddr & Hscroll & _).
  - left. reflexivity.
  - lia.
  - split; [exact Haddr | exact Hscroll].
Defined.

(** C6 as it was stated fails before readiness: a write to PPUSCROLL is
    ignored then, and the toggle is not flipped. *)
Lemma write_PPUSCROLL_before_ready :
  is_ready blank_ppu = false ∧
  _addr_latch blank_ppu = 0 ∧
  _addr_latch (write_PPUSCROLL 0x12 blank_ppu) = 0 ∧
  _addr_latch (write_PPUSCROLL 0x12 blank_ppu)
  ≠ 1 - _addr_latch blank_ppu.
Proof. by vm_compute. Qed.

(** ** Object memory *)

Lemma read_OAMDATA_frame (s : nes_ppu) :
  _oam_addr (snd (read_OAMDATA s)) = _oam_addr s ∧
  _oam (snd (read_OAMDATA s)) = _oam s.
Proof. unfold read_OAMDATA. cbn [snd]. by case_protect s. Qed.

(** The OAM address after a run of writes to OAMDATA. *)
Lemma write_OAMDATA_run_oam_addr (vs : list Z) :
  ∀ s, 0 <= _oam_addr s < 2 ^ 8 →
       _oam_addr (foldl (λ s v, write_OAMDATA v s) s vs)
       = (_oam_addr s + Z.of_nat (length vs)) mod 2 ^ 8.
Proof.
  induction vs as [|v vs IH]; intros s Haddr.
  - simpl. rewrite Z.add_0_r. symmetry. by apply Z.mod_small.
  - cbn [foldl]. rewrite IH, write_OAMDATA_oam_addr; unfold uint8_t.
    + rewrite Zplus_mod_idemp_l. f_equal. simpl length. lia.
    + rewrite write_OAMDATA_oam_addr. apply Z.mod_pos_bound. lia.
Qed.

(** C7: a write to OAMDATA stores the byte in OAM at the OAM address,
    leaves the other entries alone and advances the address by one modulo
    256; a read of OAMDATA returns the entry at the OAM address and leaves
    address and OAM as they are.  After any run of writes the address has
    advanced by the length of the run modulo 256, so 256 writes bring it
    back to where it started, and no shorter run does. *)
Theorem write_OAMDATA_cycle (v : Z) (vs : list Z) (s : nes_ppu) :
  length (_oam s) = Z.to_nat PPU_OAM_SIZE → 0 <= _oam_addr s < 2 ^ 8 →
  (_oam (write_OAMDATA v s) !! Z.to_nat (_oam_addr s) = Some v ∧
   (∀ j, j ≠ Z.to_nat (_oam_addr s) →
         _oam (write_OAMDATA v s) !! j = _oam s !! j) ∧
   _oam_addr (write_OAMDATA v s) = (_oam_addr s + 1) mod 2 ^ 8) ∧
  (_oam s !! Z.to_nat (_oam_addr s) = Some (fst (read_OAMDATA s)) ∧
   _oam_addr (snd (read_OAMDATA s)) = _oam_addr s ∧
   _oam (snd (read_OAMDATA s)) = _oam s) ∧
  _oam_addr (foldl (λ s v, write_OAMDATA v s) s vs)
  = (_oam_addr s + Z.of_nat (length vs)) mod 2 ^ 8 ∧
  (length vs = 256%nat →
   _oam_addr (foldl (λ s v, write_OAMDATA v s) s vs) = _oam_addr s) ∧
  ((0 < length vs < 256)%nat →
   _oam_addr (foldl (λ s v, write_OAMDATA v s) s vs) ≠ _oam_addr s).
Proof.
  intros Hlen Haddr.
  assert (Z.to_nat (_oam_addr s) < length (_oam s))%nat as Hlt.
  { rewrite Hlen. unfold PPU_OAM_SIZE. lia. }
  pose proof (write_OAMDATA_run_oam_addr vs s Haddr) as Hrun.
  split; [|split; [|split; [done|split]]].
  - rewrite write_OAMDATA_oam, write_OAMDATA_oam_addr.
    split; [by apply list_lookup_insert_eq|]. split; [|done].
    intros j Hj. by apply list_lookup_insert_ne.
  - split; [|apply read_OAMDATA_frame].
    unfold read_OAMDATA. cbn [fst].
    destruct (lookup_lt_is_Some_2 _ _ Hlt) as [b Hb]. by rewrite Hb.
  - intros Hvs. rewrite Hrun, Hvs.
    change (Z.of_nat 256) with (1 * 2 ^ 8).
    rewrite Z.mod_add by lia. by apply Z.mod_small.
  - intros Hvs. rewrite Hrun. intros Heq.
    destruct (decide (_oam_addr s + Z.of_nat (length vs) < 2 ^ 8)) as [Hs|Hs].
    + rewrite Z.mod_small in Heq by lia. lia.
    + replace (_oam_addr s + Z.of_nat (length vs))
        with (_oam_addr s + Z.of_nat (length vs) - 2 ^ 8 + 1 * 2 ^ 8)
        in Heq by lia.
      rewrite Z.mod_add, Z.mod_small in Heq by lia. lia.
Qed.

Lemma write_OAMDATA_cycle_witness :
  _oam (write_OAMDATA 0x42 blank_ppu) !! Z.to_nat (_oam_addr blank_ppu)
  = Some 0x42 ∧
  _oam_addr
    (foldl (λ s v, write_OAMDATA v s) blank_ppu (replicate 256 0x42))
  = _oam_addr blank_ppu.
Proof.
  destruct (write_OAMDATA_cycle 0x42 (replicate 256 0x42) blank_ppu)
    as ((Hstore & _) & _ & _ & Hcycle & _).
  - reflexivity.
  - vm_compute. split; [discriminate | reflexivity].
  - split; [exact Hstore|]. apply Hcycle. reflexivity.
Defined.

(** ** The palette lookup *)

(** Whatever the selector and the index, the lookup reads the backdrop
    entry: the address computed for a non-zero index is not used. *)
Lemma get_palette_color_backdrop
    (is_background : bool) (palette_index_4_bit : Z) (s : nes_ppu) :
  get_palette_color is_background palette_index_4_bit s = read_byte 0x3f00 s.
Proof. unfold get_palette_color. by destruct (_ =? 0). Qed.

(** C8: for index 0 the lookup is the one the specification asks for, the
    backdrop entry.  For the non-zero index 1 of the background palette it
    is not: with 0x0f in the backdrop entry 0x3f00 and 0x30 in the entry
    0x3f01 the function returns 0x0f, where the entry (0x3f00 | 1) that the
    specification selects holds 0x30. *)
Theorem get_palette_color_index_1 :
  get_palette_color true 0 palette_ppu
  = get_palette_color_spec true 0 palette_ppu ∧
  get_palette_color true 1 palette_ppu = Some 0x0f ∧
  read_byte (Z.lor 0x3f00 1) palette_ppu = Some 0x30 ∧
  get_palette_color_spec true 1 palette_ppu = Some 0x30.
Proof. repeat split; vm_compute; reflexivity. Qed.

(** ** The timing state machine *)

Lemma advance_beam_flags (s : nes_ppu) :
  _vblank_started (advance_beam s) = _vblank_started s ∧
  _sprite_0_hit (advance_beam s) = _sprite_0_hit s ∧
  _sprite_overflow (advance_beam s) = _sprite_overflow s ∧
  _vblank_nmi (advance_beam s) = _vblank_nmi s.
Proof.
  unfold advance_beam. simpl.
  destruct (PPU_SCANLINE_CYCLE <=? _); [|done]. simpl.
  by destruct (PPU_SCANLINE_COUNT <=? _).
Qed.

(** Every call of [advance_beam] counts one master cycle, and none
    touches the frame ceiling. *)
Lemma advance_beam_cycle (s : nes_ppu) :
  _master_cycle (advance_beam s) = _master_cycle s + 1 ∧
  _stop_after_frame (advance_beam s) = _stop_after_frame s.
Proof.
  unfold advance_beam. simpl.
  destruct (PPU_SCANLINE_CYCLE <=? _); [|done]. simpl.
  by destruct (PPU_SCANLINE_COUNT <=? _).
Qed.

(** A step inside of the frame goes to the next dot of the frame. *)
Lemma advance_beam_next (s : nes_ppu) :
  beam_in_frame s →
  dot_index s + 1 < PPU_SCANLINE_COUNT * PPU_SCANLINE_CYCLE →
  beam_in_frame (advance_beam s) ∧
  dot_index (advance_beam s) = dot_index s + 1 ∧
  _frame_count (advance_beam s) = _frame_count s.
Proof.
  unfold beam_in_frame, dot_index, advance_beam.
  unfold PPU_SCANLINE_COUNT, PPU_SCANLINE_CYCLE. simpl.
  intros [Hline Hdot] Hnext.
  destruct (341 <=? _scanline_cycle s + 1) eqn:Hend; simpl.
  - destruct (262 <=? _cur_scanline s + 1) eqn:Hlast; simpl; lia.
  - lia.
Qed.

(** The step from the last dot of the frame starts the next frame. *)
Lemma advance_beam_wrap (s : nes_ppu) :
  beam_in_frame s →
  dot_index s + 1 = PPU_SCANLINE_COUNT * PPU_SCANLINE_CYCLE →
  beam (advance_beam s) = (0, 0) ∧
  _frame_count (advance_beam s) = _frame_count s + 1.
Proof.
  unfold beam_in_frame, dot_index, advance_beam, beam.
  unfold PPU_SCANLINE_COUNT, PPU_SCANLINE_CYCLE. simpl.
  intros [Hline Hdot] Hnext.
  destruct (341 <=? _scanline_cycle s + 1) eqn:Hend; simpl; [|lia].
  destruct (262 <=? _cur_scanline s + 1) eqn:Hlast; simpl; [done|lia].
Qed.

Lemma at_vblank_start_dot (s : nes_ppu) :
  beam_in_frame s → at_vblank_start s = (dot_index s =? VBLANK_DOT).
Proof.
  unfold beam_in_frame, at_vblank_start, dot_index, VBLANK_DOT.
  unfold VBLANK_SCANLINE, PPU_SCANLINE_COUNT, PPU_SCANLINE_CYCLE.
  intros [Hline Hdot].
  destruct (_ =? 241 * 341 + 1) eqn:Hat; lia.
Qed.

Lemma at_pre_render_clear_dot (s : nes_ppu) :
  beam_in_frame s → at_pre_render_clear s = (dot_index s =? PRE_RENDER_DOT).
Proof.
  unfold beam_in_frame, at_pre_render_clear, dot_index, PRE_RENDER_DOT.
  unfold PRE_RENDER_SCANLINE, PPU_SCANLINE_COUNT, PPU_SCANLINE_CYCLE.
  intros [Hline Hdot].
  destruct (_ =? (262 - 1) * 341 + 1) eqn:Hat; lia.
Qed.

(** Whether the machine is halted depends on the frame count and the
    ceiling only. *)
Lemma halted_kept (a b : nes_ppu) :
  _frame_count b = _frame_count a →
  _stop_after_frame b = _stop_after_frame a →
  halted b = halted a.
Proof. unfold halted, frame_ceiling. by intros -> ->. Qed.

(** Storing what the rendering work produced does not move the timing
    counters, does not touch the vblank flag, the vblank-NMI enable or
    the frame ceiling, and clears no sprite flag. *)
Lemma commit_rendering_counters (r : rendering) (s : nes_ppu) :
  _cur_scanline (commit_rendering r s) = _cur_scanline s ∧
  _scanline_cycle (commit_rendering r s) = _scanline_cycle s ∧
  _frame_count (commit_rendering r s) = _frame_count s ∧
  _master_cycle (commit_rendering r s) = _master_cycle s ∧
  _stop_after_frame (commit_rendering r s) = _stop_after_frame s.
Proof. done. Qed.

Lemma commit_rendering_vblank (r : rendering) (s : nes_ppu) :
  _vblank_started (commit_rendering r s) = _vblank_started s ∧
  _vblank_nmi (commit_rendering r s) = _vblank_nmi s.
Proof. done. Qed.

Lemma commit_rendering_sprite_flags (r : rendering) (s : nes_ppu) :
  (_sprite_0_hit s = true → _sprite_0_hit (commit_rendering r s) = true) ∧
  (_sprite_overflow s = true →
   _sprite_overflow (commit_rendering r s) = true).
Proof. unfold commit_rendering. simpl. by split; intros ->. Qed.

Section frame.

(** What the rendering work of a dot produces: nothing is assumed of
    it. *)
Variable render_dot : nes_ppu → rendering.

Lemma dot_work_counters (s : nes_ppu) :
  _cur_scanline (fst (dot_work render_dot s)) = _cur_scanline s ∧
  _scanline_cycle (fst (dot_work render_dot s)) = _scanline_cycle s ∧
  _frame_count (fst (dot_work render_dot s)) = _frame_count s.
Proof.
  unfold dot_work. destruct (_cur_scanline s <? PPU_SCREEN_Y).
  - by destruct (is_render_off s).
  - by destruct (at_vblank_start s), (at_pre_render_clear s).
Qed.

Lemma dot_work_cycle (s : nes_ppu) :
  _master_cycle (fst (dot_work render_dot s)) = _master_cycle s ∧
  _stop_after_frame (fst (dot_work render_dot s)) = _stop_after_frame s.
Proof.
  unfold dot_work. destruct (_cur_scanline s <? PPU_SCREEN_Y).
  - by destruct (is_render_off s).
  - by destruct (at_vblank_start s), (at_pre_render_clear s).
Qed.

Lemma dot_work_beam (s : nes_ppu) :
  beam_in_frame (fst (dot_work render_dot s)) ↔ beam_in_frame s.
Proof.
  unfold beam_in_frame.
  destruct (dot_work_counters s) as (-> & -> & _). done.
Qed.

Lemma dot_work_dot_index (s : nes_ppu) :
  dot_index (fst (dot_work render_dot s)) = dot_index s.
Proof.
  unfold dot_index. by destruct (dot_work_counters s) as (-> & -> & _).
Qed.

(** A PPU cycle of a machine that is not halted, and one of a machine that
    is. *)
Lemma step_dot_eq (s : nes_ppu) :
  halted s = false →
  step_dot render_dot s
  = (advance_beam (fst (dot_work render_dot s)),
     snd (dot_work render_dot s)).
Proof.
  intros Hlive. unfold step_dot. rewrite Hlive.
  by destruct (dot_work render_dot s).
Qed.

Lemma step_dot_halted (s : nes_ppu) :
  halted s = true → step_dot render_dot s = (s, false).
Proof. intros Hhalted. unfold step_dot. by rewrite Hhalted. Qed.

(** On a visible scanline neither of the two flag events is due. *)
Lemma visible_no_event (s : nes_ppu) :
  (_cur_scanline s <? PPU_SCREEN_Y) = true →
  at_vblank_start s = false ∧ at_pre_render_clear s = false.
Proof.
  unfold at_vblank_start, at_pre_render_clear, PPU_SCREEN_Y.
  unfold VBLANK_SCANLINE, PRE_RENDER_SCANLINE, PPU_SCANLINE_COUNT.
  intros Hvisible. split; apply andb_false_iff; left; lia.
Qed.

(** The interrupt request of a step. *)
Lemma step_dot_nmi (s : nes_ppu) :
  snd (step_dot render_dot s)
  = negb (halted s) && (at_vblank_start s && _vblank_nmi s).
Proof.
  destruct (halted s) eqn:Hlive; [by rewrite step_dot_halted|].
  rewrite step_dot_eq by done. cbn [snd negb andb]. unfold dot_work.
  destruct (_cur_scanline s <? PPU_SCREEN_Y) eqn:Hvisible.
  - by destruct (visible_no_event s Hvisible) as [-> _].
  - by destruct (at_vblank_start s), (at_pre_render_clear s).
Qed.

(** The vblank flag and the vblank-NMI enable after a step. *)
Lemma step_dot_vblank (s : nes_ppu) :
  halted s = false →
  _vblank_started (fst (step_dot render_dot s)) =
    (if at_vblank_start s then true
     else if at_pre_render_clear s then false
     else _vblank_started s) ∧
  _vblank_nmi (fst (step_dot render_dot s)) = _vblank_nmi s.
Proof.
  intros Hlive. rewrite step_dot_eq by done. cbn [fst].
  destruct (advance_beam_flags (fst (dot_work render_dot s)))
    as (-> & _ & _ & ->).
  unfold dot_work.
  destruct (_cur_scanline s <? PPU_SCREEN_Y) eqn:Hvisible.
  - destruct (visible_no_event s Hvisible) as [-> ->]. cbn [fst].
    by destruct (is_render_off s).
  - by destruct (at_vblank_start s), (at_pre_render_clear s).
Qed.

(** The sprite flags after a step: cleared at dot 1 of the pre-render
    line; otherwise a flag that is set stays set, and off the visible
    scanlines the flags do not change at all. *)
Lemma step_dot_sprite_flags (s : nes_ppu) :
  halted s = false →
  let s' := fst (step_dot render_dot s) in
  if at_pre_render_clear s
  then _sprite_0_hit s' = false ∧ _sprite_overflow s' = false
  else (_sprite_0_hit s = true → _sprite_0_hit s' = true)
       ∧ (_sprite_overflow s = true → _sprite_overflow s' = true)
       ∧ (PPU_SCREEN_Y <= _cur_scanline s →
          _sprite_0_hit s' = _sprite_0_hit s
          ∧ _sprite_overflow s' = _sprite_overflow s).
Proof.
  intros Hlive s'. unfold s'. rewrite step_dot_eq by done. cbn [fst].
  destruct (advance_beam_flags (fst (dot_work render_dot s)))
    as (_ & -> & -> & _).
  unfold dot_work.
  destruct (_cur_scanline s <? PPU_SCREEN_Y) eqn:Hvisible.
  - destruct (visible_no_event s Hvisible) as [_ ->]. cbn [fst].
    split; [|split]; [| |lia];
      destruct (is_render_off s); try done;
      apply commit_rendering_sprite_flags.
  - destruct (at_vblank_start s) eqn:Hvbl.
    + assert (at_pre_render_clear s = false) as ->; [|done].
      unfold at_vblank_start, at_pre_render_clear in *.
      unfold VBLANK_SCANLINE, PRE_RENDER_SCANLINE, PPU_SCANLINE_COUNT in *.
      apply andb_false_iff. left. lia.
    + by destruct (at_pre_render_clear s).
Qed.

(** Every step of a machine that is not halted counts one master
    cycle. *)
Lemma step_dot_cycle (s : nes_ppu) :
  halted s = false →
  _master_cycle (fst (step_dot render_dot s)) = _master_cycle s + 1 ∧
  _stop_after_frame (fst (step_dot render_dot s)) = _stop_after_frame s.
Proof.
  intros Hlive. rewrite step_dot_eq by done. cbn [fst].
  destruct (advance_beam_cycle (fst (dot_work render_dot s))) as [-> ->].
  by destruct (dot_work_cycle s) as [-> ->].
Qed.

(** The beam after a step that stays in the frame, and after the step that
    leaves it.  Within the frame the frame count stands still, so a
    machine that is not halted goes on. *)
Lemma step_dot_next (s : nes_ppu) :
  halted s = false →
  beam_in_frame s →
  dot_index s + 1 < PPU_SCANLINE_COUNT * PPU_SCANLINE_CYCLE →
  beam_in_frame (fst (step_dot render_dot s)) ∧
  dot_index (fst (step_dot render_dot s)) = dot_index s + 1 ∧
  _frame_count (fst (step_dot render_dot s)) = _frame_count s ∧
  halted (fst (step_dot render_dot s)) = false.
Proof.
  intros Hlive Hbeam Hnext.
  assert (beam_in_frame (fst (step_dot render_dot s)) ∧
          dot_index (fst (step_dot render_dot s)) = dot_index s + 1 ∧
          _frame_count (fst (step_dot render_dot s)) = _frame_count s)
    as (Hbeam' & Hidx' & Hfc').
  { rewrite step_dot_eq by done. cbn [fst].
    rewrite <- (dot_work_dot_index s).
    rewrite <- (proj2 (proj2 (dot_work_counters s))).
    apply advance_beam_next; [by apply dot_work_beam|].
    by rewrite dot_work_dot_index. }
  split; [done|]. split; [done|]. split; [done|].
  rewrite <- Hlive. apply halted_kept; [done|].
  by apply step_dot_cycle.
Qed.

Lemma step_dot_wrap (s : nes_ppu) :
  halted s = false →
  beam_in_frame s →
  dot_index s + 1 = PPU_SCANLINE_COUNT * PPU_SCANLINE_CYCLE →
  beam (fst (step_dot render_dot s)) = (0, 0) ∧
  _frame_count (fst (step_dot render_dot s)) = _frame_count s + 1.
Proof.
  intros Hlive Hbeam Hnext. rewrite step_dot_eq by done. cbn [fst].
  rewrite <- (proj2 (proj2 (dot_work_counters s))).
  apply advance_beam_wrap; [by apply dot_work_beam|].
  by rewrite dot_work_dot_index.
Qed.

(** A step at a dot other than the two flag events: the vblank flag and
    the enable are kept, set sprite flags stay set, off the visible
    scanlines the sprite flags are kept, and no interrupt is requested. *)
Lemma quiet_step (s : nes_ppu) :
  halted s = false →
  beam_in_frame s →
  dot_index s ≠ VBLANK_DOT → dot_index s ≠ PRE_RENDER_DOT →
  let s' := fst (step_dot render_dot s) in
  _vblank_started s' = _vblank_started s ∧
  _vblank_nmi s' = _vblank_nmi s ∧
  (_sprite_0_hit s = true → _sprite_0_hit s' = true) ∧
  (_sprite_overflow s = true → _sprite_overflow s' = true) ∧
  (PPU_SCREEN_Y * PPU_SCANLINE_CYCLE <= dot_index s →
   _sprite_0_hit s' = _sprite_0_hit s
   ∧ _sprite_overflow s' = _sprite_overflow s) ∧
  snd (step_dot render_dot s) = false.
Proof.
  intros Hlive Hbeam Hvbl Hpre s'.
  assert (at_vblank_start s = false) as Hno_vbl.
  { rewrite at_vblank_start_dot by done. lia. }
  assert (at_pre_render_clear s = false) as Hno_pre.
  { rewrite at_pre_render_clear_dot by done. lia. }
  destruct (step_dot_vblank s Hlive) as [Hv Hnmi].
  pose proof (step_dot_sprite_flags s Hlive) as Hsprite.
  rewrite Hno_vbl, Hno_pre in Hv. rewrite Hno_pre in Hsprite.
  destruct Hsprite as (Hhit & Hovf & Hkept).
  split; [done|]. split; [done|]. split; [done|]. split; [done|].
  split; [|by rewrite step_dot_nmi, Hno_vbl, andb_false_r].
  intros Hline. apply Hkept.
  destruct Hbeam as [_ Hdot]. unfold dot_index in Hline.
  unfold PPU_SCREEN_Y, PPU_SCANLINE_CYCLE in *. lia.
Qed.

Lemma step_dots_S (n : nat) (s : nes_ppu) :
  step_dots render_dot (S n) s
  = step_dots render_dot n (fst (step_dot render_dot s)).
Proof. done. Qed.

Lemma step_dots_0 (s : nes_ppu) : step_dots render_dot 0 s = s.
Proof. done. Qed.

Lemma edges_S (edge : nes_ppu → nes_ppu → bool) (n : nat) (s : nes_ppu) :
  edges edge render_dot (S n) s
  = (if edge s (fst (step_dot render_dot s)) then [beam s] else [])
    ++ edges edge render_dot n (fst (step_dot render_dot s)).
Proof. done. Qed.

Lemma edges_0 (edge : nes_ppu → nes_ppu → bool) (s : nes_ppu) :
  edges edge render_dot 0 s = [].
Proof. done. Qed.

Lemma nmi_requests_S (n : nat) (s : nes_ppu) :
  nmi_requests render_dot (S n) s
  = (if snd (step_dot render_dot s) then [beam s] else [])
    ++ nmi_requests render_dot n (fst (step_dot render_dot s)).
Proof. simpl. by destruct (step_dot render_dot s). Qed.

(** The entry point with a count of cycles runs that many PPU cycles, and
    [step_to] with a target that many master cycles ahead does the
    same. *)
Lemma step_ppu_eq (cycle : Z) (s : nes_ppu) :
  step_ppu render_dot cycle s
  = (step_dots render_dot (Z.to_nat cycle) s,
     nmi_requests render_dot (Z.to_nat cycle) s).
Proof. reflexivity. Qed.

Lemma step_to_ahead (cycle : Z) (s : nes_ppu) :
  step_to render_dot (_master_cycle s + cycle) s
  = step_ppu render_dot cycle s.
Proof.
  unfold step_to. f_equal. lia.
Qed.

(** A halted machine stays where it is, whatever the count. *)
Lemma step_dots_halted (n : nat) (s : nes_ppu) :
  halted s = true →
  step_dots render_dot n s = s ∧
  nmi_requests render_dot n s = [] ∧
  ∀ edge, (∀ a, edge a a = false) → edges edge render_dot n s = [].
Proof.
  intros Hhalted. induction n as [|n (IHs & IHn & IHe)]; [done|].
  rewrite step_dots_S, nmi_requests_S, step_dot_halted by done.
  cbn [fst snd]. split; [done|]. split; [done|].
  intros edge Hedge.
  rewrite edges_S, step_dot_halted by done. cbn [fst].
  by rewrite Hedge, IHe.
Qed.

(** The interrupt requests are the edges of the kind "the machine is not
    halted, vblank starts at this dot and vblank-NMI is enabled". *)
Lemma nmi_requests_edges (n : nat) :
  ∀ s, nmi_requests render_dot n s
       = edges (λ a _, negb (halted a)
                       && (at_vblank_start a && _vblank_nmi a))
           render_dot n s.
Proof.
  induction n as [|n IH]; intros s; [done|].
  rewrite nmi_requests_S, step_dot_nmi, IH. done.
Qed.

Lemma beam_at_vblank_start (s : nes_ppu) :
  beam_in_frame s → dot_index s = VBLANK_DOT → beam s = (VBLANK_SCANLINE, 1).
Proof.
  intros Hbeam Hdot.
  assert (at_vblank_start s = true) as Hat.
  { rewrite at_vblank_start_dot by done. lia. }
  apply andb_true_iff in Hat as [Hline Hcycle]. unfold beam. f_equal; lia.
Qed.

Lemma beam_at_pre_render_clear (s : nes_ppu) :
  beam_in_frame s → dot_index s = PRE_RENDER_DOT →
  beam s = (PRE_RENDER_SCANLINE, 1).
Proof.
  intros Hbeam Hdot.
  assert (at_pre_render_clear s = true) as Hat.
  { rewrite at_pre_render_clear_dot by done. lia. }
  apply andb_true_iff in Hat as [Hline Hcycle]. unfold beam. f_equal; lia.
Qed.

(** The step at dot 1 of scanline 241. *)
Lemma vblank_step (s : nes_ppu) :
  halted s = false →
  beam_in_frame s → dot_index s = VBLANK_DOT →
  let s' := fst (step_dot render_dot s) in
  (halted s' = false ∧ beam_in_frame s' ∧ dot_index s' = VBLANK_DOT + 1
   ∧ _frame_count s' = _frame_count s
   ∧ _master_cycle s' = _master_cycle s + 1) ∧
  _vblank_started s' = true ∧
  _vblank_nmi s' = _vblank_nmi s ∧
  _sprite_0_hit s' = _sprite_0_hit s ∧
  _sprite_overflow s' = _sprite_overflow s ∧
  snd (step_dot render_dot s) = _vblank_nmi s.
Proof.
  intros Hlive Hbeam Hdot s'.
  assert (at_vblank_start s = true) as Hat.
  { rewrite at_vblank_start_dot by done. lia. }
  assert (at_pre_render_clear s = false) as Hno_pre.
  { rewrite at_pre_render_clear_dot by done.
    unfold VBLANK_DOT, PRE_RENDER_DOT, VBLANK_SCANLINE, PRE_RENDER_SCANLINE,
      PPU_SCANLINE_COUNT, PPU_SCANLINE_CYCLE in *. lia. }
  destruct (step_dot_vblank s Hlive) as [Hv Hnmi].
  pose proof (step_dot_sprite_flags s Hlive) as Hsprite.
  rewrite Hat in Hv. rewrite Hno_pre in Hsprite.
  destruct Hsprite as (_ & _ & Hkept).
  destruct Hkept as [Hhit Hovf].
  { apply beam_at_vblank_start in Hdot as [= -> _]; [|done].
    unfold PPU_SCREEN_Y, VBLANK_SCANLINE. lia. }
  destruct (step_dot_cycle s Hlive) as [Hmc _].
  split.
  { destruct (step_dot_next s Hlive Hbeam) as (Hb & Hi & Hf & Hl).
    { rewrite Hdot. unfold VBLANK_DOT, VBLANK_SCANLINE, PPU_SCANLINE_COUNT,
        PPU_SCANLINE_CYCLE. lia. }
    rewrite <- Hdot. done. }
  split; [done|]. split; [done|]. split; [done|]. split; [done|].
  by rewrite step_dot_nmi, Hlive, Hat.
Qed.

(** The step at dot 1 of the pre-render line. *)
Lemma clear_step (s : nes_ppu) :
  halted s = false →
  beam_in_frame s → dot_index s = PRE_RENDER_DOT →
  let s' := fst (step_dot render_dot s) in
  (halted s' = false ∧ beam_in_frame s' ∧ dot_index s' = PRE_RENDER_DOT + 1
   ∧ _frame_count s' = _frame_count s
   ∧ _master_cycle s' = _master_cycle s + 1) ∧
  _vblank_started s' = false ∧
  _vblank_nmi s' = _vblank_nmi s ∧
  _sprite_0_hit s' = false ∧
  _sprite_overflow s' = false ∧
  snd (step_dot render_dot s) = false.
Proof.
  intros Hlive Hbeam Hdot s'.
  assert (at_pre_render_clear s = true) as Hat.
  { rewrite at_pre_render_clear_dot by done. lia. }
  assert (at_vblank_start s = false) as Hno_vbl.
  { rewrite at_vblank_start_dot by done.
    unfold VBLANK_DOT, PRE_RENDER_DOT, VBLANK_SCANLINE, PRE_RENDER_SCANLINE,
      PPU_SCANLINE_COUNT, PPU_SCANLINE_CYCLE in *. lia. }
  destruct (step_dot_vblank s Hlive) as [Hv Hnmi].
  pose proof (step_dot_sprite_flags s Hlive) as Hsprite.
  rewrite Hno_vbl, Hat in Hv. rewrite Hat in Hsprite.
  destruct Hsprite as [Hhit Hovf].
  destruct (step_dot_cycle s Hlive) as [Hmc _].
  split.
  { destruct (step_dot_next s Hlive Hbeam) as (Hb & Hi & Hf & Hl).
    { rewrite Hdot. unfold PRE_RENDER_DOT, PRE_RENDER_SCANLINE,
        PPU_SCANLINE_COUNT, PPU_SCANLINE_CYCLE. lia. }
    rewrite <- Hdot. done. }
  split; [done|]. split; [done|]. split; [done|]. split; [done|].
  by rewrite step_dot_nmi, Hno_vbl, andb_false_r.
Qed.

Ltac timing_constants :=
  unfold VBLANK_DOT, PRE_RENDER_DOT, VBLANK_SCANLINE, PRE_RENDER_SCANLINE,
    PPU_SCREEN_Y, PPU_SCANLINE_COUNT, PPU_SCANLINE_CYCLE in *.

Lemma falling_kept (flag : nes_ppu → bool) (a b : nes_ppu) :
  (flag a = true → flag b = true) → falling flag a b = false.
Proof.
  unfold falling. intros Hkept.
  destruct (flag a); [by rewrite Hkept|done].
Qed.

(** No status flag edge and no interrupt request at a step away from the
    two flag events. *)
Lemma quiet_step_no_edge (a : nes_ppu) :
  halted a = false →
  beam_in_frame a →
  dot_index a ≠ VBLANK_DOT → dot_index a ≠ PRE_RENDER_DOT →
  let b := fst (step_dot render_dot a) in
  rising _vblank_started a b = false ∧
  falling _vblank_started a b = false ∧
  falling _sprite_0_hit a b = false ∧
  falling _sprite_overflow a b = false ∧
  status_falling a b = false ∧
  negb (halted a) && (at_vblank_start a && _vblank_nmi a) = false.
Proof.
  intros Hlive Hbeam Hvbl Hpre b.
  destruct (quiet_step a Hlive Hbeam Hvbl Hpre) as (Hv & _ & Hhit & Hovf & _).
  fold b in Hv, Hhit, Hovf.
  assert (falling _vblank_started a b = false) as Hfall_v.
  { apply falling_kept. by rewrite Hv. }
  pose proof (falling_kept _sprite_0_hit a b Hhit) as Hfall_hit.
  pose proof (falling_kept _sprite_overflow a b Hovf) as Hfall_ovf.
  split. { unfold rising. rewrite Hv. by destruct (_vblank_started a). }
  split; [done|]. split; [done|]. split; [done|].
  split. { unfold status_falling. by rewrite Hfall_v, Hfall_hit, Hfall_ovf. }
  rewrite at_vblank_start_dot by done.
  apply andb_false_iff. right. apply andb_false_iff. left. lia.
Qed.

(** Linear arithmetic with quotients and remainders by constants. *)
Ltac div_lia := Z.to_euclidean_division_equations; lia.

(** The frame count [F] is within the ceiling of [s]. *)
Lemma ceiling_admits_live (F : Z) (a : nes_ppu) :
  halted (set_frame_count F a) = false → _frame_count a <= F →
  halted a = false.
Proof.
  unfold halted, frame_ceiling. simpl.
  destruct (_stop_after_frame a <? 0); [done|].
  intros Hadmit Hle. apply Z.ltb_ge in Hadmit. apply Z.ltb_ge. div_lia.
Qed.

Lemma ceiling_admits_kept (F : Z) (a b : nes_ppu) :
  _stop_after_frame b = _stop_after_frame a →
  halted (set_frame_count F a) = false →
  halted (set_frame_count F b) = false.
Proof. unfold halted, frame_ceiling. simpl. by intros ->. Qed.

Lemma dot_index_range (s : nes_ppu) :
  beam_in_frame s → 0 <= dot_index s < FRAME_CYCLES.
Proof.
  unfold beam_in_frame, dot_index, FRAME_CYCLES.
  unfold PPU_SCANLINE_COUNT, PPU_SCANLINE_CYCLE. div_lia.
Qed.

(** The beam is where its dot number says. *)
Lemma beam_of_dot_index (a b : nes_ppu) :
  beam_in_frame a → beam_in_frame b → dot_index a = dot_index b →
  beam a = beam b.
Proof.
  unfold beam_in_frame, dot_index, beam.
  unfold PPU_SCANLINE_COUNT, PPU_SCANLINE_CYCLE.
  intros [Hla Hda] [Hlb Hdb] Hidx. f_equal; div_lia.
Qed.

(** One cycle from any dot of the frame: to the next dot, or from the last
    dot to the first dot of the next frame. *)
Lemma step_dot_index (s : nes_ppu) :
  halted s = false → beam_in_frame s →
  let s' := fst (step_dot render_dot s) in
  beam_in_frame s' ∧
  dot_index s' = (dot_index s + 1) mod FRAME_CYCLES ∧
  _frame_count s' = _frame_count s + (dot_index s + 1) / FRAME_CYCLES.
Proof.
  intros Hlive Hbeam s'.
  pose proof (dot_index_range s Hbeam) as Hrange.
  destruct (decide (dot_index s + 1 = FRAME_CYCLES)) as [Hlast|Hinside].
  - destruct (step_dot_wrap s Hlive Hbeam Hlast) as [Hstart Hfc].
    fold s' in Hstart, Hfc. injection Hstart as Hline Hdot.
    assert (dot_index s' = 0) as Hidx'.
    { unfold dot_index. rewrite Hline, Hdot. div_lia. }
    split.
    { unfold beam_in_frame. rewrite Hline, Hdot.
      unfold PPU_SCANLINE_COUNT, PPU_SCANLINE_CYCLE. div_lia. }
    rewrite Hidx', Hfc, Hlast.
    unfold FRAME_CYCLES, PPU_SCANLINE_COUNT, PPU_SCANLINE_CYCLE.
    split; div_lia.
  - destruct (step_dot_next s Hlive Hbeam) as (Hbeam' & Hidx' & Hfc' & _).
    { unfold FRAME_CYCLES in *. div_lia. }
    fold s' in Hbeam', Hidx', Hfc'.
    split; [done|]. rewrite Hidx', Hfc'.
    unfold FRAME_CYCLES, PPU_SCANLINE_COUNT, PPU_SCANLINE_CYCLE in *.
    split; div_lia.
Qed.

(** A cycle keeps the vblank flag as the timing machine drives it. *)
Lemma step_dot_in_vblank (s : nes_ppu) :
  halted s = false → beam_in_frame s →
  _vblank_started s = in_vblank s →
  _vblank_started (fst (step_dot render_dot s))
  = in_vblank (fst (step_dot render_dot s)).
Proof.
  intros Hlive Hbeam Hdriven.
  pose proof (dot_index_range s Hbeam) as Hrange.
  destruct (step_dot_index s Hlive Hbeam) as (_ & Hidx & _).
  destruct (step_dot_vblank s Hlive) as [-> _].
  rewrite at_vblank_start_dot, at_pre_render_clear_dot, Hdriven by done.
  unfold in_vblank. rewrite Hidx.
  assert ((dot_index s + 1 = FRAME_CYCLES
           ∧ (dot_index s + 1) mod FRAME_CYCLES = 0)
          ∨ (dot_index s + 1 < FRAME_CYCLES
             ∧ (dot_index s + 1) mod FRAME_CYCLES = dot_index s + 1))
    as Hnext.
  { unfold FRAME_CYCLES, PPU_SCANLINE_COUNT, PPU_SCANLINE_CYCLE in *.
    div_lia. }
  generalize dependent ((dot_index s + 1) mod FRAME_CYCLES).
  intros i' _ Hnext.
  unfold FRAME_CYCLES in *. timing_constants.
  destruct (Z.eqb_spec (dot_index s) (241 * 341 + 1)),
    (Z.eqb_spec (dot_index s) ((262 - 1) * 341 + 1)),
    (Z.ltb_spec (241 * 341 + 1) (dot_index s)),
    (Z.leb_spec (dot_index s) ((262 - 1) * 341 + 1)),
    (Z.ltb_spec (241 * 341 + 1) i'),
    (Z.leb_spec i' ((262 - 1) * 341 + 1));
    simpl; try reflexivity; exfalso; lia.
Qed.

(** The state after [n] cycles from any dot of the frame, while the frame
    count stays within the ceiling up to the last of the cycles. *)
Lemma run_state (F : Z) (n : nat) :
  ∀ s,
    beam_in_frame s →
    halted (set_frame_count F s) = false →
    (n = 0%nat ∨
     _frame_count s + (dot_index s + Z.of_nat n - 1) / FRAME_CYCLES <= F) →
    let s' := step_dots render_dot n s in
    beam_in_frame s' ∧
    dot_index s' = (dot_index s + Z.of_nat n) mod FRAME_CYCLES ∧
    _frame_count s'
    = _frame_count s + (dot_index s + Z.of_nat n) / FRAME_CYCLES ∧
    _master_cycle s' = _master_cycle s + Z.of_nat n ∧
    halted (set_frame_count F s') = false ∧
    _vblank_nmi s' = _vblank_nmi s ∧
    (_vblank_started s = in_vblank s → _vblank_started s' = in_vblank s').
Proof.
  induction n as [|n IH]; intros s Hbeam Hadmit Hbound.
  { pose proof (dot_index_range s Hbeam) as Hrange.
    rewrite step_dots_0. cbv zeta.
    split; [done|].
    unfold FRAME_CYCLES, PPU_SCANLINE_COUNT, PPU_SCANLINE_CYCLE in *.
    split; [div_lia|]. split; [div_lia|]. split; [div_lia|]. done. }
  pose proof (dot_index_range s Hbeam) as Hrange.
  destruct Hbound as [|Hbound]; [done|].
  assert (halted s = false) as Hlive.
  { apply (ceiling_admits_live F); [done|].
    unfold FRAME_CYCLES, PPU_SCANLINE_COUNT, PPU_SCANLINE_CYCLE in *. div_lia. }
  destruct (step_dot_index s Hlive Hbeam) as (Hbeam1 & Hidx1 & Hfc1).
  destruct (step_dot_cycle s Hlive) as [Hmc1 Hceiling1].
  destruct (step_dot_vblank s Hlive) as [_ Hnmi1].
  pose proof (step_dot_in_vblank s Hlive Hbeam) as Hdriven1.
  destruct (IH (fst (step_dot render_dot s)) Hbeam1)
    as (Hbeam' & Hidx' & Hfc' & Hmc' & Hadmit' & Hnmi' & Hdriven').
  { by apply (ceiling_admits_kept F s). }
  { destruct n as [|n]; [by left|right].
    rewrite Hidx1, Hfc1.
    unfold FRAME_CYCLES, PPU_SCANLINE_COUNT, PPU_SCANLINE_CYCLE in *. div_lia. }
  rewrite step_dots_S. cbv zeta.
  split; [done|].
  split.
  { rewrite Hidx', Hidx1.
    unfold FRAME_CYCLES, PPU_SCANLINE_COUNT, PPU_SCANLINE_CYCLE in *. div_lia. }
  split.
  { rewrite Hfc', Hfc1, Hidx1.
    unfold FRAME_CYCLES, PPU_SCANLINE_COUNT, PPU_SCANLINE_CYCLE in *. div_lia. }
  split; [div_lia|]. split; [done|]. split; [congruence|].
  intros Hdriven. apply Hdriven', Hdriven1, Hdriven.
Qed.

(** The edges of a kind that only the cycle at dot number [D] produces,
    over [n] cycles from any dot of the frame, [n] no more than a frame:
    the cycle at [D] is among them if [D] is less than [n] dots ahead, and
    the edge occurs if it occurs over that cycle. *)
Lemma event_edges (edge : nes_ppu → nes_ppu → bool) (D : Z) (pos : Z * Z)
    (F : Z) :
  0 <= D < FRAME_CYCLES →
  (∀ a, beam_in_frame a → dot_index a = D → beam a = pos) →
  (∀ a, halted a = false → beam_in_frame a → dot_index a ≠ D →
        edge a (fst (step_dot render_dot a)) = false) →
  ∀ n s d,
    Z.of_nat n <= FRAME_CYCLES →
    beam_in_frame s →
    halted (set_frame_count F s) = false →
    (n = 0%nat ∨
     _frame_count s + (dot_index s + Z.of_nat n - 1) / FRAME_CYCLES <= F) →
    d = (D - dot_index s) mod FRAME_CYCLES →
    edges edge render_dot n s
    = if d <? Z.of_nat n
      then (if edge (step_dots render_dot (Z.to_nat d) s)
                 (fst (step_dot render_dot
                         (step_dots render_dot (Z.to_nat d) s)))
            then [pos] else [])
      else [].
Proof.
  intros HD Hpos Hedge.
  induction n as [|n IH]; intros s d Hn Hbeam Hadmit Hbound Hd.
  { pose proof (dot_index_range s Hbeam) as Hrange.
    rewrite edges_0.
    assert ((d <? Z.of_nat 0) = false) as ->; [|done].
    apply Z.ltb_ge. subst d.
    unfold FRAME_CYCLES, PPU_SCANLINE_COUNT, PPU_SCANLINE_CYCLE in *. div_lia. }
  pose proof (dot_index_range s Hbeam) as Hrange.
  destruct Hbound as [|Hbound]; [done|].
  assert (halted s = false) as Hlive.
  { apply (ceiling_admits_live F); [done|].
    unfold FRAME_CYCLES, PPU_SCANLINE_COUNT, PPU_SCANLINE_CYCLE in *. div_lia. }
  destruct (step_dot_index s Hlive Hbeam) as (Hbeam1 & Hidx1 & Hfc1).
  destruct (step_dot_cycle s Hlive) as [_ Hceiling1].
  rewrite edges_S.
  rewrite (IH (fst (step_dot render_dot s))
             ((D - dot_index (fst (step_dot render_dot s)))
              mod FRAME_CYCLES)); [|div_lia|done| | |done].
  2: { by apply (ceiling_admits_kept F s). }
  2: { destruct n as [|n]; [by left|right].
       rewrite Hidx1, Hfc1.
       unfold FRAME_CYCLES, PPU_SCANLINE_COUNT, PPU_SCANLINE_CYCLE in *.
       div_lia. }
  rewrite Hidx1.
  destruct (decide (dot_index s = D)) as [Hat|Haway].
  - assert (d = 0) as ->.
    { subst d. rewrite Hat.
      unfold FRAME_CYCLES, PPU_SCANLINE_COUNT, PPU_SCANLINE_CYCLE in *.
      div_lia. }
    change (Z.to_nat 0) with 0%nat. rewrite step_dots_0.
    rewrite (Hpos s Hbeam Hat).
    assert ((0 <? Z.of_nat (S n)) = true) as -> by (apply Z.ltb_lt; div_lia).
    assert (((D - (dot_index s + 1) mod FRAME_CYCLES) mod FRAME_CYCLES
             <? Z.of_nat n) = false) as ->.
    { apply Z.ltb_ge. rewrite Hat.
      unfold FRAME_CYCLES, PPU_SCANLINE_COUNT, PPU_SCANLINE_CYCLE in *.
      div_lia. }
    by rewrite app_nil_r.
  - rewrite (Hedge s Hlive Hbeam Haway). rewrite app_nil_l.
    assert ((D - (dot_index s + 1) mod FRAME_CYCLES) mod FRAME_CYCLES
            = d - 1 ∧ 1 <= d) as [-> Hpos_d].
    { subst d.
      unfold FRAME_CYCLES, PPU_SCANLINE_COUNT, PPU_SCANLINE_CYCLE in *.
      div_lia. }
    replace (Z.to_nat d) with (S (Z.to_nat (d - 1))) by div_lia.
    rewrite step_dots_S.
    assert ((d - 1 <? Z.of_nat n) = (d <? Z.of_nat (S n))) as ->; [|done].
    destruct (Z.ltb_spec (d - 1) (Z.of_nat n));
      destruct (Z.ltb_spec d (Z.of_nat (S n))); div_lia || done.
Qed.

(** The cycle at dot 1 of scanline 241 is the only one over which the
    vblank flag rises or an interrupt is requested; the cycle at dot 1 of
    the pre-render line is the only one over which a status flag
    falls. *)
Lemma only_at_vblank_start (a : nes_ppu) :
  halted a = false → beam_in_frame a → dot_index a ≠ VBLANK_DOT →
  rising _vblank_started a (fst (step_dot render_dot a)) = false ∧
  negb (halted a) && (at_vblank_start a && _vblank_nmi a) = false.
Proof.
  intros Hlive Hbeam Hvbl.
  destruct (decide (dot_index a = PRE_RENDER_DOT)) as [Hpre|Hpre].
  - destruct (clear_step a Hlive Hbeam Hpre) as (_ & Hv & _).
    split. { unfold rising. rewrite Hv. apply andb_false_r. }
    rewrite at_vblank_start_dot by done.
    apply andb_false_iff. right. apply andb_false_iff. left. lia.
  - destruct (quiet_step_no_edge a Hlive Hbeam Hvbl Hpre)
      as (Hrise & _ & _ & _ & _ & Hreq).
    done.
Qed.

Lemma only_at_pre_render_clear (a : nes_ppu) :
  halted a = false → beam_in_frame a → dot_index a ≠ PRE_RENDER_DOT →
  let b := fst (step_dot render_dot a) in
  falling _vblank_started a b = false ∧
  falling _sprite_0_hit a b = false ∧
  falling _sprite_overflow a b = false ∧
  status_falling a b = false.
Proof.
  intros Hlive Hbeam Hpre b.
  destruct (decide (dot_index a = VBLANK_DOT)) as [Hvbl|Hvbl].
  - destruct (vblank_step a Hlive Hbeam Hvbl) as (_ & Hv & _ & Hhit & Hovf & _).
    fold b in Hv, Hhit, Hovf.
    unfold status_falling, falling. rewrite Hv, Hhit, Hovf.
    rewrite !andb_negb_r, andb_false_r. done.
  - destruct (quiet_step_no_edge a Hlive Hbeam Hvbl Hpre)
      as (_ & Hfall & Hhit & Hovf & Hstatus & _).
    done.
Qed.

(** C9, amended: take a full frame advance of the stepping entry point,
    262 scanlines of 341 dots, from any dot of the frame, whatever the
    rendering work produces.  Let the vblank flag at the start be as the
    timing machine drives it, set exactly at the dots after dot 1 of
    scanline 241 up to dot 1 of the pre-render line (a status read has not
    cleared it early), and let the frame count stay within the frame
    ceiling up to the last cycle.  Then the vblank flag rises over one
    cycle only, the one at dot 1 of scanline 241, and the entry point
    requests an interrupt there, and nowhere else, exactly if vblank-NMI
    is enabled.  The vblank flag falls over one cycle only, the one at
    dot 1 of the pre-render line; no status flag falls over any other
    cycle, and a sprite flag falls there exactly if it is set when the
    beam reaches that dot, so one that was not set has no falling edge.
    [step_to] with the target a frame ahead is the same advance; it ends
    262 x 341 master cycles later at the dot it started from, in the next
    frame, with the vblank flag again as the timing machine drives it. *)
Theorem frame_status_flag_edges (s : nes_ppu) :
  beam_in_frame s → _vblank_started s = in_vblank s → frame_runs s = true →
  let on_pre_render :=
    step_dots render_dot
      (Z.to_nat ((PRE_RENDER_DOT - dot_index s) mod FRAME_CYCLES)) s in
  let s' := fst (step_ppu render_dot FRAME_CYCLES s) in
  edges (rising _vblank_started) render_dot FRAME_DOTS s
  = [(VBLANK_SCANLINE, 1)] ∧
  snd (step_ppu render_dot FRAME_CYCLES s)
  = (if _vblank_nmi s then [(VBLANK_SCANLINE, 1)] else []) ∧
  edges (falling _vblank_started) render_dot FRAME_DOTS s
  = [(PRE_RENDER_SCANLINE, 1)] ∧
  edges status_falling render_dot FRAME_DOTS s
  = [(PRE_RENDER_SCANLINE, 1)] ∧
  edges (falling _sprite_0_hit) render_dot FRAME_DOTS s
  = (if _sprite_0_hit on_pre_render
     then [(PRE_RENDER_SCANLINE, 1)] else []) ∧
  edges (falling _sprite_overflow) render_dot FRAME_DOTS s
  = (if _sprite_overflow on_pre_render
     then [(PRE_RENDER_SCANLINE, 1)] else []) ∧
  step_to render_dot (_master_cycle s + FRAME_CYCLES) s
  = step_ppu render_dot FRAME_CYCLES s ∧
  (beam s' = beam s ∧ _frame_count s' = _frame_count s + 1
   ∧ _master_cycle s' = _master_cycle s + FRAME_CYCLES
   ∧ _vblank_started s' = in_vblank s').
Proof.
  intros Hbeam Hdriven Hruns s3 s'.
  unfold s'. rewrite step_to_ahead, step_ppu_eq. cbn [fst snd].
  clear s'. fold FRAME_DOTS.
  assert (Z.of_nat FRAME_DOTS = FRAME_CYCLES) as Hdots.
  { unfold FRAME_DOTS. apply Z2Nat.id.
    unfold FRAME_CYCLES, PPU_SCANLINE_COUNT, PPU_SCANLINE_CYCLE. lia. }
  generalize dependent FRAME_DOTS. intros n Hdots.
  pose proof (dot_index_range s Hbeam) as Hrange.
  (* the frame count of the last cycle is within the ceiling *)
  set (F := last_frame_count s).
  assert (halted (set_frame_count F s) = false) as Hadmit.
  { unfold frame_runs in Hruns. by apply negb_true_iff in Hruns. }
  assert (_frame_count s + (dot_index s + FRAME_CYCLES - 1) / FRAME_CYCLES
          <= F) as Hbound.
  { unfold F, last_frame_count.
    destruct (dot_index s =? 0) eqn:Hfirst;
      unfold FRAME_CYCLES, PPU_SCANLINE_COUNT, PPU_SCANLINE_CYCLE in *;
      div_lia. }
  (* the states on reaching the two flag events *)
  set (d1 := (VBLANK_DOT - dot_index s) mod FRAME_CYCLES).
  set (d3 := (PRE_RENDER_DOT - dot_index s) mod FRAME_CYCLES) in *.
  assert (0 <= d1 < FRAME_CYCLES ∧ 0 <= d3 < FRAME_CYCLES
          ∧ (dot_index s + d1) mod FRAME_CYCLES = VBLANK_DOT
          ∧ (dot_index s + d3) mod FRAME_CYCLES = PRE_RENDER_DOT
          ∧ (dot_index s + d1) / FRAME_CYCLES
            <= (dot_index s + FRAME_CYCLES - 1) / FRAME_CYCLES
          ∧ (dot_index s + d3) / FRAME_CYCLES
            <= (dot_index s + FRAME_CYCLES - 1) / FRAME_CYCLES
          ∧ (dot_index s + d1 - 1) / FRAME_CYCLES
            <= (dot_index s + FRAME_CYCLES - 1) / FRAME_CYCLES
          ∧ (dot_index s + d3 - 1) / FRAME_CYCLES
            <= (dot_index s + FRAME_CYCLES - 1) / FRAME_CYCLES)
    as (Hd1 & Hd3 & Hat1 & Hat3 & Hq1 & Hq3 & Hp1 & Hp3).
  { unfold d1, d3, FRAME_CYCLES in *. timing_constants. div_lia. }
  set (s1 := step_dots render_dot (Z.to_nat d1) s).
  destruct (run_state F (Z.to_nat d1) s Hbeam Hadmit)
    as (Hbeam1 & Hidx1 & Hfc1 & _ & Hadmit1 & Hnmi1 & Hv1).
  { right. rewrite Z2Nat.id by lia. lia. }
  fold s1 in Hbeam1, Hidx1, Hfc1, Hadmit1, Hnmi1, Hv1.
  rewrite Z2Nat.id in Hidx1, Hfc1 by lia. rewrite Hat1 in Hidx1.
  assert (halted s1 = false) as Hlive1.
  { apply (ceiling_admits_live F); [done|]. rewrite Hfc1. lia. }
  destruct (run_state F (Z.to_nat d3) s Hbeam Hadmit)
    as (Hbeam3 & Hidx3 & Hfc3 & _ & Hadmit3 & _ & Hv3).
  { right. rewrite Z2Nat.id by lia. lia. }
  fold s3 in Hbeam3, Hidx3, Hfc3, Hadmit3, Hv3.
  rewrite Z2Nat.id in Hidx3, Hfc3 by lia. rewrite Hat3 in Hidx3.
  assert (halted s3 = false) as Hlive3.
  { apply (ceiling_admits_live F); [done|]. rewrite Hfc3. lia. }
  specialize (Hv1 Hdriven). specialize (Hv3 Hdriven).
  assert (_vblank_started s1 = false) as Hclear1.
  { rewrite Hv1. unfold in_vblank. rewrite Hidx1.
    apply andb_false_iff. left. lia. }
  assert (_vblank_started s3 = true) as Hset3.
  { rewrite Hv3. unfold in_vblank. rewrite Hidx3.
    apply andb_true_intro. clear. timing_constants. split; lia. }
  destruct (vblank_step s1 Hlive1 Hbeam1 Hidx1) as (_ & Hv2 & _).
  destruct (clear_step s3 Hlive3 Hbeam3 Hidx3)
    as (_ & Hv4 & _ & Hhit4 & Hovf4 & _).
  assert (at_vblank_start s1 = true) as Hstart1.
  { rewrite at_vblank_start_dot by exact Hbeam1. lia. }
  (* the state after the advance *)
  destruct (run_state F n s Hbeam Hadmit)
    as (Hbeam' & Hidx' & Hfc' & Hmc' & _ & _ & Hv').
  { right. rewrite Hdots. exact Hbound. }
  rewrite Hdots in Hidx', Hfc', Hmc'.
  assert ((dot_index s + FRAME_CYCLES) mod FRAME_CYCLES = dot_index s
          ∧ (dot_index s + FRAME_CYCLES) / FRAME_CYCLES = 1)
    as [Hsame Hnext].
  { unfold FRAME_CYCLES in *. timing_constants. div_lia. }
  rewrite Hsame in Hidx'. rewrite Hnext in Hfc'.
  (* the edges *)
  assert (0 <= VBLANK_DOT < FRAME_CYCLES ∧ 0 <= PRE_RENDER_DOT < FRAME_CYCLES)
    as [HE1 HE3].
  { clear. unfold FRAME_CYCLES. timing_constants. lia. }
  assert ((d1 <? Z.of_nat n) = true ∧ (d3 <? Z.of_nat n) = true)
    as [Hin1 Hin3].
  { rewrite Hdots. split; apply Z.ltb_lt; lia. }
  pose proof (event_edges (rising _vblank_started) VBLANK_DOT
                (VBLANK_SCANLINE, 1) F HE1 beam_at_vblank_start
                (λ a Ha0 Ha1 Ha2, proj1 (only_at_vblank_start a Ha0 Ha1 Ha2))
                n s d1) as Hrise.
  pose proof (event_edges
                (λ a _, negb (halted a)
                        && (at_vblank_start a && _vblank_nmi a))
                VBLANK_DOT (VBLANK_SCANLINE, 1) F HE1 beam_at_vblank_start
                (λ a Ha0 Ha1 Ha2, proj2 (only_at_vblank_start a Ha0 Ha1 Ha2))
                n s d1) as Hreq.
  pose proof (event_edges (falling _vblank_started) PRE_RENDER_DOT
                (PRE_RENDER_SCANLINE, 1) F HE3 beam_at_pre_render_clear
                (λ a Ha0 Ha1 Ha2,
                   proj1 (only_at_pre_render_clear a Ha0 Ha1 Ha2))
                n s d3) as Hfall.
  pose proof (event_edges (falling _sprite_0_hit) PRE_RENDER_DOT
                (PRE_RENDER_SCANLINE, 1) F HE3 beam_at_pre_render_clear
                (λ a Ha0 Ha1 Ha2,
                   proj1 (proj2 (only_at_pre_render_clear a Ha0 Ha1 Ha2)))
                n s d3) as Hhit.
  pose proof (event_edges (falling _sprite_overflow) PRE_RENDER_DOT
                (PRE_RENDER_SCANLINE, 1) F HE3 beam_at_pre_render_clear
                (λ a Ha0 Ha1 Ha2,
                   proj1 (proj2 (proj2
                     (only_at_pre_render_clear a Ha0 Ha1 Ha2))))
                n s d3) as Hovf.
  pose proof (event_edges status_falling PRE_RENDER_DOT
                (PRE_RENDER_SCANLINE, 1) F HE3 beam_at_pre_render_clear
                (λ a Ha0 Ha1 Ha2,
                   proj2 (proj2 (proj2
                     (only_at_pre_render_clear a Ha0 Ha1 Ha2))))
                n s d3) as Hstatus.
  rewrite nmi_requests_edges.
  rewrite Hrise, Hreq, Hfall, Hhit, Hovf, Hstatus;
    [|lia || exact Hbeam || exact Hadmit || reflexivity
      || (right; rewrite Hdots; exact Hbound)..].
  fold s1 s3. rewrite Hin1, Hin3.
  clearbody s1 s3 d1 d3.
  set (s' := step_dots render_dot n s) in *. clearbody s'.
  unfold status_falling, rising, falling.
  rewrite Hv2, Hv4, Hhit4, Hovf4, Hclear1, Hset3, Hstart1, Hnmi1, Hlive1.
  simpl. rewrite !andb_true_r.
  repeat (split; [reflexivity|]).
  split; [by apply beam_of_dot_index|].
  split; [lia|]. split; [exact Hmc'|]. by apply Hv'.
Qed.

End frame.

Lemma frame_status_flag_edges_witness :
  let s :=
    stop_after_frame 2
      (set_cur_scanline 250
         (set_vblank_started true
            (set_show_bg true (set_vblank_nmi true blank_ppu)))) in
  edges (rising _vblank_started) render_sprite_0_hit FRAME_DOTS s
  = [(VBLANK_SCANLINE, 1)] ∧
  snd (step_ppu render_sprite_0_hit FRAME_CYCLES s)
  = [(VBLANK_SCANLINE, 1)] ∧
  edges status_falling render_sprite_0_hit FRAME_DOTS s
  = [(PRE_RENDER_SCANLINE, 1)].
Proof.
  intros s.
  destruct (frame_status_flag_edges render_sprite_0_hit s)
    as (Hrise & Hreq & _ & Hfall & _).
  - unfold beam_in_frame, PPU_SCANLINE_COUNT, PPU_SCANLINE_CYCLE. simpl. lia.
  - reflexivity.
  - reflexivity.
  - split; [exact Hrise|]. split; [exact Hreq | exact Hfall].
Defined.

(** Three frame advances that do not have the edges.
    - The blank machine at dot 0 of scanline 0 has rendering off, the
      vblank flag clear as the timing machine drives it, and the frame
      count at its ceiling of 0, not over it; the sprite-0-hit flag is
      never set in its frame, and it has no falling edge.
    - At dot 0 of scanline 250 the vblank flag is set; a status read
      returns it and clears it, and in the frame advance from there the
      vblank flag has no falling edge.
    - A machine whose frame count is over the ceiling does not step: no
      flag has an edge and no interrupt is requested. *)
Lemma frame_without_flag_edge :
  let in_blank :=
    stop_after_frame 2 (set_cur_scanline 250
                          (set_vblank_started true blank_ppu)) in
  let over := set_frame_count 5 (stop_after_frame 1 blank_ppu) in
  (beam blank_ppu = (0, 0)
   ∧ _vblank_started blank_ppu = in_vblank blank_ppu
   ∧ frame_runs blank_ppu = true
   ∧ edges (falling _sprite_0_hit) render_sprite_0_hit FRAME_DOTS blank_ppu
     = []) ∧
  (fst (read_PPUSTATUS in_blank) = 0x80
   ∧ frame_runs (snd (read_PPUSTATUS in_blank)) = true
   ∧ edges (falling _vblank_started) render_sprite_0_hit FRAME_DOTS
       (snd (read_PPUSTATUS in_blank)) = []) ∧
  (halted over = true
   ∧ step_ppu render_sprite_0_hit FRAME_CYCLES over = (over, [])
   ∧ edges (rising _vblank_started) render_sprite_0_hit FRAME_DOTS over = []
   ∧ edges status_falling render_sprite_0_hit FRAME_DOTS over = []).
Proof.
  intros in_blank over.
  split; [|split].
  - split; [reflexivity|]. split; [reflexivity|]. split; [reflexivity|].
    vm_compute. reflexivity.
  - split; [reflexivity|]. split; [reflexivity|].
    vm_compute. reflexivity.
  - destruct (step_dots_halted render_sprite_0_hit FRAME_DOTS over)
      as (Hs & Hn & He); [reflexivity|].
    split; [reflexivity|].
    split. { rewrite step_ppu_eq. fold FRAME_DOTS. by rewrite Hs, Hn. }
    split; apply He; intros a.
    + unfold rising. by destruct (_vblank_started a).
    + unfold status_falling, falling.
      by destruct (_vblank_started a), (_sprite_0_hit a),
        (_sprite_overflow a).
Qed.

(** * Further properties of the header's functions *)

(** ** Video memory *)

Lemma redirect_addr_uint16_cases (a : Z) :
  0 <= a < 2 ^ 16 →
  0 <= redirect_addr a ∧
  unreached_index (redirect_addr a) = false ∧
  redirect_addr (redirect_addr a) = redirect_addr a.
Proof.
  intros Ha.
  pose (p := λ a, (0 <=? redirect_addr a)
                  && negb (unreached_index (redirect_addr a))
                  && (redirect_addr (redirect_addr a) =? redirect_addr a)).
  assert (p a = true) as Hp.
  { apply (forall_range 0 (2 ^ 16) p); [vm_compute; reflexivity | lia]. }
  unfold p in Hp. apply andb_true_iff in Hp as [Hp Hfix].
  apply andb_true_iff in Hp as [Hpos Hreach].
  apply negb_true_iff in Hreach.
  split; [lia|]. split; [done|lia].
Qed.

Lemma redirect_addr_reached (i : Z) :
  0 <= i < PPU_VRAM_SIZE → unreached_index i = false → redirect_addr i = i.
Proof.
  intros Hi Hreach.
  pose (p := λ i, unreached_index i || (redirect_addr i =? i)).
  assert (p i = true) as Hp.
  { apply (forall_range 0 PPU_VRAM_SIZE p); [vm_compute; reflexivity | lia]. }
  unfold p in Hp. rewrite Hreach in Hp. simpl in Hp. lia.
Qed.

(** X1: a byte written through [write_byte] is read back by [read_byte]
    at the address and at every address translated to the same index,
    the mirrors of the address; at all other addresses [read_byte] returns
    what it returned before.  The write changes no member but the video
    memory, and not the size of that. *)
Theorem write_byte_read_byte (a b v : Z) (s s' : nes_ppu) :
  0 <= a < 2 ^ 16 → 0 <= b < 2 ^ 16 →
  write_byte a v s = Some s' →
  read_byte b s' =
    (if redirect_addr b =? redirect_addr a then Some v else read_byte b s) ∧
  length (_vram s') = length (_vram s) ∧
  s' = set_vram (_vram s') s.
Proof.
  intros Ha Hb Hwrite. unfold write_byte in Hwrite.
  destruct (Z.to_nat (redirect_addr a) <? length (_vram s))%nat eqn:Hlt;
    [|done].
  apply Nat.ltb_lt in Hlt. injection Hwrite as <-.
  destruct (redirect_addr_uint16_cases a Ha) as (Hra & _).
  destruct (redirect_addr_uint16_cases b Hb) as (Hrb & _).
  split; [|split].
  - unfold read_byte. simpl.
    destruct (redirect_addr b =? redirect_addr a) eqn:Heq.
    + apply Z.eqb_eq in Heq. rewrite Heq.
      by apply list_lookup_insert_eq.
    + apply Z.eqb_neq in Heq. apply list_lookup_insert_ne. lia.
  - simpl. apply length_insert.
  - by destruct s.
Qed.

Lemma write_byte_read_byte_witness :
  ∃ s', write_byte 0x3f10 0x2a blank_ppu = Some s'
        ∧ read_byte 0x3f00 s' = Some 0x2a
        ∧ read_byte 0x3f01 s' = read_byte 0x3f01 blank_ppu.
Proof.
  destruct (write_byte 0x3f10 0x2a blank_ppu) as [s'|] eqn:Hwrite;
    [|vm_compute in Hwrite; discriminate].
  exists s'. split; [reflexivity|].
  destruct (write_byte_read_byte 0x3f10 0x3f00 0x2a blank_ppu s')
    as (Hmirror & _); [lia | lia | exact Hwrite |].
  destruct (write_byte_read_byte 0x3f10 0x3f01 0x2a blank_ppu s')
    as (Hother & _); [lia | lia | exact Hwrite |].
  split; [exact Hmirror | exact Hother].
Defined.

(** X2: the translation of a 16-bit address never lies in the part of the
    array behind the mirrors, the indices of [0x3000, 0x3f00) and of
    [0x3f10, 0x4000); every other index of the array is translated to
    itself.  So a write through [write_byte] leaves the 0xff0 bytes behind
    the mirrors as they are, whatever the address. *)
Theorem redirect_addr_image (a i v : Z) (s s' : nes_ppu) :
  0 <= a < 2 ^ 16 → 0 <= i < PPU_VRAM_SIZE →
  unreached_index (redirect_addr a) = false ∧
  (unreached_index i = false → redirect_addr i = i) ∧
  (unreached_index i = true → write_byte a v s = Some s' →
   _vram s' !! Z.to_nat i = _vram s !! Z.to_nat i).
Proof.
  intros Ha Hi.
  destruct (redirect_addr_uint16_cases a Ha) as (Hra & Hreach & _).
  split; [done|]. split; [by apply redirect_addr_reached|].
  intros Hdead Hwrite. unfold write_byte in Hwrite.
  destruct (_ <? _)%nat; [|done]. injection Hwrite as <-. simpl.
  apply list_lookup_insert_ne. intros Heq.
  assert (redirect_addr a = i) as Hai by lia.
  rewrite Hai in Hreach. by rewrite Hreach in Hdead.
Qed.

Lemma redirect_addr_image_witness :
  unreached_index (redirect_addr 0x3abc) = false ∧
  redirect_addr 0x2abc = 0x2abc ∧
  ∃ s', write_byte 0x3abc 0x11 blank_ppu = Some s'
        ∧ _vram s' !! Z.to_nat 0x3abc = _vram blank_ppu !! Z.to_nat 0x3abc.
Proof.
  destruct (write_byte 0x3abc 0x11 blank_ppu) as [s'|] eqn:Hwrite;
    [|vm_compute in Hwrite; discriminate].
  destruct (redirect_addr_image 0x3abc 0x2abc 0x11 blank_ppu s')
    as (Hreach & Hfix & _); [lia | vm_compute; split; [discriminate|reflexivity] |].
  destruct (redirect_addr_image 0x3abc 0x3abc 0x11 blank_ppu s')
    as (_ & _ & Hdead); [lia | vm_compute; split; [discriminate|reflexivity] |].
  split; [exact Hreach|]. split; [apply Hfix; reflexivity|].
  exists s'. split; [reflexivity|]. apply Hdead; [reflexivity | exact Hwrite].
Defined.

(** ** The control, mask and status registers *)

(** X3: an effective write to PPUCTRL decodes its byte so: the name table
    base is one of 0x2000, 0x2400, 0x2800, 0x2c00 by bits 0 and 1, the
    pattern table base is 0x1000 or 0 by bit 4, the sprite size mode is
    bit 5, the vblank-NMI enable is bit 7 and the address increment is 32
    or 1 by bit 2.  Every address of the selected name table and of the
    selected pattern table is its own translation, so the tables are read
    where the bases point. *)
Theorem write_PPUCTRL_decode (val : Z) (s : nes_ppu) :
  is_ready s = true → 0 <= val < 2 ^ 8 →
  let s' := write_PPUCTRL val s in
  _name_tbl_addr s' = 0x2000 + 0x400 * (val mod 4) ∧
  _pattern_tbl_addr s' = (if Z.testbit val 4 then 0x1000 else 0) ∧
  _use_8x16_sprite s' = Z.testbit val 5 ∧
  _vblank_nmi s' = Z.testbit val 7 ∧
  _ppu_addr_inc s' = (if Z.testbit val 2 then 32 else 1) ∧
  (∀ off, 0 <= off < 0x400 →
          redirect_addr (_name_tbl_addr s' + off) = _name_tbl_addr s' + off) ∧
  (∀ off, 0 <= off < 0x1000 →
          redirect_addr (_pattern_tbl_addr s' + off)
          = _pattern_tbl_addr s' + off).
Proof.
  intros Hready Hval s'.
  pose (p := λ val,
    (uint16_t (0x2000
               + uint16_t (uint8_t
                             (Z.land val PPUCTRL_BASE_NAME_TABLE_ADDR_MASK))
                 * 0x400) =? 0x2000 + 0x400 * (val mod 4))
    && (uint16_t (Z.shiftl
                    (Z.land val PPUCTRL_BACKGROUND_PATTERN_TABLE_ADDRESS_MASK)
                    0x8) =? if Z.testbit val 4 then 0x1000 else 0)
    && Bool.eqb (to_bool (Z.land val PPUCTRL_SPRITE_SIZE_MASK))
                (Z.testbit val 5)
    && Bool.eqb (to_bool (Z.land val PPUCTRL_NMI_AT_VBLANK_MASK))
                (Z.testbit val 7)).
  assert (p val = true) as Hp.
  { apply (forall_range 0 (2 ^ 8) p); [vm_compute; reflexivity | lia]. }
  unfold p in Hp.
  apply andb_true_iff in Hp as [Hp Hnmi].
  apply andb_true_iff in Hp as [Hp Hsize].
  apply andb_true_iff in Hp as [Hname Hpattern].
  apply Z.eqb_eq in Hname, Hpattern. apply Bool.eqb_prop in Hnmi, Hsize.
  assert (_name_tbl_addr s' = 0x2000 + 0x400 * (val mod 4)) as Hnt.
  { unfold s', write_PPUCTRL. rewrite Hready. simpl. exact Hname. }
  assert (_pattern_tbl_addr s' = if Z.testbit val 4 then 0x1000 else 0)
    as Hpt.
  { unfold s', write_PPUCTRL. rewrite Hready. simpl. exact Hpattern. }
  split; [exact Hnt|]. split; [exact Hpt|].
  split. { unfold s', write_PPUCTRL. rewrite Hready. simpl. exact Hsize. }
  split. { unfold s', write_PPUCTRL. rewrite Hready. simpl. exact Hnmi. }
  split. { by apply write_PPUCTRL_ppu_addr_inc. }
  pose proof (Z.mod_pos_bound val 4) as Hmod.
  split; intros off Hoff.
  - rewrite Hnt. apply redirect_addr_reached.
    + unfold PPU_VRAM_SIZE. lia.
    + unfold unreached_index. lia.
  - rewrite Hpt. apply redirect_addr_reached.
    + unfold PPU_VRAM_SIZE. destruct (Z.testbit val 4); lia.
    + unfold unreached_index. destruct (Z.testbit val 4); lia.
Qed.

Lemma write_PPUCTRL_decode_witness :
  let s' := write_PPUCTRL 0x93 (set_master_cycle 30000 blank_ppu) in
  _name_tbl_addr s' = 0x2c00 ∧ _pattern_tbl_addr s' = 0x1000 ∧
  _vblank_nmi s' = true.
Proof.
  intros s'.
  destruct (write_PPUCTRL_decode 0x93 (set_master_cycle 30000 blank_ppu))
    as (Hnt & Hpt & _ & Hnmi & _); [reflexivity | lia |].
  split; [exact Hnt|]. split; [exact Hpt | exact Hnmi].
Defined.

(** X4: an effective write to PPUMASK sets show-background to bit 3,
    show-sprites to bit 4 and the grayscale mode to bit 0; rendering is off
    afterwards exactly if bits 3 and 4 of the byte are both clear. *)
Theorem write_PPUMASK_render_off (val : Z) (s : nes_ppu) :
  is_ready s = true → 0 <= val < 2 ^ 8 →
  let s' := write_PPUMASK val s in
  _show_bg s' = Z.testbit val 3 ∧
  _show_sprites s' = Z.testbit val 4 ∧
  _gray_scale_mode s' = Z.testbit val 0 ∧
  is_render_off s' = (Z.land val 0x18 =? 0).
Proof.
  intros Hready Hval s'.
  pose (p := λ val,
    Bool.eqb (to_bool (Z.land val PPUMASK_SHOW_BACKGROUND)) (Z.testbit val 3)
    && Bool.eqb (to_bool (Z.land val PPUMASK_SHOW_SPRITES)) (Z.testbit val 4)
    && Bool.eqb (to_bool (Z.land val PPUMASK_GRAYSCALE)) (Z.testbit val 0)
    && Bool.eqb (negb (Z.testbit val 3) && negb (Z.testbit val 4))
                (Z.land val 0x18 =? 0)).
  assert (p val = true) as Hp.
  { apply (forall_range 0 (2 ^ 8) p); [vm_compute; reflexivity | lia]. }
  unfold p in Hp.
  apply andb_true_iff in Hp as [Hp Hoff].
  apply andb_true_iff in Hp as [Hp Hgray].
  apply andb_true_iff in Hp as [Hbg Hsprites].
  apply Bool.eqb_prop in Hbg, Hsprites, Hgray, Hoff.
  assert (_show_bg s' = Z.testbit val 3) as Hshow_bg.
  { unfold s', write_PPUMASK. rewrite Hready. simpl. exact Hbg. }
  assert (_show_sprites s' = Z.testbit val 4) as Hshow_sprites.
  { unfold s', write_PPUMASK. rewrite Hready. simpl. exact Hsprites. }
  split; [exact Hshow_bg|]. split; [exact Hshow_sprites|].
  split. { unfold s', write_PPUMASK. rewrite Hready. simpl. exact Hgray. }
  unfold is_render_off. by rewrite Hshow_bg, Hshow_sprites.
Qed.

Lemma write_PPUMASK_render_off_witness :
  is_render_off (write_PPUMASK 0x06 (set_master_cycle 30000 blank_ppu))
  = true ∧
  is_render_off (write_PPUMASK 0x10 (set_master_cycle 30000 blank_ppu))
  = false.
Proof.
  destruct (write_PPUMASK_render_off 0x06 (set_master_cycle 30000 blank_ppu))
    as (_ & _ & _ & Hoff); [reflexivity | lia |].
  destruct (write_PPUMASK_render_off 0x10 (set_master_cycle 30000 blank_ppu))
    as (_ & _ & _ & Hon); [reflexivity | lia |].
  split; [exact Hoff | exact Hon].
Defined.

(** The status byte for the eight settings of the flags. *)
Lemma status_byte_decode (h o v : bool) (l : Z) :
  0 <= l < 2 ^ 8 →
  let st := Z.lor (Z.lor (Z.lor (Z.land l 0x1f) (if h then 0x40 else 0))
                         (if o then 0x20 else 0))
                  (if v then 0x80 else 0) in
  0 <= st < 2 ^ 8 ∧ Z.testbit st 7 = v ∧ Z.testbit st 6 = h
  ∧ Z.testbit st 5 = o ∧ Z.land st 0x1f = Z.land l 0x1f.
Proof.
  intros Hl st.
  pose (p := λ l,
    let st := Z.lor (Z.lor (Z.lor (Z.land l 0x1f) (if h then 0x40 else 0))
                           (if o then 0x20 else 0))
                    (if v then 0x80 else 0) in
    (0 <=? st) && (st <? 2 ^ 8) && Bool.eqb (Z.testbit st 7) v
    && Bool.eqb (Z.testbit st 6) h && Bool.eqb (Z.testbit st 5) o
    && (Z.land st 0x1f =? Z.land l 0x1f)).
  assert (p l = true) as Hp.
  { apply (forall_range 0 (2 ^ 8) p); [|lia].
    unfold p. destruct h, o, v; vm_compute; reflexivity. }
  unfold p in Hp. fold st in Hp.
  apply andb_true_iff in Hp as [Hp Hlow].
  apply andb_true_iff in Hp as [Hp Ho].
  apply andb_true_iff in Hp as [Hp Hh].
  apply andb_true_iff in Hp as [Hp Hv].
  apply Bool.eqb_prop in Hv, Hh, Ho.
  split; [lia|]. split; [done|]. split; [done|]. split; [done|lia].
Qed.

(** X5: the byte a status read returns is a [uint8_t] that can be decoded
    again: its bit 7 is the vblank flag, its bit 6 the sprite-0-hit flag,
    its bit 5 the sprite-overflow flag, as they were before the read, and
    its low five bits are the low five bits of the latch. *)
Theorem read_PPUSTATUS_decode (s : nes_ppu) :
  0 <= _latch s < 2 ^ 8 →
  let status := fst (read_PPUSTATUS s) in
  0 <= status < 2 ^ 8 ∧
  Z.testbit status 7 = _vblank_started s ∧
  Z.testbit status 6 = _sprite_0_hit s ∧
  Z.testbit status 5 = _sprite_overflow s ∧
  Z.land status 0x1f = Z.land (_latch s) 0x1f.
Proof.
  intros Hlatch status. unfold status. rewrite read_PPUSTATUS_value.
  by apply status_byte_decode.
Qed.

Lemma read_PPUSTATUS_decode_witness :
  Z.testbit (fst (read_PPUSTATUS (set_vblank_started true blank_ppu))) 7
  = true ∧
  Z.testbit (fst (read_PPUSTATUS (set_vblank_started true blank_ppu))) 6
  = false.
Proof.
  destruct (read_PPUSTATUS_decode (set_vblank_started true blank_ppu))
    as (_ & Hv & Hh & _); [vm_compute; split; [discriminate|reflexivity]|].
  split; [exact Hv | exact Hh].
Defined.

(** ** Pairs of writes and the status read *)

Lemma read_PPUSTATUS_frame (s : nes_ppu) :
  is_ready (snd (read_PPUSTATUS s)) = is_ready s ∧
  _ppu_addr (snd (read_PPUSTATUS s)) = _ppu_addr s.
Proof. unfold read_PPUSTATUS, is_ready. cbn [snd]. by case_protect s. Qed.

Lemma write_PPUSCROLL_effect (val : Z) (s : nes_ppu) :
  is_ready s = true →
  let s' := write_PPUSCROLL val s in
  is_ready s' = true ∧
  _addr_latch s' = uint8_t (Z.rem (_addr_latch s + 1) 2) ∧
  _scroll_x s' = (if _addr_latch s' =? 1 then val else _scroll_x s) ∧
  _scroll_y s' = (if _addr_latch s' =? 1 then _scroll_y s else val).
Proof.
  intros Hready s'. subst s'.
  rewrite (write_PPUSCROLL_addr_latch val s), Hready.
  unfold write_PPUSCROLL, flip_addr_latch. rewrite Hready.
  unfold is_ready in *.
  case_protect s;
    destruct (uint8_t (Z.rem (_addr_latch s + 1) 2) =? 1); simpl;
    repeat split; done.
Qed.

(** The first write of a pair that starts with the toggle at 1 replaces the
    low byte, the second the high byte. *)
Lemma write_PPUADDR_pair_swapped (b1 b2 : Z) (s : nes_ppu) :
  _addr_latch s = 1 → 0 <= b1 < 2 ^ 8 → 0 <= b2 < 2 ^ 8 →
  _addr_latch (write_PPUADDR b2 (write_PPUADDR b1 s)) = 1 ∧
  _ppu_addr (write_PPUADDR b2 (write_PPUADDR b1 s)) = b2 * 0x100 + b1.
Proof.
  intros Htoggle Hb1 Hb2.
  set (s1 := write_PPUADDR b1 s). set (s2 := write_PPUADDR b2 s1).
  assert (_addr_latch s1 = 0) as Ht1.
  { unfold s1. by rewrite write_PPUADDR_addr_latch, Htoggle. }
  assert (_addr_latch s2 = 1) as Ht2.
  { unfold s2. by rewrite write_PPUADDR_addr_latch, Ht1. }
  assert (_ppu_addr s1 = uint16_t (Z.lor (Z.land (_ppu_addr s) 0xff00) b1))
    as Hp1.
  { unfold s1. rewrite write_PPUADDR_ppu_addr. fold s1. by rewrite Ht1. }
  assert (_ppu_addr s2 =
          uint16_t (Z.lor (Z.land (_ppu_addr s1) 0x00ff)
                          (Z.shiftl (uint16_t b2) 8))) as Hp2.
  { unfold s2. rewrite write_PPUADDR_ppu_addr. fold s2. by rewrite Ht2. }
  destruct (ppu_addr_set_low (_ppu_addr s) b1 Hb1) as [_ Hlow1].
  destruct (ppu_addr_set_high (_ppu_addr s1) b2 Hb2) as [Hhigh2 Hlow2].
  rewrite <- Hp1 in Hlow1. rewrite <- Hp2 in Hhigh2, Hlow2.
  split; [done|].
  rewrite (uint16_bytes (_ppu_addr s2))
    by (rewrite Hp2; apply uint16_t_range).
  by rewrite Hhigh2, Hlow2, Hlow1.
Qed.

(** X6: a status read with protection off restarts the pairing of the
    writes to PPUADDR and PPUSCROLL, whatever the toggle was: the two
    writes to PPUADDR that follow it set the video address to high byte
    then low byte, and, once the PPU is ready, the two writes to PPUSCROLL
    that follow it set the X scroll then the Y scroll.  Without the read,
    a pair of writes to PPUADDR that starts with the toggle at 1 lands
    swapped: the first byte becomes the low byte, the second the high
    byte. *)
Theorem read_PPUSTATUS_restarts_pair (b1 b2 : Z) (s : nes_ppu) :
  0 <= b1 < 2 ^ 8 → 0 <= b2 < 2 ^ 8 →
  (_protect_register s = false →
   let s0 := snd (read_PPUSTATUS s) in
   _ppu_addr (write_PPUADDR b2 (write_PPUADDR b1 s0)) = b1 * 0x100 + b2 ∧
   (is_ready s = true →
    let s2 := write_PPUSCROLL b2 (write_PPUSCROLL b1 s0) in
    _scroll_x s2 = b1 ∧ _scroll_y s2 = b2 ∧ _addr_latch s2 = 0)) ∧
  (_addr_latch s = 1 →
   _ppu_addr (write_PPUADDR b2 (write_PPUADDR b1 s)) = b2 * 0x100 + b1).
Proof.
  intros Hb1 Hb2. split.
  - intros Hprot s0.
    assert (_addr_latch s0 = 0) as Hzero.
    { unfold s0. by rewrite read_PPUSTATUS_addr_latch, Hprot. }
    split. { by apply write_PPUADDR_pair. }
    intros Hready s2.
    assert (is_ready s0 = true) as Hready0.
    { unfold s0. by rewrite (proj1 (read_PPUSTATUS_frame s)). }
    destruct (write_PPUSCROLL_effect b1 s0 Hready0)
      as (Hready1 & Ht1 & Hx1 & Hy1).
    destruct (write_PPUSCROLL_effect b2 _ Hready1)
      as (_ & Ht2 & Hx2 & Hy2).
    fold s2 in Ht2, Hx2, Hy2.
    rewrite Hzero in Ht1. change (uint8_t (Z.rem (0 + 1) 2)) with 1 in Ht1.
    rewrite Ht1 in Hx1, Ht2.
    change (uint8_t (Z.rem (1 + 1) 2)) with 0 in Ht2.
    rewrite Ht2 in Hx2, Hy2. simpl in Hx1, Hx2, Hy2.
    split; [congruence|]. split; [done|done].
  - intros Hone. by apply write_PPUADDR_pair_swapped.
Qed.

Lemma read_PPUSTATUS_restarts_pair_witness :
  let s := set_addr_latch 1 blank_ppu in
  _ppu_addr (write_PPUADDR 0x08 (write_PPUADDR 0x21 (snd (read_PPUSTATUS s))))
  = 0x2108 ∧
  _ppu_addr (write_PPUADDR 0x08 (write_PPUADDR 0x21 s)) = 0x0821.
Proof.
  intros s.
  destruct (read_PPUSTATUS_restarts_pair 0x21 0x08 s)
    as (Hread & Hswapped); [lia | lia |].
  split.
  - destruct Hread as [Haddr _]; [reflexivity | exact Haddr].
  - apply Hswapped. reflexivity.
Defined.

(** ** The data port *)

Lemma write_PPUDATA_toggle (v : Z) (s s' : nes_ppu) :
  write_PPUDATA v s = Some s' → _addr_latch s' = _addr_latch s.
Proof.
  intros Hwrite.
  by rewrite (exec_op_addr_latch (λ _, 0) (Write_PPUDATA v) s s' Hwrite).
Qed.

(** X7: a byte written through the data port is read back through it.
    From a cleared toggle, two writes to PPUADDR with a high byte below
    0x40, a write of [v] to PPUDATA, the same two writes to PPUADDR
    again and a read of PPUDATA: the read returns [v] at once. *)
Theorem write_PPUDATA_read_PPUDATA (hi lo v : Z) (s : nes_ppu) :
  _addr_latch s = 0 → length (_vram s) = Z.to_nat PPU_VRAM_SIZE →
  0 <= hi < 0x40 → 0 <= lo < 2 ^ 8 →
  ∃ s3 s6,
    write_PPUDATA v (write_PPUADDR lo (write_PPUADDR hi s)) = Some s3 ∧
    read_PPUDATA (write_PPUADDR lo (write_PPUADDR hi s3)) = Some (v, s6).
Proof.
  intros Htoggle Hlen Hhi Hlo.
  set (s2 := write_PPUADDR lo (write_PPUADDR hi s)).
  destruct (write_PPUADDR_pair hi lo s Htoggle) as (_ & (Ht2 & _) & Haddr);
    [lia..|]. fold s2 in Ht2, Haddr.
  assert (_vram s2 = _vram s) as Hvram2.
  { unfold s2. rewrite (proj1 (write_PPUADDR_frame _ _)).
    apply write_PPUADDR_frame. }
  set (a := hi * 0x100 + lo) in *.
  assert (0 <= a < PPU_VRAM_SIZE) as Ha by (unfold a, PPU_VRAM_SIZE; lia).
  destruct (redirect_addr_uint16 a) as [Hr Hside];
    [unfold PPU_VRAM_SIZE in Ha; lia|].
  assert (Z.to_nat (redirect_addr a) < length (_vram s))%nat as Hlt.
  { rewrite Hlen. lia. }
  pose proof (write_PPUDATA_in_bounds v s2) as Hwrite.
  cbv zeta in Hwrite. rewrite Haddr, Hvram2 in Hwrite.
  specialize (Hwrite Hlt).
  eexists. eexists. split; [exact Hwrite|].
  match type of Hwrite with _ = Some ?t => set (s3 := t) in * end.
  set (s5 := write_PPUADDR lo (write_PPUADDR hi s3)).
  assert (_addr_latch s3 = 0) as Ht3.
  { rewrite (write_PPUDATA_toggle v s2 s3); [done|].
    rewrite Hwrite. reflexivity. }
  destruct (write_PPUADDR_pair hi lo s3 Ht3) as (_ & _ & Haddr5); [lia..|].
  fold s5 a in Haddr5.
  assert (_vram s5 = <[Z.to_nat (redirect_addr a) := v]> (_vram s))
    as Hvram5.
  { unfold s5. rewrite (proj1 (write_PPUADDR_frame _ _)).
    by rewrite (proj1 (write_PPUADDR_frame _ _)). }
  unfold read_PPUDATA, read_byte. rewrite Haddr5, Hvram5.
  rewrite list_lookup_insert_eq by done.
  cbn [mbind option_bind]. reflexivity.
Qed.

Lemma write_PPUDATA_read_PPUDATA_witness :
  ∃ s3 s6,
    write_PPUDATA 0x5a (write_PPUADDR 0x08 (write_PPUADDR 0x21 blank_ppu))
    = Some s3 ∧
    read_PPUDATA (write_PPUADDR 0x08 (write_PPUADDR 0x21 s3))
    = Some (0x5a, s6).
Proof.
  apply (write_PPUDATA_read_PPUDATA 0x21 0x08 0x5a blank_ppu).
  - reflexivity.
  - vm_compute. reflexivity.
  - lia.
  - lia.
Defined.

(** X8: the data port has the bounds of the video memory array and not
    those of the 16-bit address: with the array at its size, a write or a
    read of PPUDATA has a defined result exactly if the video address is
    below 0x4000.  A successful access advances the address by the
    increment modulo 0x10000 (a protected read leaves it), so the address
    is not wrapped at the end of video memory. *)
Theorem PPUDATA_bounds (v : Z) (s : nes_ppu) :
  length (_vram s) = Z.to_nat PPU_VRAM_SIZE → 0 <= _ppu_addr s < 2 ^ 16 →
  (is_Some (write_PPUDATA v s) ↔ _ppu_addr s < PPU_VRAM_SIZE) ∧
  (is_Some (read_PPUDATA s) ↔ _ppu_addr s < PPU_VRAM_SIZE) ∧
  (∀ s', write_PPUDATA v s = Some s' →
         _ppu_addr s' = (_ppu_addr s + _ppu_addr_inc s) mod 2 ^ 16
         ∧ length (_vram s') = length (_vram s)) ∧
  (∀ b s', read_PPUDATA s = Some (b, s') →
           read_byte (_ppu_addr s) s = Some b
           ∧ _vram s' = _vram s
           ∧ _ppu_addr s' =
               if _protect_register s then _ppu_addr s
               else (_ppu_addr s + _ppu_addr_inc s) mod 2 ^ 16).
Proof.
  intros Hlen Haddr.
  destruct (redirect_addr_uint16 (_ppu_addr s) Haddr) as [Hr Hside].
  split; [|split; [|split]].
  - destruct (decide (_ppu_addr s < PPU_VRAM_SIZE)) as [Hin|Hout].
    + split; [done|]. intros _.
      rewrite write_PPUDATA_in_bounds; [by eexists|].
      rewrite Hlen. lia.
    + split; [|done]. rewrite write_PPUDATA_out_of_bounds; [by intros [? ?]|].
      rewrite Hlen. lia.
  - unfold read_PPUDATA.
    destruct (read_byte (_ppu_addr s) s) as [b|] eqn:Hread; simpl.
    + split; [|by eexists]. intros _. apply Hside.
      assert (is_Some (read_byte (_ppu_addr s) s)) as Hsome by by eexists.
      apply read_byte_is_Some in Hsome. rewrite Hlen in Hsome. lia.
    + split; [by intros [? ?]|]. intros Hin.
      assert (is_Some (read_byte (_ppu_addr s) s)) as [? Hsome];
        [|congruence].
      apply read_byte_is_Some. rewrite Hlen. lia.
  - intros s' Hwrite.
    destruct (decide (Z.to_nat (redirect_addr (_ppu_addr s))
                      < length (_vram s))%nat) as [Hlt|Hge].
    + rewrite write_PPUDATA_in_bounds in Hwrite by done.
      injection Hwrite as <-. split; [done|]. simpl. apply length_insert.
    + rewrite write_PPUDATA_out_of_bounds in Hwrite by lia. done.
  - intros b s' Hread. unfold read_PPUDATA in Hread.
    destruct (read_byte (_ppu_addr s) s) as [b'|]; [|done].
    simpl in Hread. injection Hread as <- <-.
    split; [done|]. by case_protect s.
Qed.

Lemma PPUDATA_bounds_witness :
  is_Some (write_PPUDATA 0x11 (set_ppu_addr 0x3fff blank_ppu)) ∧
  ¬ is_Some (write_PPUDATA 0x11 (set_ppu_addr 0x4000 blank_ppu)).
Proof.
  destruct (PPUDATA_bounds 0x11 (set_ppu_addr 0x3fff blank_ppu))
    as (Hin & _);
    [vm_compute; reflexivity
    | vm_compute; split; [discriminate | reflexivity] |].
  destruct (PPUDATA_bounds 0x11 (set_ppu_addr 0x4000 blank_ppu))
    as (Hout & _);
    [vm_compute; reflexivity
    | vm_compute; split; [discriminate | reflexivity] |].
  split.
  - apply Hin. reflexivity.
  - intros Hsome. apply Hout in Hsome. vm_compute in Hsome. discriminate.
Defined.

(** ** Protection *)

(** X9: with protection switched on, the three reads return the values
    they return without it and change nothing: the state after a read of
    PPUSTATUS, OAMDATA or PPUDATA is the state before it, and switching
    protection back to what it was gives the state from before the bracket.
    A read through the protection bracket is not seen by the emulation. *)
Theorem protected_reads (s : nes_ppu) :
  let p := set_protect true s in
  read_PPUSTATUS p = (fst (read_PPUSTATUS s), p) ∧
  read_OAMDATA p = (fst (read_OAMDATA s), p) ∧
  read_PPUDATA p = (λ b, (b, p)) <$> (fst <$> read_PPUDATA s) ∧
  set_protect (_protect_register s) p = s.
Proof.
  intros p. split; [|split; [|split]].
  - reflexivity.
  - reflexivity.
  - unfold read_PPUDATA, read_byte. simpl.
    by destruct (_vram s !! _).
  - by destruct s.
Qed.

(** ** What the register operations leave alone *)

Ltac frame_goal :=
  simpl; repeat split;
  try done; try (by left); try (right; done); try apply length_insert;
  try (let Hne := fresh in intros Hne; by destruct (Hne _ eq_refl)).

(** X10: what the register operations other than the OAM transfer never
    do.  None of them moves a timing counter or changes the sprite-0-hit
    or sprite-overflow flag; none sets the vblank flag, and only the status
    read with protection off clears it; none changes the latch while
    protection is on; only the write to PPUDATA changes the video memory
    and only the write to OAMDATA changes OAM, and neither changes the
    size of its array. *)
Theorem exec_op_frame (ram : Z → Z) (op : reg_op) (s s' : nes_ppu) :
  is_Write_OAMDMA op = false → exec_op ram op s = Some s' →
  (_master_cycle s' = _master_cycle s
   ∧ _scanline_cycle s' = _scanline_cycle s
   ∧ _cur_scanline s' = _cur_scanline s
   ∧ _frame_count s' = _frame_count s) ∧
  (_sprite_0_hit s' = _sprite_0_hit s
   ∧ _sprite_overflow s' = _sprite_overflow s) ∧
  (_vblank_started s' = _vblank_started s
   ∨ (op = Read_PPUSTATUS ∧ _protect_register s = false
      ∧ _vblank_started s' = false)) ∧
  (_protect_register s = true → _latch s' = _latch s) ∧
  ((∀ v, op ≠ Write_PPUDATA v) → _vram s' = _vram s) ∧
  ((∀ v, op ≠ Write_OAMDATA v) → _oam s' = _oam s) ∧
  length (_vram s') = length (_vram s) ∧
  length (_oam s') = length (_oam s).
Proof.
  intros Hop Hexec. destruct op; simpl in Hop, Hexec; try done;
    try (injection Hexec as <-).
  - unfold write_PPUCTRL. destruct (negb (is_ready s)); [frame_goal|].
    case_protect s; frame_goal.
  - unfold write_PPUMASK. destruct (negb (is_ready s)); [frame_goal|].
    case_protect s; frame_goal.
  - unfold read_PPUSTATUS. cbn [snd]. case_protect s; frame_goal.
  - unfold write_OAMADDR. case_protect s; frame_goal.
  - unfold write_OAMDATA. case_protect s; frame_goal.
  - unfold read_OAMDATA. cbn [snd]. case_protect s; frame_goal.
  - unfold write_PPUSCROLL, flip_addr_latch.
    destruct (negb (is_ready s)); [frame_goal|].
    case_protect s;
      destruct (uint8_t (Z.rem (_addr_latch s + 1) 2) =? 1); frame_goal.
  - unfold write_PPUADDR, flip_addr_latch.
    case_protect s;
      destruct (uint8_t (Z.rem (_addr_latch s + 1) 2) =? 1); frame_goal.
  - unfold write_PPUDATA, write_byte in Hexec. revert Hexec.
    case_protect s; destruct (_ <? _)%nat; simpl; intros [= <-];
      frame_goal.
  - unfold read_PPUDATA, read_byte in Hexec. revert Hexec.
    destruct (_vram s !! _); simpl; [|done].
    intros [= <-]. case_protect s; frame_goal.
  - frame_goal.
Qed.

Lemma exec_op_frame_witness :
  _vblank_started (write_OAMDATA 0x33 (set_vblank_started true blank_ppu))
  = _vblank_started (set_vblank_started true blank_ppu) ∧
  _vram (write_OAMDATA 0x33 (set_vblank_started true blank_ppu))
  = _vram (set_vblank_started true blank_ppu).
Proof.
  destruct (exec_op_frame (λ _, 0) (Write_OAMDATA 0x33)
              (set_vblank_started true blank_ppu)
              (write_OAMDATA 0x33 (set_vblank_started true blank_ppu)))
    as (_ & _ & Hvblank & _ & Hvram & _); [reflexivity | reflexivity |].
  split.
  - destruct Hvblank as [Hkept | (Hop & _)];
      [exact Hkept | discriminate Hop].
  - apply Hvram. intros v. discriminate.
Defined.

(** ** The types of the members *)

Lemma uint8_t_is_uint8 (x : Z) : is_uint8 (uint8_t x).
Proof. apply Z.mod_pos_bound. lia. Qed.









(** ** The communication latch *)

(** X12: with protection off, a write of a byte to a register leaves that
    byte in the latch (for PPUCTRL, PPUMASK and PPUSCROLL once the PPU is
    ready), and the low five bits of the status read that follows are the
    low five bits of the byte. *)
Theorem exec_op_latch
    (ram : Z → Z) (op : reg_op) (val : Z) (s s' : nes_ppu) :
  reg_op_written op = Some val → 0 <= val < 2 ^ 8 →
  _protect_register s = false →
  (reg_op_gated op = true → is_ready s = true) →
  exec_op ram op s = Some s' →
  read_latch s' = val ∧
  Z.land (fst (read_PPUSTATUS s')) 0x1f = Z.land val 0x1f.
Proof.
  intros Hop Hval Hprot Hready Hexec.
  assert (_latch s' = val) as Hlatch.
  { destruct op; simpl in Hop, Hready; cbn [exec_op] in Hexec; try done;
      injection Hop as ->; try (injection Hexec as <-);
      try (rewrite Hready by done).
    - unfold write_PPUCTRL. rewrite Hready by done. by case_protect s.
    - unfold write_PPUMASK. rewrite Hready by done. by case_protect s.
    - unfold write_OAMADDR. by case_protect s.
    - unfold write_OAMDATA. by case_protect s.
    - unfold write_PPUSCROLL, flip_addr_latch. rewrite Hready by done.
      case_protect s;
        by destruct (uint8_t (Z.rem (_addr_latch s + 1) 2) =? 1).
    - unfold write_PPUADDR, flip_addr_latch.
      case_protect s;
        by destruct (uint8_t (Z.rem (_addr_latch s + 1) 2) =? 1).
    - unfold write_PPUDATA, write_byte in Hexec. revert Hexec.
      case_protect s; destruct (_ <? _)%nat; simpl; intros [= <-]; done. }
  split; [done|].
  rewrite read_PPUSTATUS_value, Hlatch.
  by apply status_byte_decode.
Qed.

Lemma exec_op_latch_witness :
  read_latch (write_PPUADDR 0xe5 blank_ppu) = 0xe5 ∧
  Z.land (fst (read_PPUSTATUS (write_PPUADDR 0xe5 blank_ppu))) 0x1f = 0x05.
Proof.
  apply (exec_op_latch (λ _, 0) (Write_PPUADDR 0xe5) 0xe5 blank_ppu).
  - reflexivity.
  - lia.
  - reflexivity.
  - intros Hgated. discriminate.
  - reflexivity.
Defined.

(** ** Filling object memory *)

Lemma write_OAMDATA_run_length (vs : list Z) :
  ∀ s, length (_oam (foldl (λ s v, write_OAMDATA v s) s vs))
       = length (_oam s).
Proof.
  induction vs as [|v vs IH]; intros s; [done|].
  cbn [foldl]. rewrite IH, write_OAMDATA_oam. apply length_insert.
Qed.

Lemma write_OAMADDR_effect (val : Z) (s : nes_ppu) :
  _oam_addr (write_OAMADDR val s) = val ∧
  _oam (write_OAMADDR val s) = _oam s.
Proof. unfold write_OAMADDR. by case_protect s. Qed.

(** X13: a run of at most 256 writes to OAMDATA after a write of [a] to
    OAMADDR fills OAM from entry [a] on, wrapping from entry 255 to entry
    0: the byte number [i] of the run is in entry [(a + i) mod 256], and a
    read of OAMDATA with the OAM address set there returns it. *)
Theorem write_OAMDATA_fill (a : Z) (vs : list Z) (s : nes_ppu) :
  length (_oam s) = Z.to_nat PPU_OAM_SIZE → 0 <= a < 2 ^ 8 →
  (length vs <= 256)%nat →
  let s' := foldl (λ s v, write_OAMDATA v s) (write_OAMADDR a s) vs in
  ∀ i v, vs !! i = Some v →
    _oam s' !! Z.to_nat ((a + Z.of_nat i) mod 2 ^ 8) = Some v ∧
    fst (read_OAMDATA (write_OAMADDR ((a + Z.of_nat i) mod 2 ^ 8) s')) = v.
Proof.
  intros Hlen Ha Hvs s'.
  assert (∀ i v, vs !! i = Some v →
            _oam s' !! Z.to_nat ((a + Z.of_nat i) mod 2 ^ 8) = Some v)
    as Hfill.
  { unfold s'. clear s'. induction vs as [|x vs IH] using rev_ind.
    { intros i v Hi. done. }
    rewrite length_app in Hvs. simpl in Hvs.
    intros i v Hi. rewrite foldl_app. cbn [foldl].
    set (s1 := foldl (λ s v, write_OAMDATA v s) (write_OAMADDR a s) vs)
      in *.
    assert (_oam_addr s1 = (a + Z.of_nat (length vs)) mod 2 ^ 8) as Haddr.
    { unfold s1. rewrite write_OAMDATA_run_oam_addr;
        rewrite (proj1 (write_OAMADDR_effect a s)); done. }
    assert (length (_oam s1) = Z.to_nat PPU_OAM_SIZE) as Hlen1.
    { unfold s1. rewrite write_OAMDATA_run_length.
      by rewrite (proj2 (write_OAMADDR_effect a s)). }
    rewrite write_OAMDATA_oam, Haddr.
    pose proof (Z.mod_pos_bound (a + Z.of_nat (length vs)) (2 ^ 8)) as Hb.
    destruct (decide (i < length vs)%nat) as [Hlt|Hge].
    - rewrite lookup_app_l in Hi by done.
      rewrite list_lookup_insert_ne; [apply IH; [lia|done]|].
      intros Heq. apply Z2Nat.inj in Heq; [|lia|].
      + revert Heq. Z.div_mod_to_equations. lia.
      + pose proof (Z.mod_pos_bound (a + Z.of_nat i) (2 ^ 8)). lia.
    - assert (i = length vs) as ->.
      { apply lookup_lt_Some in Hi. rewrite length_app in Hi.
        simpl in Hi. lia. }
      rewrite list_lookup_middle in Hi by done. injection Hi as ->.
      apply list_lookup_insert_eq. rewrite Hlen1. unfold PPU_OAM_SIZE. lia. }
  intros i v Hi. split; [by apply Hfill|].
  unfold read_OAMDATA. cbn [fst].
  destruct (write_OAMADDR_effect ((a + Z.of_nat i) mod 2 ^ 8) s')
    as [-> ->].
  by rewrite (Hfill i v Hi).
Qed.

Lemma write_OAMDATA_fill_witness :
  _oam (foldl (λ s v, write_OAMDATA v s) (write_OAMADDR 0xff blank_ppu)
          [0x11; 0x22; 0x33])
  !! Z.to_nat ((0xff + Z.of_nat 1) mod 2 ^ 8) = Some 0x22.
Proof.
  destruct (write_OAMDATA_fill 0xff [0x11; 0x22; 0x33] blank_ppu)
    with (i := 1%nat) (v := 0x22) as [Hentry _].
  - reflexivity.
  - lia.
  - simpl. lia.
  - reflexivity.
  - exact Hentry.
Defined.

(** ** Construction *)

(** X14: the constructor gives the PPU 0x4000 bytes of video memory and
    0x100 bytes of OAM, all zero, whatever the other members hold: every
    read through [read_byte] at a 16-bit address below 0x4000 returns 0,
    a read at an address from 0x4000 on has no defined result, and every
    OAM entry is 0. *)
Theorem nes_ppu_new_zeroed (garbage : nes_ppu) (a i : Z) :
  0 <= a < 2 ^ 16 → 0 <= i < PPU_OAM_SIZE →
  read_byte a (nes_ppu_new garbage)
  = (if a <? PPU_VRAM_SIZE then Some 0 else None) ∧
  _oam (nes_ppu_new garbage) !! Z.to_nat i = Some 0 ∧
  length (_vram (nes_ppu_new garbage)) = Z.to_nat PPU_VRAM_SIZE ∧
  length (_oam (nes_ppu_new garbage)) = Z.to_nat PPU_OAM_SIZE.
Proof.
  intros Ha Hi.
  destruct (redirect_addr_uint16 a Ha) as [Hr Hside].
  unfold nes_ppu_new, read_byte. cbn [_vram _oam set_oam set_vram].
  split; [|split; [|split]].
  - destruct (a <? PPU_VRAM_SIZE) eqn:Hlt.
    + apply lookup_replicate_2. lia.
    + apply lookup_ge_None. rewrite length_replicate. lia.
  - apply lookup_replicate_2. lia.
  - apply length_replicate.
  - apply length_replicate.
Qed.

Lemma nes_ppu_new_zeroed_witness :
  read_byte 0x3456 (nes_ppu_new palette_ppu) = Some 0 ∧
  read_byte 0x4000 (nes_ppu_new palette_ppu) = None.
Proof.
  destruct (nes_ppu_new_zeroed palette_ppu 0x3456 0) as (Hin & _);
    [lia | vm_compute; split; [discriminate | reflexivity] |].
  destruct (nes_ppu_new_zeroed palette_ppu 0x4000 0) as (Hout & _);
    [lia | vm_compute; split; [discriminate | reflexivity] |].
  split; [exact Hin | exact Hout].
Defined.

(** ** The translation in closed form *)

(** X15: on the 16KB address space the translation is this arithmetic:
    an address below 0x3000 is kept, an address of [0x3000, 0x3f00) is
    moved down by 0x1000, and an address from 0x3f00 on is translated to
    0x3f00 plus its low four bits.  So the 32 palette addresses share 16
    bytes: each sprite palette address 0x3f10 + k is stored where the
    background palette address 0x3f00 + k is. *)
Theorem redirect_addr_closed_form (a : Z) :
  0 <= a < PPU_VRAM_SIZE →
  redirect_addr a =
    if a <? 0x3000 then a
    else if a <? 0x3f00 then a - 0x1000
    else 0x3f00 + a mod 0x10.
Proof.
  intros Ha.
  pose (p := λ a, redirect_addr a =?
                  if a <? 0x3000 then a
                  else if a <? 0x3f00 then a - 0x1000
                  else 0x3f00 + a mod 0x10).
  assert (p a = true) as Hp.
  { apply (forall_range 0 PPU_VRAM_SIZE p); [vm_compute; reflexivity | lia]. }
  unfold p in Hp. by apply Z.eqb_eq in Hp.
Qed.

Lemma redirect_addr_closed_form_witness :
  redirect_addr 0x3f17 = 0x3f07 ∧ redirect_addr 0x3fe3 = 0x3f03.
Proof.
  pose proof (redirect_addr_closed_form 0x3f17) as Hsprite.
  pose proof (redirect_addr_closed_form 0x3fe3) as Hmirror.
  split.
  - apply Hsprite. vm_compute. split; [discriminate | reflexivity].
  - apply Hmirror. vm_compute. split; [discriminate | reflexivity].
Defined.
